(** * Frodo Quest: a walking tracker in two variants

    The repository holds two React components over the same idea:
    - [src/backup.jsx] (component [App]): logs with a date, a goal, and a
      ramp plan of weekly stages;
    - a second component ([MountDoomTracker]): entries with "edit last" and
      "delete last", and a reward toast.

    This development embeds the pure helpers of both files and their event
    handlers.  Conventions of the embedding:
    - a JavaScript number is a [num]: [NaN], the two infinities, or a
      finite value held as an exact rational ([Q]); rounding of binary
      floating point and the sign of zero are not represented, except in
      the module [Double], which runs the sums of the handlers on
      binary64 floats;
    - integers that the code only counts with (day indexes, weeks,
      milliseconds) are [Z];
    - a component's [useState] cells are the fields of a record, an event
      handler is the list of setter calls it makes, and [run] applies them
      in order;
    - what the platform supplies ([parseFloat], [Number], [new Date],
      [crypto.randomUUID], the clock) is a parameter of the definitions
      that use it; a saved text is given by the value it parses to. *)

From Stdlib Require Import List String Ascii ZArith QArith Qround Bool Lia Lqa.
From Stdlib Require Import Permutation Sorted.
From Stdlib Require PrimFloat.
Import ListNotations.

Local Open Scope string_scope.
Local Open Scope Z_scope.

(** ** JavaScript numbers *)

Inductive num : Type :=
| NaN
| PInf
| NInf
| Fin (q : Q).

Module JS.

Definition Qltb (p q : Q) : bool := negb (Qle_bool q p).

(** [isNaN(n)] and [Number.isFinite(n)]. *)
Definition isNaN (n : num) : bool :=
  match n with NaN => true | _ => false end.

Definition isFinite (n : num) : bool :=
  match n with Fin _ => true | _ => false end.

(** [a < b], [a <= b], [a > b], [a >= b]: every comparison with [NaN] is
    false. *)
Definition lt (a b : num) : bool :=
  match a, b with
  | NaN, _ | _, NaN => false
  | PInf, _ => false
  | NInf, NInf => false
  | NInf, _ => true
  | Fin _, PInf => true
  | Fin _, NInf => false
  | Fin p, Fin q => Qltb p q
  end.

Definition le (a b : num) : bool :=
  match a, b with
  | NaN, _ | _, NaN => false
  | PInf, PInf => true
  | PInf, _ => false
  | NInf, _ => true
  | Fin _, PInf => true
  | Fin _, NInf => false
  | Fin p, Fin q => Qle_bool p q
  end.

Definition gt (a b : num) : bool := lt b a.
Definition ge (a b : num) : bool := le b a.

(** Truthiness of a number: [0] and [NaN] are falsy. *)
Definition truthy (n : num) : bool :=
  match n with
  | NaN => false
  | Fin q => negb (Qeq_bool q 0)
  | _ => true
  end.

(** [a || b] on numbers. *)
Definition or_else (a b : num) : num := if truthy a then a else b.

Definition neg (a : num) : num :=
  match a with
  | NaN => NaN
  | PInf => NInf
  | NInf => PInf
  | Fin q => Fin (- q)%Q
  end.

Definition add (a b : num) : num :=
  match a, b with
  | NaN, _ | _, NaN => NaN
  | PInf, NInf | NInf, PInf => NaN
  | PInf, _ | _, PInf => PInf
  | NInf, _ | _, NInf => NInf
  | Fin p, Fin q => Fin (p + q)%Q
  end.

Definition sub (a b : num) : num := add a (neg b).

(** The sign an infinity takes when scaled by the finite [q]; a zero
    counts as positive zero. *)
Definition signed (positive : bool) : num := if positive then PInf else NInf.

Definition mul (a b : num) : num :=
  match a, b with
  | NaN, _ | _, NaN => NaN
  | PInf, PInf | NInf, NInf => PInf
  | PInf, NInf | NInf, PInf => NInf
  | PInf, Fin q | Fin q, PInf =>
      if Qeq_bool q 0 then NaN else signed (Qltb 0 q)
  | NInf, Fin q | Fin q, NInf =>
      if Qeq_bool q 0 then NaN else signed (Qltb q 0)
  | Fin p, Fin q => Fin (p * q)%Q
  end.

Definition div (a b : num) : num :=
  match a, b with
  | NaN, _ | _, NaN => NaN
  | PInf, PInf | PInf, NInf | NInf, PInf | NInf, NInf => NaN
  | PInf, Fin q => signed (Qle_bool 0 q)
  | NInf, Fin q => signed (Qltb q 0)
  | Fin _, PInf | Fin _, NInf => Fin 0
  | Fin p, Fin q =>
      if Qeq_bool q 0
      then (if Qeq_bool p 0 then NaN else signed (Qltb 0 p))
      else Fin (p / q)%Q
  end.

(** [Math.max(a, b)] and [Math.min(a, b)]: [NaN] if either is. *)
Definition max (a b : num) : num :=
  match a, b with
  | NaN, _ | _, NaN => NaN
  | _, _ => if lt a b then b else a
  end.

Definition min (a b : num) : num :=
  match a, b with
  | NaN, _ | _, NaN => NaN
  | _, _ => if lt b a then b else a
  end.

(** [Math.round(n)]: the nearest integer, a half going up. *)
Definition round (n : num) : num :=
  match n with
  | Fin q => Fin (inject_Z (Qfloor (q + (1 # 2))))
  | _ => n
  end.

(** The integer that a finite whole number is (0 for the rest). *)
Definition toZ (n : num) : Z :=
  match n with
  | Fin q => Qfloor q
  | _ => 0
  end.

(** [Math.ceil(n)]. *)
Definition ceil (n : num) : num :=
  match n with
  | Fin q => Fin (inject_Z (Qceiling q))
  | _ => n
  end.

(** [a === b] on numbers: [NaN] equals nothing. *)
Definition strictEq (a b : num) : bool :=
  match a, b with
  | PInf, PInf | NInf, NInf => true
  | Fin p, Fin q => Qeq_bool p q
  | _, _ => false
  end.

(** Equality of numbers as values: rationals up to [Qeq]. *)
Definition eqv (a b : num) : Prop :=
  match a, b with
  | NaN, NaN | PInf, PInf | NInf, NInf => True
  | Fin p, Fin q => (p == q)%Q
  | _, _ => False
  end.

End JS.

(** [l.at(-1)], also written [l[l.length - 1]]: the last element, or
    [undefined] ([None]) on the empty array. *)
Fixpoint at_last {A : Type} (l : list A) : option A :=
  match l with
  | [] => None
  | [x] => Some x
  | _ :: l' => at_last l'
  end.

(** [a ?? b] and, on objects (which are all truthy), [a || b]. *)
Definition orElse {A : Type} (a : option A) (b : option A) : option A :=
  match a with
  | Some x => Some x
  | None => b
  end.

(** [l.sort(cmp)]: the sort of the language is stable, so for a comparator
    that orders its arguments consistently the result is the one of
    insertion from the right, an element going before the first one it
    does not compare greater than.  [Gt] is a positive result of [cmp]. *)
Section Sort.

Context {A : Type}.
Variable cmp : A -> A -> comparison.

Fixpoint insertBy (x : A) (l : list A) : list A :=
  match l with
  | [] => [x]
  | y :: ys =>
      match cmp x y with
      | Gt => y :: insertBy x ys
      | _ => x :: y :: ys
      end
  end.

Definition stableSort (l : list A) : list A := fold_right insertBy [] l.

End Sort.

(** ** Milestones (the record of both tables) *)

Module Milestone.
Record t : Type := mk {
  id : string;
  name : string;
  miles : Q;
  event : string;
  reward : string
}.
End Milestone.

(** ** The milestone resolver of the second component

    [getUnlockedMilestone] and [getNextMilestone] read the constant
    [MILESTONES]; here the table is a parameter, instantiated below. *)

Section Resolver.

Variable MILESTONES : list Milestone.t.

Definition getUnlockedMilestone (miles : num) : option Milestone.t :=
  orElse
    (find (fun m => JS.ge miles (Fin (Milestone.miles m))) (rev MILESTONES))
    (hd_error MILESTONES).

Definition getNextMilestone (miles : num) : option Milestone.t :=
  find (fun m => JS.gt (Fin (Milestone.miles m)) miles) MILESTONES.

End Resolver.

(** ** The persisted record

    [localStorage] keeps one text per key.  The text layer of
    [JSON.stringify] and [JSON.parse] is not modelled: a saved text is
    given by the value it parses to, or by the fact that it does not
    parse.  What [JSON.stringify] does to values is modelled: a number
    that is not finite is written as [null]. *)

#[local] Set Warnings "-register-all".

Inductive json : Type :=
| JNull
| JBool (b : bool)
| JNumber (q : Q)
| JString (s : string)
| JArray (items : list json)
| JObject (fields : list (string * json)).

Inductive stored : Type :=
| Absent                 (* [getItem] returns [null] *)
| Unparseable            (* a text on which [JSON.parse] throws *)
| Document (j : json).   (* a text that parses to [j] *)

Fixpoint assoc (key : string) (fields : list (string * json)) : option json :=
  match fields with
  | [] => None
  | (k, v) :: rest => if (k =? key)%string then Some v else assoc key rest
  end.

(** [saved?.key] followed by [??]: [None] when the property is missing or
    [null], and on any [saved] that is not an object. *)
Definition prop (saved : json) (key : string) : option json :=
  match saved with
  | JObject fields =>
      match assoc key fields with
      | Some JNull => None
      | r => r
      end
  | _ => None
  end.

Definition numJ (n : num) : json :=
  match n with
  | Fin q => JNumber q
  | _ => JNull
  end.

(** Reading a saved value at the type a state cell has in this model.
    The components store whatever value was saved; [None] says that the
    value is of another type, which the records below cannot hold. *)
Definition asNum (j : json) : option num :=
  match j with JNumber q => Some (Fin q) | _ => None end.

Definition asInt (j : json) : option Z :=
  match j with
  | JNumber q => if Qeq_bool (inject_Z (Qfloor q)) q then Some (Qfloor q) else None
  | _ => None
  end.

Definition asString (j : json) : option string :=
  match j with JString s => Some s | _ => None end.

Definition asBool (j : json) : option bool :=
  match j with JBool b => Some b | _ => None end.

Definition obind {A B : Type} (a : option A) (k : A -> option B) : option B :=
  match a with
  | Some x => k x
  | None => None
  end.

Fixpoint traverse {A B : Type} (f : A -> option B) (l : list A)
  : option (list B) :=
  match l with
  | [] => Some []
  | x :: rest =>
      obind (f x) (fun y => obind (traverse f rest) (fun ys => Some (y :: ys)))
  end.

Definition asArray {A : Type} (f : json -> option A) (j : json)
  : option (list A) :=
  match j with JArray items => traverse f items | _ => None end.

(** [saved?.key ?? default], read at the cell's type. *)
Definition cell {A : Type} (saved : json) (key : string)
    (read : json -> option A) (default : A) : option A :=
  match prop saved key with
  | None => Some default
  | Some v => read v
  end.

(** ** [src/backup.jsx] *)

Module Stage.
Record t : Type := mk {
  weeks : Z;
  milesPerDay : num
}.
End Stage.

Module Log.
Record t : Type := mk {
  id : string;
  date : string;
  miles : num
}.
End Log.

Module Backup.

Definition STORAGE_KEY : string := "mount-doom-tracker-v2".

Definition DEFAULT_MILESTONES : list Milestone.t :=
  [ Milestone.mk "shire" "The Shire (Bag End)" 0
      "The journey begins." "Pick your playlist.";
    Milestone.mk "bree" "Bree" 120
      "You’ve left comfort behind." "Treat yourself to coffee.";
    Milestone.mk "rivendell" "Rivendell" 570
      "A place of rest." "Buy something new for walking.";
    Milestone.mk "moria" "Moria" 1030
      "A tough stretch." "Movie night: Fellowship.";
    Milestone.mk "lorien" "Lothlórien" 1135
      "Calm checkpoint." "Take a peaceful walk.";
    Milestone.mk "rauros" "Rauros" 1540
      "Hard part begins." "Write a note to future you.";
    Milestone.mk "blackgate" "Black Gate" 1685
      "Final stretch." "Favorite meal.";
    Milestone.mk "cirith" "Cirith Ungol" 1740
      "Rough climb." "Light day and rest.";
    Milestone.mk "doom" "Mount Doom" 1800
      "Quest complete." "Big celebration." ]%Q.

Definition DEFAULT_RAMP_STAGES : list Stage.t :=
  [ Stage.mk 4 (Fin 2);
    Stage.mk 4 (Fin (5 # 2));
    Stage.mk 4 (Fin 3);
    Stage.mk 4 (Fin (7 # 2));
    Stage.mk 4 (Fin 4);
    Stage.mk 4 (Fin (9 # 2)) ].

Definition clamp (n min max : num) : num := JS.max min (JS.min max n).

(** *** The ramp plan *)

Record stageInfo : Type := mkStageInfo {
  stageIndex : nat;
  milesPerDay : option num   (* [None] is [null] *)
}.

(** The [for] loop of [getStageForDayIndex], from index [i] on: [stages]
    is what is left of the array and [remaining] the days not yet
    accounted for. *)
Fixpoint stageFrom (i : nat) (remaining : Z) (stages : list Stage.t)
  : stageInfo :=
  match stages with
  | [] => mkStageInfo i None
  | s :: rest =>
      if remaining <? Stage.weeks s * 7
      then mkStageInfo i (Some (Stage.milesPerDay s))
      else stageFrom (S i) (remaining - Stage.weeks s * 7) rest
  end.

Definition getStageForDayIndex (dayIndex : Z) (stages : list Stage.t)
  : stageInfo :=
  stageFrom 0 dayIndex stages.

(** [dayIndex % 7 < daysPerWeek]; [%] takes the sign of the dividend. *)
Definition isActiveDay (dayIndex : Z) (daysPerWeek : num) : bool :=
  let dayOfWeek := Z.rem dayIndex 7 in
  JS.lt (Fin (inject_Z dayOfWeek)) daysPerWeek.

Section Dates.

(** [toDate(iso).getTime()]: the milliseconds of local midnight of the
    day [iso], or [None] for an Invalid Date (whose time is [NaN]). *)
Variable toDate : string -> option Z.

(** [a < b] on two [Date]s; false when either is invalid. *)
Definition dateLt (a b : option Z) : bool :=
  match a, b with
  | Some x, Some y => x <? y
  | _, _ => false
  end.

(** The difference of the two midnights in milliseconds, in whole days
    rounded down, plus one.  [None] stands for the [NaN] that an invalid
    date gives.  (Two local midnights that a change to daylight saving
    brings an hour closer are counted as one day less apart.) *)
Definition daysDiffInclusive (startISO endISO : string) : option Z :=
  match toDate startISO, toDate endISO with
  | Some a, Some b =>
      let ms := b - a in
      let days := ms / (1000 * 60 * 60 * 24) in
      Some (days + 1)
  | _, _ => None
  end.

(** [stageInfo.milesPerDay ?? capMiles] *)
Definition orCap (stageInfo : stageInfo) (capMiles : num) : num :=
  match milesPerDay stageInfo with
  | Some r => r
  | None => capMiles
  end.

(** The [for] loop of [plannedMilesThroughDate]: [n] iterations are left,
    the counter is [i]. *)
Fixpoint plannedFrom (n : nat) (i : Z) (sum : num)
    (stages : list Stage.t) (capMiles daysPerWeek : num) : num :=
  match n with
  | O => sum
  | S n' =>
      if negb (isActiveDay i daysPerWeek)
      then plannedFrom n' (i + 1) sum stages capMiles daysPerWeek
      else
        let stageInfo := getStageForDayIndex i stages in
        let mpd := orCap stageInfo capMiles in
        plannedFrom n' (i + 1) (JS.add sum mpd) stages capMiles daysPerWeek
  end.

Definition plannedMilesThroughDate (planStartISO targetISO : string)
    (stages : list Stage.t) (capMiles daysPerWeek : num) : num :=
  if (planStartISO =? "")%string || (targetISO =? "")%string then Fin 0
  else if dateLt (toDate targetISO) (toDate planStartISO) then Fin 0
  else
    match daysDiffInclusive planStartISO targetISO with
    | None => Fin 0   (* [i < NaN] is false: the loop does not run *)
    | Some totalDays =>
        plannedFrom (Z.to_nat totalDays) 0 (Fin 0) stages capMiles daysPerWeek
    end.

Definition todaysPlannedMiles (planStartISO todayISOValue : string)
    (stages : list Stage.t) (capMiles daysPerWeek : num) : num :=
  if (planStartISO =? "")%string then Fin 0
  else if dateLt (toDate todayISOValue) (toDate planStartISO) then Fin 0
  else
    match daysDiffInclusive planStartISO todayISOValue with
    | None => Fin 0   (* [NaN % 7 < daysPerWeek] is false: not active *)
    | Some d =>
        let dayIndex := d - 1 in
        if negb (isActiveDay dayIndex daysPerWeek) then Fin 0
        else
          let stageInfo := getStageForDayIndex dayIndex stages in
          orCap stageInfo capMiles
    end.

End Dates.

(** *** The component [App]: state, derived values, handlers *)

(** The messages the modelled handlers put into the toast, and their
    texts; [formatMiles] is the number formatting of the locale.
    ([resetAll] and the inputs of the goal and of the plan's start, cap
    and active days are not modelled.) *)
Inductive message : Type :=
| NoToast
| EnterMiles
| Unlocked (last : Milestone.t)
| LoggedToNext (toGo : num)
| QuestComplete
| EntryRemoved.

Definition toastText (formatMiles : num -> string) (t : message) : string :=
  match t with
  | NoToast => ""
  | EnterMiles => "Enter miles greater than 0"
  | Unlocked last =>
      "Unlocked: " ++ Milestone.name last ++ ". " ++ Milestone.event last
      ++ " Reward: " ++ Milestone.reward last
  | LoggedToNext toGo =>
      "Logged! " ++ formatMiles toGo ++ " miles to next milestone."
  | QuestComplete => "Logged! Quest complete."
  | EntryRemoved => "Entry removed."
  end.

Record state : Type := mkState {
  goalMiles : num;
  goalDate : string;
  logs : list Log.t;
  entryMiles : string;
  entryDate : string;
  toast : message;
  selectedMilestoneId : option string;
  planEnabled : bool;
  planStartDate : string;
  capMiles : num;
  daysPerWeek : num;
  rampStages : list Stage.t
}.

(** The setter calls a handler makes. *)
Inductive setter : Type :=
| setLogs (f : list Log.t -> list Log.t)
| setEntryMiles (s : string)
| setEntryDate (s : string)
| setToast (t : message)
| setRampStages (f : list Stage.t -> list Stage.t).

Definition apply (st : state) (c : setter) : state :=
  match c with
  | setLogs f =>
      mkState (goalMiles st) (goalDate st) (f (logs st)) (entryMiles st)
        (entryDate st) (toast st) (selectedMilestoneId st) (planEnabled st)
        (planStartDate st) (capMiles st) (daysPerWeek st) (rampStages st)
  | setEntryMiles s =>
      mkState (goalMiles st) (goalDate st) (logs st) s
        (entryDate st) (toast st) (selectedMilestoneId st) (planEnabled st)
        (planStartDate st) (capMiles st) (daysPerWeek st) (rampStages st)
  | setEntryDate s =>
      mkState (goalMiles st) (goalDate st) (logs st) (entryMiles st)
        s (toast st) (selectedMilestoneId st) (planEnabled st)
        (planStartDate st) (capMiles st) (daysPerWeek st) (rampStages st)
  | setToast t =>
      mkState (goalMiles st) (goalDate st) (logs st) (entryMiles st)
        (entryDate st) t (selectedMilestoneId st) (planEnabled st)
        (planStartDate st) (capMiles st) (daysPerWeek st) (rampStages st)
  | setRampStages f =>
      mkState (goalMiles st) (goalDate st) (logs st) (entryMiles st)
        (entryDate st) (toast st) (selectedMilestoneId st) (planEnabled st)
        (planStartDate st) (capMiles st) (daysPerWeek st) (f (rampStages st))
  end.

Definition run (calls : list setter) (st : state) : state :=
  fold_left apply calls st.

(** The toasts a handler raises, one for each call of [setToast]. *)
Definition toasts (calls : list setter) : list message :=
  flat_map (fun c => match c with setToast t => [t] | _ => [] end) calls.

(** [logs.reduce((s, r) => s + Number(r.miles || 0), 0)] *)
Definition totalMiles (logs : list Log.t) : num :=
  fold_left (fun s r => JS.add s (JS.or_else (Log.miles r) (Fin 0)))
    logs (Fin 0).

Definition progressPct (totalMiles goalMiles : num) : num :=
  let denom := JS.or_else goalMiles (Fin 1) in
  clamp (JS.mul (JS.div totalMiles denom) (Fin 100)) (Fin 0) (Fin 100).

(** The denominator [Number(goalMiles) || 1] on a finite goal. *)
Definition denomOf (g : Q) : Q := if Qeq_bool g 0 then 1%Q else g.

Definition milesRemaining (totalMiles goalMiles : num) : num :=
  JS.max (Fin 0) (JS.sub (JS.or_else goalMiles (Fin 0)) totalMiles).

Section App.

(** [const milestones = DEFAULT_MILESTONES]. *)
Variable milestones : list Milestone.t.

(** [Number(s)] on the text of an input field. *)
Variable Number : string -> num.

Definition nextMilestone (totalMiles : num) : option Milestone.t :=
  find (fun m => JS.lt totalMiles (Fin (Milestone.miles m))) milestones.

Definition reachedMilestones (totalMiles : num) : list Milestone.t :=
  filter (fun m => JS.ge totalMiles (Fin (Milestone.miles m))) milestones.

Definition lastReached (totalMiles : num) : option Milestone.t :=
  orElse (at_last (reachedMilestones totalMiles)) (hd_error milestones).

(** The milestones [addLog] finds newly reached between two totals. *)
Definition newly (before after : num) : list Milestone.t :=
  filter
    (fun x => JS.lt before (Fin (Milestone.miles x))
              && JS.ge after (Fin (Milestone.miles x)))
    milestones.

(** [(a, b) => b.date.localeCompare(a.date)]: the dates are texts of the
    form YYYY-MM-DD, on which the order of the locale is the order of the
    characters. *)
Definition byDateDesc (a b : Log.t) : comparison :=
  String.compare (Log.date b) (Log.date a).

(** The values [addLog] lets through its guard. *)
Definition accepts (m : num) : bool :=
  negb (negb (JS.isFinite m) || JS.le m (Fin 0)).

(** [addLog], with [uuid] the identifier the platform hands out
    ([crypto.randomUUID()], or the clock as text). *)
Definition addLog (uuid : string) (st : state) : list setter :=
  let m := Number (entryMiles st) in
  if negb (JS.isFinite m) || JS.le m (Fin 0)
  then [setToast EnterMiles]
  else
    let before := totalMiles (logs st) in
    let after := JS.add before m in
    let newLog := Log.mk uuid (entryDate st) m in
    [ setLogs (fun prev => stableSort byDateDesc (prev ++ [newLog])%list);
      setEntryMiles "";
      match at_last (newly before after) with
      | Some last => setToast (Unlocked last)
      | None =>
          match nextMilestone before with
          | Some nm =>
              setToast
                (LoggedToNext
                   (JS.max (Fin 0) (JS.sub (Fin (Milestone.miles nm)) after)))
          | None => setToast QuestComplete
          end
      end ].

Definition removeLog (id : string) (st : state) : list setter :=
  [ setLogs (fun prev =>
      filter (fun x => negb (Log.id x =? id)%string) prev);
    setToast EntryRemoved ].

(** [copy[index] = f(copy[index])].  The stage editor passes the index of
    a stage of the array; past the end, where the source would throw,
    the array is returned as it is. *)
Fixpoint updateAt (index : nat) (f : Stage.t -> Stage.t) (l : list Stage.t)
  : list Stage.t :=
  match l, index with
  | [], _ => []
  | s :: rest, O => f s :: rest
  | s :: rest, S i => s :: updateAt i f rest
  end.

(** [clamp(Math.round(v || 1), 1, 52)], a whole number, as the [Z] that
    the stage keeps. *)
Definition weeksOf (v : num) : Z :=
  JS.toZ (clamp (JS.round (JS.or_else v (Fin 1))) (Fin 1) (Fin 52)).

(** [clamp(v || 0, 0.5, Number(capMiles) || 5)] *)
Definition rateOf (v capMiles : num) : num :=
  clamp (JS.or_else v (Fin 0)) (Fin (1 # 2)) (JS.or_else capMiles (Fin 5)).

Definition updateStage (index : nat) (field value : string) (st : state)
  : list setter :=
  [ setRampStages (fun prev =>
      let copy := prev in
      let v := Number value in
      let copy :=
        if (field =? "weeks")%string
        then updateAt index
               (fun s => Stage.mk (weeksOf v) (Stage.milesPerDay s)) copy
        else copy in
      let copy :=
        if (field =? "milesPerDay")%string
        then updateAt index
               (fun s => Stage.mk (Stage.weeks s) (rateOf v (capMiles st)))
               copy
        else copy in
      copy) ].

(** What the user can do to the log and to the plan. *)
Inductive event : Type :=
| typeMiles (s : string)
| pickDate (s : string)
| clickAdd (uuid : string)
| clickDelete (id : string)
| editStage (index : nat) (field value : string).

Definition handler (e : event) (st : state) : list setter :=
  match e with
  | typeMiles s => [setEntryMiles s]
  | pickDate s => [setEntryDate s]
  | clickAdd uuid => addLog uuid st
  | clickDelete id => removeLog id st
  | editStage index field value => updateStage index field value st
  end.

Definition step (st : state) (e : event) : state := run (handler e st) st.

Definition steps (es : list event) (st : state) : state :=
  fold_left step es st.

End App.

(** *** Saving and loading *)

Definition logJ (r : Log.t) : json :=
  JObject [ ("id", JString (Log.id r));
            ("date", JString (Log.date r));
            ("miles", numJ (Log.miles r)) ].

Definition stageJ (s : Stage.t) : json :=
  JObject [ ("weeks", JNumber (inject_Z (Stage.weeks s)));
            ("milesPerDay", numJ (Stage.milesPerDay s)) ].

(** The effect that writes the record after every change. *)
Definition persist (st : state) : stored :=
  Document
    (JObject [ ("goalMiles", numJ (goalMiles st));
               ("goalDate", JString (goalDate st));
               ("logs", JArray (map logJ (logs st)));
               ("planEnabled", JBool (planEnabled st));
               ("planStartDate", JString (planStartDate st));
               ("capMiles", numJ (capMiles st));
               ("daysPerWeek", numJ (daysPerWeek st));
               ("rampStages", JArray (map stageJ (rampStages st))) ]).

(** [safeParse(localStorage.getItem(STORAGE_KEY), fallback)]:
    [JSON.parse(null)] is [null], and [null ?? fallback] is [fallback]. *)
Definition safeParse (str : stored) (fallback : json) : json :=
  match str with
  | Absent => fallback
  | Unparseable => fallback
  | Document JNull => fallback
  | Document j => j
  end.

Definition asLog (j : json) : option Log.t :=
  match j with
  | JObject fields =>
      obind (obind (assoc "id" fields) asString) (fun id =>
      obind (obind (assoc "date" fields) asString) (fun date =>
      obind (obind (assoc "miles" fields) asNum) (fun miles =>
      Some (Log.mk id date miles))))
  | _ => None
  end.

Definition asStage (j : json) : option Stage.t :=
  match j with
  | JObject fields =>
      obind (obind (assoc "weeks" fields) asInt) (fun weeks =>
      obind (obind (assoc "milesPerDay" fields) asNum) (fun mpd =>
      Some (Stage.mk weeks mpd)))
  | _ => None
  end.

(** The state the component starts with; [today] is [todayISO()]. *)
Definition defaults (today : string) : state :=
  mkState (Fin 1800) "2027-10-12" [] "" today NoToast None
    true today (Fin 5) (Fin 7) DEFAULT_RAMP_STAGES.

(** What a reload keeps of a state: the saved cells; the others are
    initialised afresh. *)
Definition restored (today : string) (st : state) : state :=
  mkState (goalMiles st) (goalDate st) (logs st) "" today NoToast None
    (planEnabled st) (planStartDate st) (capMiles st) (daysPerWeek st)
    (rampStages st).

(** Every number of the saved cells is finite. *)
Definition finiteState (st : state) : bool :=
  JS.isFinite (goalMiles st)
  && JS.isFinite (capMiles st)
  && JS.isFinite (daysPerWeek st)
  && forallb (fun r => JS.isFinite (Log.miles r)) (logs st)
  && forallb (fun s => JS.isFinite (Stage.milesPerDay s)) (rampStages st).

(** The properties of the saved record that the [useState] initialisers
    read. *)
Definition savedKeys : list string :=
  [ "goalMiles"; "goalDate"; "logs"; "planEnabled"; "planStartDate";
    "capMiles"; "daysPerWeek"; "rampStages" ].

(** The [useState] initialisers of [App] over the saved record. *)
Definition load (today : string) (str : stored) : option state :=
  let saved := safeParse str JNull in
  obind (cell saved "goalMiles" asNum (Fin 1800)) (fun goalMiles =>
  obind (cell saved "goalDate" asString "2027-10-12") (fun goalDate =>
  obind (cell saved "logs" (asArray asLog) []) (fun logs =>
  obind (cell saved "planEnabled" asBool true) (fun planEnabled =>
  obind (cell saved "planStartDate" asString today) (fun planStartDate =>
  obind (cell saved "capMiles" asNum (Fin 5)) (fun capMiles =>
  obind (cell saved "daysPerWeek" asNum (Fin 7)) (fun daysPerWeek =>
  obind (cell saved "rampStages" (asArray asStage) DEFAULT_RAMP_STAGES)
    (fun rampStages =>
  Some (mkState goalMiles goalDate logs "" today NoToast None
          planEnabled planStartDate capMiles daysPerWeek rampStages))))))))).

(** *** Further derived values of [App] and the map *)

(** [pctAlongRoute(miles, goalMiles)] *)
Definition pctAlongRoute (miles goalMiles : num) : num :=
  let denom := JS.or_else goalMiles (Fin 1) in
  JS.max (Fin 0)
    (JS.min (JS.div (JS.or_else miles (Fin 0)) denom) (Fin 1)).

(** What the inputs of the plan store: [clamp(Number(value), 1, 7)] for
    the days per week and [clamp(Number(value), 1, 20)] for the cap; and
    what the plan is then run with, [Number(cell) || 7] and
    [Number(cell) || 5]. *)
Definition daysPerWeekInput (typed : num) : num := clamp typed (Fin 1) (Fin 7).

Definition capMilesInput (typed : num) : num := clamp typed (Fin 1) (Fin 20).

Definition daysPerWeekUsed (cell : num) : num := JS.or_else cell (Fin 7).

Definition capMilesUsed (cell : num) : num := JS.or_else cell (Fin 5).

(** [a - b] on two [Date]s: the difference in milliseconds, [NaN] when
    either is invalid. *)
Definition dateDiff (a b : option Z) : num :=
  match a, b with
  | Some x, Some y => Fin (inject_Z (x - y))
  | _, _ => NaN
  end.

Section Goal.

Variable toDate : string -> option Z.

Definition daysLeftToGoal (goalDate today : string) : num :=
  JS.max (Fin 0)
    (JS.ceil
       (JS.div (dateDiff (toDate goalDate) (toDate today))
          (Fin (inject_Z (1000 * 60 * 60 * 24))))).

Definition neededPerDay (milesRemaining daysLeftToGoal : num) : num :=
  if JS.gt daysLeftToGoal (Fin 0)
  then JS.div milesRemaining daysLeftToGoal
  else milesRemaining.

End Goal.

End Backup.

(** ** The second component, [MountDoomTracker] *)

Module Entry.
Record t : Type := mk {
  id : string;
  miles : num;
  date : string;
  edited : bool
}.
End Entry.

Module Tracker.

Definition STORAGE_KEY : string := "mount-doom-tracker-v9".

Definition MILESTONES : list Milestone.t :=
  [ Milestone.mk "shire" "The Shire (Bag End)" 0
      "The journey begins." "Pick your playlist.";
    Milestone.mk "bree" "Bree" 120
      "You’ve left comfort behind." "Treat yourself to coffee.";
    Milestone.mk "rivendell" "Rivendell" 570
      "A place of rest." "Buy something new for walking.";
    Milestone.mk "moria" "Moria" 1030
      "A tough stretch." "Movie night: Fellowship.";
    Milestone.mk "lothlorien" "Lothlórien" 1120
      "A calm after darkness." "Stretch + rest day.";
    Milestone.mk "gondor" "Gondor" 1400
      "The final push begins." "New audiobook.";
    Milestone.mk "mountdoom" "Mount Doom" 1800
      "The Ring is destroyed." "Celebrate big." ]%Q.

Record state : Type := mkState {
  entries : list Entry.t;
  inputMiles : string;
  isEditingLast : bool;
  editMiles : string;
  toast : option string;      (* [None] is [null] *)
  toastTimer : bool           (* [toastTimerRef.current] holds a timer *)
}.

Inductive setter : Type :=
| setEntries (f : list Entry.t -> list Entry.t)
| setInputMiles (s : string)
| setIsEditingLast (b : bool)
| setEditMiles (s : string)
| setToast (t : option string)
| restartToastTimer.

Definition apply (st : state) (c : setter) : state :=
  match c with
  | setEntries f =>
      mkState (f (entries st)) (inputMiles st) (isEditingLast st)
        (editMiles st) (toast st) (toastTimer st)
  | setInputMiles s =>
      mkState (entries st) s (isEditingLast st)
        (editMiles st) (toast st) (toastTimer st)
  | setIsEditingLast b =>
      mkState (entries st) (inputMiles st) b
        (editMiles st) (toast st) (toastTimer st)
  | setEditMiles s =>
      mkState (entries st) (inputMiles st) (isEditingLast st)
        s (toast st) (toastTimer st)
  | setToast t =>
      mkState (entries st) (inputMiles st) (isEditingLast st)
        (editMiles st) t (toastTimer st)
  | restartToastTimer =>
      mkState (entries st) (inputMiles st) (isEditingLast st)
        (editMiles st) (toast st) true
  end.

Definition run (calls : list setter) (st : state) : state :=
  fold_left apply calls st.

(** The toasts a handler raises, one for each call of [setToast]. *)
Definition toasts (calls : list setter) : list (option string) :=
  flat_map (fun c => match c with setToast t => [t] | _ => [] end) calls.

Definition initial : state := mkState [] "" false "" None false.

(** [entries.reduce((sum, e) => sum + e.miles, 0)] *)
Definition totalMiles (entries : list Entry.t) : num :=
  fold_left (fun sum e => JS.add sum (Entry.miles e)) entries (Fin 0).

Definition currentMilestone (st : state) : option Milestone.t :=
  getUnlockedMilestone MILESTONES (totalMiles (entries st)).

Definition nextMilestone (st : state) : option Milestone.t :=
  getNextMilestone MILESTONES (totalMiles (entries st)).

Definition lastEntry (st : state) : option Entry.t := at_last (entries st).

Definition rewardText (milestone : Milestone.t) : string :=
  "Reward unlocked at " ++ Milestone.name milestone ++ ": "
  ++ Milestone.reward milestone.

(** The timer that dismisses the toast is only recorded as restarted. *)
Definition showRewardToast (milestone : option Milestone.t) : list setter :=
  match milestone with
  | None => []
  | Some m => [setToast (Some (rewardText m)); restartToastTimer]
  end.

(** [nextUnlocked.id !== prevUnlocked.id].  On [undefined] the test would
    throw; [MILESTONES] is not empty, so both are milestones. *)
Definition idDiffers (nextUnlocked prevUnlocked : option Milestone.t) : bool :=
  match nextUnlocked, prevUnlocked with
  | Some n, Some p => negb (Milestone.id n =? Milestone.id p)%string
  | _, _ => false
  end.

(** [prev.slice(0, -1)] *)
Definition dropLast (prev : list Entry.t) : list Entry.t := removelast prev.

(** [next[next.length - 1] = { ...next[next.length - 1], miles, edited }]
    on a copy of [prev]. *)
Fixpoint editLastOf (value : num) (prev : list Entry.t) : list Entry.t :=
  match prev with
  | [] => []
  | [e] => [Entry.mk (Entry.id e) value (Entry.date e) true]
  | x :: rest => x :: editLastOf value rest
  end.

(** The values [addMiles] and [saveEditLast] let through their guard. *)
Definition accepts (value : num) : bool :=
  negb (JS.isNaN value || JS.le value (Fin 0)).

Section Handlers.

(** [parseFloat(s)] on the text of an input field. *)
Variable parseFloat : string -> num.

(** [addMiles]: [uuid] is [crypto.randomUUID()] and [now] is
    [new Date().toISOString()]. *)
Definition addMiles (uuid now : string) (st : state) : list setter :=
  let value := parseFloat (inputMiles st) in
  if JS.isNaN value || JS.le value (Fin 0) then []
  else
    let prevTotal := totalMiles (entries st) in
    let nextTotal := JS.add prevTotal value in
    let prevUnlocked := getUnlockedMilestone MILESTONES prevTotal in
    let nextUnlocked := getUnlockedMilestone MILESTONES nextTotal in
    ([ setEntries (fun prev => prev ++ [Entry.mk uuid value now false]);
       setInputMiles "";
       setIsEditingLast false ]
     ++ (if idDiffers nextUnlocked prevUnlocked
         then showRewardToast nextUnlocked else []))%list.

Definition deleteLast (st : state) : list setter :=
  match lastEntry st with
  | None => []
  | Some _ =>
      [ setEntries dropLast;
        setIsEditingLast false;
        setEditMiles "";
        setToast None ]
  end.

Definition saveEditLast (st : state) : list setter :=
  let value := parseFloat (editMiles st) in
  match lastEntry st with
  | None => []
  | Some lastEntry =>
      if JS.isNaN value || JS.le value (Fin 0) then []
      else
        let prevTotal := totalMiles (entries st) in
        let nextTotal :=
          JS.add (JS.sub prevTotal (Entry.miles lastEntry)) value in
        let prevUnlocked := getUnlockedMilestone MILESTONES prevTotal in
        let nextUnlocked := getUnlockedMilestone MILESTONES nextTotal in
        ([ setEntries (editLastOf value);
           setIsEditingLast false;
           setEditMiles "" ]
         ++ (if JS.gt nextTotal prevTotal
                && idDiffers nextUnlocked prevUnlocked
             then showRewardToast nextUnlocked else []))%list
  end.

Definition cancelEditLast (st : state) : list setter :=
  [setIsEditingLast false; setEditMiles ""].

(** What the user and the clock can do to the component.  (Opening the
    edit field, which only copies the last distance into [editMiles], is
    left out; [typeEditMiles] sets that text.) *)
Inductive event : Type :=
| typeMiles (s : string)
| clickAdd (uuid now : string)
| clickDeleteLast
| typeEditMiles (s : string)
| clickSave
| clickCancel
| toastTimeout.

Definition handler (e : event) (st : state) : list setter :=
  match e with
  | typeMiles s => [setInputMiles s]
  | clickAdd uuid now => addMiles uuid now st
  | clickDeleteLast => deleteLast st
  | typeEditMiles s => [setEditMiles s]
  | clickSave => saveEditLast st
  | clickCancel => cancelEditLast st
  | toastTimeout => [setToast None]
  end.

Definition step (st : state) (e : event) : state := run (handler e st) st.

Definition steps (es : list event) (st : state) : state :=
  fold_left step es st.

(** A run of appends: each is a text typed into the field and a click on
    "Add", with the identifier and the time the platform then gives. *)
Definition appendEvents (adds : list (string * string * string))
  : list event :=
  flat_map (fun '(s, uuid, now) => [typeMiles s; clickAdd uuid now]) adds.

(** The entries such a run is expected to leave, in the order of the run. *)
Definition appended (adds : list (string * string * string))
  : list Entry.t :=
  map (fun '(s, uuid, now) => Entry.mk uuid (parseFloat s) now false)
    (filter (fun '(s, _, _) => accepts (parseFloat s)) adds).

End Handlers.

(** *** Saving and loading *)

Definition entryJ (e : Entry.t) : json :=
  JObject [ ("id", JString (Entry.id e));
            ("miles", numJ (Entry.miles e));
            ("date", JString (Entry.date e));
            ("edited", JBool (Entry.edited e)) ].

Definition persist (st : state) : stored :=
  Document (JObject [("entries", JArray (map entryJ (entries st)))]).

Definition asEntry (j : json) : option Entry.t :=
  match j with
  | JObject fields =>
      obind (obind (assoc "id" fields) asString) (fun id =>
      obind (obind (assoc "miles" fields) asNum) (fun miles =>
      obind (obind (assoc "date" fields) asString) (fun date =>
      obind (obind (assoc "edited" fields) asBool) (fun edited =>
      Some (Entry.mk id miles date edited)))))
  | _ => None
  end.

(** The effect that runs once on mount, as the setter calls it makes.
    A missing text returns at once; a text that does not parse, and a
    [null] (whose [.entries] throws), end in the empty [catch]; anything
    whose [entries] is not an array is ignored.  [None]: the array holds
    a value that is not an entry of this model. *)
Definition load (str : stored) : option (list setter) :=
  match str with
  | Absent => Some []
  | Unparseable => Some []
  | Document (JObject fields) =>
      match assoc "entries" fields with
      | Some (JArray items) =>
          obind (traverse asEntry items) (fun es =>
          Some [setEntries (fun _ => es)])
      | _ => Some []
      end
  | Document _ => Some []
  end.

Definition loaded (str : stored) : option state :=
  obind (load str) (fun calls => Some (run calls initial)).

Definition restored (st : state) : state :=
  mkState (entries st) "" false "" None false.

Definition finiteState (st : state) : bool :=
  forallb (fun e => JS.isFinite (Entry.miles e)) (entries st).

(** *** Further derived values of [MountDoomTracker] *)

Definition milesToNext (totalMiles : num) (nextMilestone : option Milestone.t)
  : num :=
  match nextMilestone with
  | Some nm => JS.max (Fin 0) (JS.sub (Fin (Milestone.miles nm)) totalMiles)
  | None => Fin 0
  end.

(** The body of the [progressToNext] memo over the values it depends on. *)
Definition progressToNext (totalMiles : num) (currentMilestone : Milestone.t)
    (nextMilestone : option Milestone.t) : num :=
  match nextMilestone with
  | None => Fin 100
  | Some nm =>
      let start := Fin (Milestone.miles currentMilestone) in
      let end_ := Fin (Milestone.miles nm) in
      let span := JS.max (Fin 1) (JS.sub end_ start) in
      let into := JS.min span (JS.max (Fin 0) (JS.sub totalMiles start)) in
      JS.mul (JS.div into span) (Fin 100)
  end.

(** A row of the milestone list: [left] and [unlocked = left === 0]. *)
Definition milesLeft (m : Milestone.t) (totalMiles : num) : num :=
  JS.max (Fin 0) (JS.sub (Fin (Milestone.miles m)) totalMiles).

Definition unlocked (m : Milestone.t) (totalMiles : num) : bool :=
  JS.strictEq (milesLeft m totalMiles) (Fin 0).

End Tracker.

(** ** A calendar for the examples

    [toDate] is a parameter of the plan functions.  The examples run them
    with the reading of ["YYYY-MM-DD"] in a zone without daylight saving:
    the milliseconds from 1970-01-01 to the midnight of that day. *)

Module UTC.

Definition digit (c : ascii) : option Z :=
  let n := Z.of_N (N_of_ascii c) in
  if (48 <=? n) && (n <=? 57) then Some (n - 48) else None.

Fixpoint digits (acc : Z) (s : string) : option Z :=
  match s with
  | EmptyString => Some acc
  | String c rest => obind (digit c) (fun d => digits (acc * 10 + d) rest)
  end.

(** Days from 1970-01-01 to the day [d] of month [m] of year [y]. *)
Definition daysFromCivil (y m d : Z) : Z :=
  let y' := if m <=? 2 then y - 1 else y in
  let era := y' / 400 in
  let yoe := y' - era * 400 in
  let mp := if 2 <? m then m - 3 else m + 9 in
  let doy := (153 * mp + 2) / 5 + d - 1 in
  let doe := yoe * 365 + yoe / 4 - yoe / 100 + doy in
  era * 146097 + doe - 719468.

Definition toDate (iso : string) : option Z :=
  if (String.length iso =? 10)%nat
     && (substring 4 1 iso =? "-")%string
     && (substring 7 1 iso =? "-")%string
  then
    obind (digits 0 (substring 0 4 iso)) (fun y =>
    obind (digits 0 (substring 5 2 iso)) (fun m =>
    obind (digits 0 (substring 8 2 iso)) (fun d =>
    if (1 <=? m) && (m <=? 12) && (1 <=? d) && (d <=? 31)
    then Some (daysFromCivil y m d * 86400000)
    else None)))
  else None.

End UTC.

(** The reading of ["YYYY-MM-DD"] in a zone that keeps daylight saving:
    US Eastern time around the change of 10 March 2024, when the clocks
    went from 02:00 to 03:00.  Up to that day the local midnight is at
    05:00 UTC, from 11 March on at 04:00 UTC.  (Meant for the days
    between the changes of November 2023 and November 2024.) *)

Module Eastern.

Definition hour : Z := 3600000.

(** The UTC midnight of 10 March 2024. *)
Definition changeDay : Z := UTC.daysFromCivil 2024 3 10 * 86400000.

Definition toDate (iso : string) : option Z :=
  obind (UTC.toDate iso) (fun utcMidnight =>
  Some (if utcMidnight <=? changeDay
        then utcMidnight + 5 * hour
        else utcMidnight + 4 * hour)).

End Eastern.

(** ** Input texts for the examples

    [Number] and [parseFloat] are parameters of the handlers.  The
    examples run them on texts of decimal digits and on the text
    [Infinity]: [Number("")] is 0 and [parseFloat("")] is [NaN]; any
    other text reads as [NaN] here. *)

Module Input.

Definition Number (s : string) : num :=
  if (s =? "Infinity")%string then PInf
  else
    match UTC.digits 0 s with
    | Some z => Fin (inject_Z z)
    | None => NaN
    end.

Definition parseFloat (s : string) : num :=
  if (s =? "")%string then NaN else Number s.


End Input.

(** ** The specification's own formulas

    Written from the words of the specification, to be compared with the
    functions above. *)

Module Spec.

Definition clamp (x lo hi : num) : num := JS.max lo (JS.min hi x).

(** [clamp(totalDistance / max(1, goalTarget) * 100, 0, 100)] *)
Definition percentToGoal (totalDistance goalTarget : num) : num :=
  clamp
    (JS.mul (JS.div totalDistance (JS.max (Fin 1) goalTarget)) (Fin 100))
    (Fin 0) (Fin 100).

(** [stageAt]: the rate of the stage whose range of days, [weeks * 7] long
    and starting where the stage before ended, contains the offset; the
    cap past the last stage. *)
Fixpoint stageAtFrom (start : Z) (stages : list Stage.t) (capRate : num)
    (dayOffset : Z) : num :=
  match stages with
  | [] => capRate
  | s :: rest =>
      let stop := start + Stage.weeks s * 7 in
      if (start <=? dayOffset) && (dayOffset <? stop)
      then Stage.milesPerDay s
      else stageAtFrom stop rest capRate dayOffset
  end.

Definition stageAt (stages : list Stage.t) (capRate : num) (dayOffset : Z)
  : num :=
  stageAtFrom 0 stages capRate dayOffset.

(** The days all the stages cover. *)
Definition scheduleDays (stages : list Stage.t) : Z :=
  fold_right (fun s days => Stage.weeks s * 7 + days) 0 stages.

Definition isActiveDay (dayOffset : Z) (activeDaysPerWeek : num) : bool :=
  JS.lt (Fin (inject_Z (dayOffset mod 7))) activeDaysPerWeek.

(** Dates are the milliseconds of their midnight. *)
Definition msPerDay : Z := 86400000.

Definition daysBetweenInclusive (a b : Z) : Z := (b - a) / msPerDay + 1.

(** The day offsets [0 .. n-1]. *)
Definition offsets (n : Z) : list Z := map Z.of_nat (seq 0 (Z.to_nat n)).

Definition sum (l : list num) : num := fold_left JS.add l (Fin 0).

Definition plannedThrough (startDate targetDate : Z) (stages : list Stage.t)
    (capRate activeDaysPerWeek : num) : num :=
  if targetDate <? startDate then Fin 0
  else
    sum (map (stageAt stages capRate)
           (filter (fun d => isActiveDay d activeDaysPerWeek)
              (offsets (daysBetweenInclusive startDate targetDate)))).

(** [crossed]: the milestones with [prevTotal < threshold <= nextTotal],
    in the order of the table. *)
Definition crossed (table : list Milestone.t) (prevTotal nextTotal : num)
  : list Milestone.t :=
  filter
    (fun m => JS.lt prevTotal (Fin (Milestone.miles m))
              && JS.le (Fin (Milestone.miles m)) nextTotal)
    table.

(** [x] is the last, resp. the first, element of [l] that satisfies [p]. *)
Definition lastSuch {A : Type} (p : A -> bool) (l : list A) (x : A) : Prop :=
  exists l1 l2,
    l = (l1 ++ x :: l2)%list /\ p x = true /\ Forall (fun y => p y = false) l2.

Definition firstSuch {A : Type} (p : A -> bool) (l : list A) (x : A) : Prop :=
  exists l1 l2,
    l = (l1 ++ x :: l2)%list /\ p x = true /\ Forall (fun y => p y = false) l1.

(** The table is in ascending order of threshold. *)
Definition ascending (table : list Milestone.t) : Prop :=
  StronglySorted
    (fun a b => (Milestone.miles a <= Milestone.miles b)%Q) table.

(** No two milestones of the table share an id. *)
Definition distinctIds (table : list Milestone.t) : Prop :=
  NoDup (map Milestone.id table).

(** The table starts with a milestone of threshold 0. *)
Definition startsAtZero (table : list Milestone.t) : Prop :=
  match table with
  | m :: _ => (Milestone.miles m == 0)%Q
  | [] => False
  end.

(** A plan of the data model: weeks in 1..52, rates from 0.5 up to a
    positive cap, one to seven active days a week. *)
Definition validStage (capRate : num) (s : Stage.t) : bool :=
  (1 <=? Stage.weeks s) && (Stage.weeks s <=? 52)
  && JS.le (Fin (1 # 2)) (Stage.milesPerDay s)
  && JS.le (Stage.milesPerDay s) capRate.

Definition validPlan (stages : list Stage.t) (capRate activeDaysPerWeek : num)
  : bool :=
  forallb (validStage capRate) stages
  && JS.lt (Fin 0) capRate
  && JS.le (Fin 1) activeDaysPerWeek
  && JS.le activeDaysPerWeek (Fin 7).

End Spec.

(** ** Orders and invariants of the two ledgers *)

Module Inv.

(** [a] is not dated earlier than [b]. *)
Definition notEarlier (a b : Log.t) : Prop :=
  (Log.date b <=? Log.date a)%string = true.

(** The logs are in order of date, latest first. *)
Definition dateDescending (logs : list Log.t) : Prop :=
  StronglySorted notEarlier logs.

(** Every log holds a finite distance greater than 0. *)
Definition positiveLogs (logs : list Log.t) : Prop :=
  Forall (fun r => Backup.accepts (Log.miles r) = true) logs.

(** Every entry holds a distance greater than 0 that is not [NaN]. *)
Definition positiveEntries (entries : list Entry.t) : Prop :=
  Forall (fun e => Tracker.accepts (Entry.miles e) = true) entries.

Definition entryIds (st : Tracker.state) : list string :=
  map Entry.id (Tracker.entries st).

(** The identifier an "Add" brings is not yet in the ledger. *)
Definition freshId (st : Tracker.state) (e : Tracker.event) : Prop :=
  match e with
  | Tracker.clickAdd uuid _ => ~ In uuid (entryIds st)
  | _ => True
  end.

End Inv.

(** ** The sums of the handlers in binary floating point

    A JavaScript number is an IEEE 754 double, and the handlers decide on
    sums of distances.  Two sums of the same distances taken in another
    order can differ in the last place as doubles, though never as
    rationals.  This module runs the functions that add on Rocq's
    primitive floats (binary64, rounding to nearest, ties to even): the
    total of the ledger, and [addLog] and [saveEditLast] as functions
    from the distance typed in and the ledger to the ledger they store
    and the toast they raise. *)

Module Double.

Definition isNaN (x : PrimFloat.float) : bool := negb (PrimFloat.eqb x x).

Definition isFinite (x : PrimFloat.float) : bool :=
  PrimFloat.ltb (PrimFloat.abs x) PrimFloat.infinity.

(** [x || y] on numbers: [0], [-0] and [NaN] are falsy. *)
Definition or_else (x y : PrimFloat.float) : PrimFloat.float :=
  if isNaN x || PrimFloat.eqb x PrimFloat.zero then y else x.

(** [Math.max(a, b)]. *)
Definition max (a b : PrimFloat.float) : PrimFloat.float :=
  if isNaN a || isNaN b then PrimFloat.nan
  else if PrimFloat.ltb a b then b
  else if PrimFloat.ltb b a then a
  else if PrimFloat.eqb a PrimFloat.zero then PrimFloat.add a b
  else a.

(** The double that a whole number is, bit by bit: exact below 2^53. *)
Fixpoint ofPos (p : positive) : PrimFloat.float :=
  match p with
  | xH => PrimFloat.one
  | xO p' => PrimFloat.mul PrimFloat.two (ofPos p')
  | xI p' => PrimFloat.add (PrimFloat.mul PrimFloat.two (ofPos p'))
               PrimFloat.one
  end.

Definition ofZ (z : Z) : PrimFloat.float :=
  match z with
  | Z0 => PrimFloat.zero
  | Zpos p => ofPos p
  | Zneg p => PrimFloat.opp (ofPos p)
  end.

(** The double nearest to the rational [p/q], for whole numbers [p] and
    [q] below 2^53: one division of two exact doubles, rounded once.
    It is what a decimal such as 50.3 (that is 503/10) reads as, and
    what a whole threshold of the tables is. *)
Definition ofQ (q : Q) : PrimFloat.float :=
  PrimFloat.div (ofZ (Qnum q)) (ofPos (Qden q)).

Definition miles (m : Milestone.t) : PrimFloat.float :=
  ofQ (Milestone.miles m).

(** *** [backup.jsx] *)

Module Log.
Record t : Type := mk {
  id : string;
  date : string;
  miles : PrimFloat.float
}.
End Log.

Module Backup.

(** [logs.reduce((s, r) => s + Number(r.miles || 0), 0)] *)
Definition totalMiles (logs : list Log.t) : PrimFloat.float :=
  fold_left
    (fun s r => PrimFloat.add s (or_else (Log.miles r) PrimFloat.zero))
    logs PrimFloat.zero.

Definition nextMilestone (milestones : list Milestone.t)
    (totalMiles : PrimFloat.float) : option Milestone.t :=
  find (fun m => PrimFloat.ltb totalMiles (miles m)) milestones.

Definition reachedMilestones (milestones : list Milestone.t)
    (totalMiles : PrimFloat.float) : list Milestone.t :=
  filter (fun m => PrimFloat.leb (miles m) totalMiles) milestones.

Definition byDateDesc (a b : Log.t) : comparison :=
  String.compare (Log.date b) (Log.date a).

Inductive message : Type :=
| EnterMiles
| Unlocked (last : Milestone.t)
| LoggedToNext (toGo : PrimFloat.float)
| QuestComplete.

(** [addLog] on the number [m] that [Number(entryMiles)] is: the logs it
    stores and the toast it raises. *)
Definition addLog (milestones : list Milestone.t) (m : PrimFloat.float)
    (uuid entryDate : string) (logs : list Log.t)
  : list Log.t * message :=
  if negb (isFinite m) || PrimFloat.leb m PrimFloat.zero
  then (logs, EnterMiles)
  else
    let before := totalMiles logs in
    let after := PrimFloat.add before m in
    let newly :=
      filter
        (fun x => PrimFloat.ltb before (miles x)
                  && PrimFloat.leb (miles x) after)
        milestones in
    let newLog := Log.mk uuid entryDate m in
    (stableSort byDateDesc (logs ++ [newLog])%list,
     match at_last newly with
     | Some last => Unlocked last
     | None =>
         match nextMilestone milestones before with
         | Some nm =>
             LoggedToNext
               (max PrimFloat.zero (PrimFloat.sub (miles nm) after))
         | None => QuestComplete
         end
     end).

End Backup.

(** *** [MountDoomTracker] *)

Module Entry.
Record t : Type := mk {
  id : string;
  miles : PrimFloat.float;
  date : string;
  edited : bool
}.
End Entry.

Module Tracker.

(** [entries.reduce((sum, e) => sum + e.miles, 0)] *)
Definition totalMiles (entries : list Entry.t) : PrimFloat.float :=
  fold_left (fun sum e => PrimFloat.add sum (Entry.miles e))
    entries PrimFloat.zero.

Definition getUnlockedMilestone (MILESTONES : list Milestone.t)
    (total : PrimFloat.float) : option Milestone.t :=
  orElse
    (find (fun m => PrimFloat.leb (miles m) total) (rev MILESTONES))
    (hd_error MILESTONES).

Definition idDiffers (nextUnlocked prevUnlocked : option Milestone.t) : bool :=
  match nextUnlocked, prevUnlocked with
  | Some n, Some p => negb (Milestone.id n =? Milestone.id p)%string
  | _, _ => false
  end.

Fixpoint editLastOf (value : PrimFloat.float) (prev : list Entry.t)
  : list Entry.t :=
  match prev with
  | [] => []
  | [e] => [Entry.mk (Entry.id e) value (Entry.date e) true]
  | x :: rest => x :: editLastOf value rest
  end.

(** [saveEditLast] on the number [value] that [parseFloat(editMiles)]
    is: the entries it stores and the milestone whose reward toast it
    raises, if any. *)
Definition saveEditLast (MILESTONES : list Milestone.t)
    (value : PrimFloat.float) (entries : list Entry.t)
  : list Entry.t * option Milestone.t :=
  match at_last entries with
  | None => (entries, None)
  | Some lastEntry =>
      if isNaN value || PrimFloat.leb value PrimFloat.zero
      then (entries, None)
      else
        let prevTotal := totalMiles entries in
        let nextTotal :=
          PrimFloat.add (PrimFloat.sub prevTotal (Entry.miles lastEntry))
            value in
        let prevUnlocked := getUnlockedMilestone MILESTONES prevTotal in
        let nextUnlocked := getUnlockedMilestone MILESTONES nextTotal in
        (editLastOf value entries,
         if PrimFloat.ltb prevTotal nextTotal
            && idDiffers nextUnlocked prevUnlocked
         then nextUnlocked else None)
  end.

End Tracker.

End Double.

(** * Properties *)

(** ** Lists *)

Lemma at_last_cons {A : Type} (x : A) (l : list A) :
  at_last (x :: l) = orElse (at_last l) (Some x).
Proof.
  destruct l as [|y l]; [reflexivity|].
  change (at_last (x :: y :: l)) with (at_last (y :: l)).
  destruct (at_last (y :: l)) eqn:E; [reflexivity|].
  exfalso. clear x. revert y E.
  induction l as [|z l IH]; intros y E; [discriminate|].
  exact (IH z E).
Qed.

Lemma at_last_snoc {A : Type} (l : list A) (x : A) :
  at_last (l ++ [x]) = Some x.
Proof.
  induction l as [|y l IH]; [reflexivity|].
  change ((y :: l) ++ [x])%list with (y :: (l ++ [x]))%list.
  rewrite at_last_cons, IH. reflexivity.
Qed.

Lemma find_snoc {A : Type} (p : A -> bool) (l : list A) (x : A) :
  find p (l ++ [x]) = orElse (find p l) (if p x then Some x else None).
Proof.
  induction l as [|y l IH]; simpl.
  - destruct (p x); reflexivity.
  - destruct (p y); [reflexivity | exact IH].
Qed.

(** Searching the reversed array finds the last element that passes the
    filter. *)
Lemma find_rev_filter {A : Type} (p : A -> bool) (l : list A) :
  find p (rev l) = at_last (filter p l).
Proof.
  induction l as [|x l IH]; [reflexivity|].
  simpl rev. rewrite find_snoc, IH. simpl filter.
  destruct (p x).
  - rewrite at_last_cons. reflexivity.
  - destruct (at_last (filter p l)); reflexivity.
Qed.

Lemma at_last_filter_lastSuch {A : Type} (p : A -> bool) (l : list A) (x : A) :
  at_last (filter p l) = Some x -> Spec.lastSuch p l x.
Proof.
  induction l as [|y l IH]; simpl; [discriminate|].
  destruct (p y) eqn:Hy.
  - rewrite at_last_cons.
    destruct (at_last (filter p l)) as [z|] eqn:E; simpl; intros H.
    + injection H as ->. destruct (IH eq_refl) as (l1 & l2 & -> & Hx & Hl2).
      exists (y :: l1), l2. auto.
    + injection H as ->. exists [], l. repeat split; trivial.
      clear IH Hy. induction l as [|z l IHl]; [constructor|].
      simpl in E. destruct (p z) eqn:Hz.
      * rewrite at_last_cons in E.
        destruct (at_last (filter p l)); discriminate.
      * constructor; auto.
  - intros H. destruct (IH H) as (l1 & l2 & -> & Hx & Hl2).
    exists (y :: l1), l2. auto.
Qed.

Lemma find_firstSuch {A : Type} (p : A -> bool) (l : list A) (x : A) :
  find p l = Some x -> Spec.firstSuch p l x.
Proof.
  induction l as [|y l IH]; simpl; [discriminate|].
  destruct (p y) eqn:Hy; intros H.
  - injection H as ->. exists [], l. auto.
  - destruct (IH H) as (l1 & l2 & -> & Hx & Hl1).
    exists (y :: l1), l2. auto.
Qed.

Lemma find_none_all {A : Type} (p : A -> bool) (l : list A) :
  find p l = None <-> Forall (fun y => p y = false) l.
Proof.
  induction l as [|y l IH]; simpl.
  - split; [constructor | reflexivity].
  - destruct (p y) eqn:Hy; split; intros H.
    + discriminate.
    + inversion H; congruence.
    + constructor; [assumption | now apply IH].
    + inversion H; now apply IH.
Qed.

(** ** Numbers *)

Lemma nonneg_not_lt (t : num) (q : Q) :
  JS.le (Fin 0) t = true ->
  JS.lt t (Fin q) = false <-> JS.le (Fin q) t = true.
Proof.
  destruct t as [| | |p]; simpl; try discriminate.
  - intros _. split; reflexivity.
  - intros _. unfold JS.Qltb. destruct (Qle_bool q p); simpl; split; congruence.
Qed.

Lemma le_add_nonneg (a b : num) :
  JS.le (Fin 0) a = true -> JS.le (Fin 0) b = true ->
  JS.le a (JS.add a b) = true /\ JS.le (Fin 0) (JS.add a b) = true.
Proof.
  destruct a as [| | |p], b as [| | |q]; simpl; try discriminate; auto.
  rewrite !Qle_bool_iff. intros Hp Hq. split; lra.
Qed.

Lemma le_trans (a b c : num) :
  JS.le a b = true -> JS.le b c = true -> JS.le a c = true.
Proof.
  destruct a as [| | |p], b as [| | |q], c as [| | |r]; simpl;
    try discriminate; auto.
  rewrite !Qle_bool_iff. intros; lra.
Qed.

Lemma le_refl_nonneg (a : num) :
  JS.le (Fin 0) a = true -> JS.le a a = true.
Proof.
  destruct a as [| | |p]; simpl; try discriminate; auto.
  intros _. apply Qle_bool_iff. lra.
Qed.

(** ** The milestone resolvers *)

(** C10: the two components resolve the current milestone alike.  For
    every table and every total, the last element of the milestones that
    pass [total >= m.miles], with the first milestone as the default
    ([lastReached] of [backup.jsx]), is the first element of the reversed
    table that passes the same test, with the same default
    ([getUnlockedMilestone]).  The table need not be sorted for this. *)
Theorem lastReached_is_getUnlockedMilestone
    (table : list Milestone.t) (t : num) :
  Backup.lastReached table t = getUnlockedMilestone table t.
Proof.
  unfold Backup.lastReached, Backup.reachedMilestones, getUnlockedMilestone.
  rewrite find_rev_filter. reflexivity.
Qed.

Lemma lastSuch_highest (table : list Milestone.t) (p : Milestone.t -> bool)
    (m : Milestone.t) :
  Spec.ascending table -> Spec.lastSuch p table m ->
  forall x, In x table -> p x = true ->
    (Milestone.miles x <= Milestone.miles m)%Q.
Proof.
  intros Hs (l1 & l2 & -> & Hm & Hl2) x Hin Hx.
  apply in_app_or in Hin. destruct Hin as [Hin | [<- | Hin]].
  - unfold Spec.ascending in Hs. induction l1 as [|y l1 IH].
    + destruct Hin.
    + simpl in Hs. inversion Hs as [|? ? Hs' Hall]; subst.
      destruct Hin as [<- | Hin].
      * rewrite Forall_forall in Hall. apply Hall, in_elt.
      * now apply IH.
  - apply Qle_refl.
  - rewrite Forall_forall in Hl2. rewrite (Hl2 x Hin) in Hx. discriminate.
Qed.

(** C5: for a table that starts at threshold 0 and a total [t >= 0], the
    current milestone (of either component) is the last milestone in
    table order whose threshold is [<= t]; so its threshold is [<= t],
    and in an ascending table no milestone with threshold [<= t] has a
    higher threshold.  The next milestone (of either component) is the
    first one with threshold [> t], and there is none exactly when [t]
    is at least every threshold. *)
Theorem current_and_next_milestone (table : list Milestone.t) (t : num) :
  Spec.startsAtZero table ->
  JS.le (Fin 0) t = true ->
  (exists m,
      getUnlockedMilestone table t = Some m
      /\ Backup.lastReached table t = Some m
      /\ Spec.lastSuch (fun x => JS.le (Fin (Milestone.miles x)) t) table m
      /\ JS.le (Fin (Milestone.miles m)) t = true
      /\ (Spec.ascending table ->
          forall x, In x table -> JS.le (Fin (Milestone.miles x)) t = true ->
            (Milestone.miles x <= Milestone.miles m)%Q))
  /\ Backup.nextMilestone table t = getNextMilestone table t
  /\ match getNextMilestone table t with
     | Some n =>
         Spec.firstSuch (fun x => JS.lt t (Fin (Milestone.miles x))) table n
         /\ JS.lt t (Fin (Milestone.miles n)) = true
     | None => True
     end
  /\ (getNextMilestone table t = None <->
      Forall (fun x => JS.le (Fin (Milestone.miles x)) t = true) table).
Proof.
  intros Hzero Ht. split; [|split; [reflexivity|split]].
  - unfold Backup.lastReached, Backup.reachedMilestones, getUnlockedMilestone.
    rewrite find_rev_filter.
    set (p := fun m : Milestone.t => JS.ge t (Fin (Milestone.miles m))).
    destruct table as [|m0 rest]; [destruct Hzero|]. simpl in Hzero.
    assert (H0 : p m0 = true).
    { unfold p, JS.ge. destruct t as [| | |q]; simpl in *; try discriminate; trivial.
      apply Qle_bool_iff. apply Qle_bool_iff in Ht. now rewrite Hzero. }
    destruct (at_last (filter p (m0 :: rest))) as [m|] eqn:Hlast.
    + exists m. simpl orElse.
      pose proof (at_last_filter_lastSuch p (m0 :: rest) m Hlast) as HL.
      repeat split; trivial.
      * destruct HL as (l1 & l2 & _ & Hp & _). exact Hp.
      * intros Hs x Hin Hx. exact (lastSuch_highest _ p m Hs HL x Hin Hx).
    + exfalso. simpl filter in Hlast. rewrite H0, at_last_cons in Hlast.
      destruct (at_last (filter p rest)); discriminate.
  - unfold getNextMilestone.
    destruct (find _ table) as [n|] eqn:E; [|trivial].
    split; [exact (find_firstSuch _ _ _ E)|].
    apply find_some in E. exact (proj2 E).
  - unfold getNextMilestone. rewrite find_none_all.
    split; intros H; rewrite Forall_forall in *; intros x Hin;
      specialize (H x Hin); unfold JS.gt in *;
      now apply (nonneg_not_lt t (Milestone.miles x) Ht).
Qed.

(** The table of [backup.jsx] at the total 130: the current milestone
    has a threshold of at most 130. *)
Lemma current_and_next_milestone_witness :
  Spec.startsAtZero Backup.DEFAULT_MILESTONES
  /\ JS.le (Fin 0) (Fin 130) = true
  /\ exists m,
       getUnlockedMilestone Backup.DEFAULT_MILESTONES (Fin 130) = Some m
       /\ JS.le (Fin (Milestone.miles m)) (Fin 130) = true.
Proof.
  split; [reflexivity|]. split; [reflexivity|].
  destruct (proj1 (current_and_next_milestone Backup.DEFAULT_MILESTONES
                     (Fin 130) (Qeq_refl 0) eq_refl))
    as (m & Hm & _ & _ & Hle & _).
  exists m. split; assumption.
Defined.

(** ** The ramp plan *)

Section PlanFacts.

Variable toDate : string -> option Z.

Variables (stages : list Stage.t) (capMiles daysPerWeek : num).

Lemma stageFrom_stageAtFrom (l : list Stage.t) :
  forall (i : nat) (start x : Z), start <= x ->
    Backup.orCap (Backup.stageFrom i (x - start) l) capMiles
    = Spec.stageAtFrom start l capMiles x.
Proof.
  induction l as [|s rest IH]; intros i start x Hx; simpl; [reflexivity|].
  destruct (x - start <? Stage.weeks s * 7) eqn:E.
  - apply Z.ltb_lt in E.
    replace (start <=? x) with true by (symmetry; apply Z.leb_le; lia).
    replace (x <? start + Stage.weeks s * 7) with true
      by (symmetry; apply Z.ltb_lt; lia).
    reflexivity.
  - apply Z.ltb_ge in E.
    replace (x <? start + Stage.weeks s * 7) with false
      by (symmetry; apply Z.ltb_ge; lia).
    rewrite andb_false_r.
    replace (x - start - Stage.weeks s * 7)
      with (x - (start + Stage.weeks s * 7)) by lia.
    apply IH. lia.
Qed.

Lemma orCap_stageAt (x : Z) :
  0 <= x ->
  Backup.orCap (Backup.getStageForDayIndex x stages) capMiles
  = Spec.stageAt stages capMiles x.
Proof.
  intros Hx. unfold Backup.getStageForDayIndex, Spec.stageAt.
  rewrite <- (stageFrom_stageAtFrom stages 0 0 x Hx).
  now rewrite Z.sub_0_r.
Qed.

Lemma isActiveDay_spec (x : Z) :
  0 <= x -> Backup.isActiveDay x daysPerWeek = Spec.isActiveDay x daysPerWeek.
Proof.
  intros Hx. unfold Backup.isActiveDay, Spec.isActiveDay.
  rewrite Z.rem_mod_nonneg by lia. reflexivity.
Qed.

(** The loop adds, in order, the rates of the active days it visits. *)
Lemma plannedFrom_fold (n : nat) :
  forall (k : nat) (sum : num),
    Backup.plannedFrom n (Z.of_nat k) sum stages capMiles daysPerWeek
    = fold_left JS.add
        (map (Spec.stageAt stages capMiles)
           (filter (fun d => Spec.isActiveDay d daysPerWeek)
              (map Z.of_nat (seq k n))))
        sum.
Proof.
  induction n as [|n IH]; intros k sum; [reflexivity|].
  change (seq k (S n)) with (k :: seq (S k) n).
  cbn [map filter Backup.plannedFrom].
  rewrite isActiveDay_spec by lia.
  replace (Z.of_nat k + 1) with (Z.of_nat (S k)) by lia.
  destruct (Spec.isActiveDay (Z.of_nat k) daysPerWeek);
    cbn [negb map fold_left].
  - rewrite IH, orCap_stageAt by lia. reflexivity.
  - apply IH.
Qed.

(** Past the days of all the stages there is no stage left. *)
Lemma stageFrom_past (l : list Stage.t) :
  Forall (fun s => 0 <= Stage.weeks s) l ->
  forall (i : nat) (remaining : Z),
    Spec.scheduleDays l <= remaining ->
    Backup.stageFrom i remaining l
    = Backup.mkStageInfo (i + List.length l) None.
Proof.
  induction 1 as [|s rest Hs Hrest IH]; intros i remaining Hr; simpl in *.
  - now rewrite Nat.add_0_r.
  - assert (Hsched : 0 <= Spec.scheduleDays rest).
    { clear -Hrest. induction Hrest; simpl; lia. }
    replace (remaining <? Stage.weeks s * 7) with false
      by (symmetry; apply Z.ltb_ge; lia).
    rewrite IH by lia. f_equal. lia.
Qed.

End PlanFacts.

Section PlanTheorems.

Variable toDate : string -> option Z.

Lemma plannedMilesThroughDate_valid_dates
    (planStart target : string) (a b : Z)
    (stages : list Stage.t) (capMiles daysPerWeek : num) :
  planStart <> "" -> target <> "" ->
  toDate planStart = Some a -> toDate target = Some b ->
  Backup.plannedMilesThroughDate toDate planStart target
    stages capMiles daysPerWeek
  = if b <? a then Fin 0
    else Backup.plannedFrom (Z.to_nat ((b - a) / 86400000 + 1)) 0 (Fin 0)
           stages capMiles daysPerWeek.
Proof.
  intros Hs Ht Ha Hb.
  unfold Backup.plannedMilesThroughDate, Backup.daysDiffInclusive.
  apply String.eqb_neq in Hs, Ht. rewrite Hs, Ht, Ha, Hb. simpl.
  destruct (b <? a); reflexivity.
Qed.

(** X28: with both dates valid, [plannedMilesThroughDate] is 0 when the
    target is before the start, and otherwise the sum of [stageAt(d)] over
    the active day offsets [d] of [0 .. n - 1], where [n] is the whole
    number of 24 hours between the two local midnights, plus one.  Past
    the days of all stages the rate is the cap, so with no stage every
    active day counts the cap.  With the stages [[{weeks: 1, rate: 2}]],
    cap 5 and 7 active days, the plan is 14 when the midnight of the
    target is 6 times 24 hours after that of the start, and 49 when it
    is 13 times 24 hours after it. *)
Theorem plannedMilesThroughDate_refines
    (planStart target : string) (a b : Z)
    (stages : list Stage.t) (capMiles daysPerWeek : num) :
  planStart <> "" -> target <> "" ->
  toDate planStart = Some a -> toDate target = Some b ->
  Backup.plannedMilesThroughDate toDate planStart target
    stages capMiles daysPerWeek
  = Spec.plannedThrough a b stages capMiles daysPerWeek
  /\ (b < a ->
      Backup.plannedMilesThroughDate toDate planStart target
        stages capMiles daysPerWeek = Fin 0)
  /\ (Forall (fun s => 0 <= Stage.weeks s) stages ->
      forall d, Spec.scheduleDays stages <= d ->
        Backup.orCap (Backup.getStageForDayIndex d stages) capMiles = capMiles
        /\ Spec.stageAt stages capMiles d = capMiles)
  /\ (forall d,
        Backup.orCap (Backup.getStageForDayIndex d []) capMiles = capMiles)
  /\ (b = a + 6 * Spec.msPerDay ->
      Backup.plannedMilesThroughDate toDate planStart target
        [Stage.mk 1 (Fin 2)] (Fin 5) (Fin 7) = Fin 14)
  /\ (b = a + 13 * Spec.msPerDay ->
      Backup.plannedMilesThroughDate toDate planStart target
        [Stage.mk 1 (Fin 2)] (Fin 5) (Fin 7) = Fin 49).
Proof.
  intros Hs Ht Ha Hb.
  pose proof (fun st c w =>
    plannedMilesThroughDate_valid_dates planStart target a b st c w
      Hs Ht Ha Hb) as Hunfold.
  repeat split.
  - rewrite Hunfold. unfold Spec.plannedThrough.
    destruct (b <? a); [reflexivity|].
    exact (plannedFrom_fold stages capMiles daysPerWeek _ 0%nat (Fin 0)).
  - intros Hlt. rewrite Hunfold.
    apply Z.ltb_lt in Hlt. now rewrite Hlt.
  - unfold Backup.getStageForDayIndex.
    rewrite (stageFrom_past stages H 0 d H0). reflexivity.
  - assert (Hd : 0 <= d).
    { assert (0 <= Spec.scheduleDays stages); [|lia].
      clear -H. induction H; simpl; lia. }
    rewrite <- (orCap_stageAt stages capMiles d Hd).
    unfold Backup.getStageForDayIndex.
    rewrite (stageFrom_past stages H 0 d H0). reflexivity.
  - intros Hb6. rewrite Hunfold. subst b.
    replace (a + 6 * Spec.msPerDay - a) with (6 * Spec.msPerDay) by lia.
    replace (a + 6 * Spec.msPerDay <? a) with false
      by (symmetry; apply Z.ltb_ge; unfold Spec.msPerDay; lia).
    reflexivity.
  - intros Hb13. rewrite Hunfold. subst b.
    replace (a + 13 * Spec.msPerDay - a) with (13 * Spec.msPerDay) by lia.
    replace (a + 13 * Spec.msPerDay <? a) with false
      by (symmetry; apply Z.ltb_ge; unfold Spec.msPerDay; lia).
    reflexivity.
Qed.

End PlanTheorems.

(** The first week of 2024: the default plan agrees with the sum, and the
    plan of the scenario reaches 14 on 7 January. *)
Lemma plannedMilesThroughDate_refines_witness :
  "2024-01-01" <> "" /\ "2024-01-07" <> ""
  /\ UTC.toDate "2024-01-01" = Some 1704067200000
  /\ UTC.toDate "2024-01-07" = Some 1704585600000
  /\ Backup.plannedMilesThroughDate UTC.toDate "2024-01-01" "2024-01-07"
       Backup.DEFAULT_RAMP_STAGES (Fin 5) (Fin 7)
     = Spec.plannedThrough 1704067200000 1704585600000
         Backup.DEFAULT_RAMP_STAGES (Fin 5) (Fin 7)
  /\ Backup.plannedMilesThroughDate UTC.toDate "2024-01-01" "2024-01-07"
       [Stage.mk 1 (Fin 2)] (Fin 5) (Fin 7)
     = Fin 14.
Proof.
  split; [discriminate|]. split; [discriminate|].
  split; [reflexivity|]. split; [reflexivity|].
  assert (H : "2024-01-01" <> "" /\ "2024-01-07" <> "")
    by (split; discriminate).
  destruct H as [H1 H2].
  pose proof (plannedMilesThroughDate_refines UTC.toDate
                "2024-01-01" "2024-01-07" 1704067200000 1704585600000
                Backup.DEFAULT_RAMP_STAGES (Fin 5) (Fin 7)
                H1 H2 eq_refl eq_refl) as (Hsum & _ & _ & _ & H6 & _).
  split; [exact Hsum | exact (H6 eq_refl)].
Defined.

(** *** A plan across the start of daylight saving *)

(** C3: the scenario of the specification fails on the code for a plan
    that starts before the clocks go forward.  With the stages
    [[{weeks: 1, rate: 2}]], cap 5 and 7 active days, in US Eastern time
    a plan that starts on 9 March 2024 is 12 through 15 March, six days
    later, and 44 through 22 March, thirteen days later, where the
    specification has 14 and 49: the local midnights are an hour less
    than 6, resp. 13, times 24 hours apart, and [daysDiffInclusive]
    rounds the quotient down.  In a zone without the change the same
    plan is 14 and 49. *)
Theorem plannedMilesThroughDate_spring_forward :
  Backup.daysDiffInclusive Eastern.toDate "2024-03-09" "2024-03-15" = Some 6
  /\ Backup.plannedMilesThroughDate Eastern.toDate "2024-03-09" "2024-03-15"
       [Stage.mk 1 (Fin 2)] (Fin 5) (Fin 7) = Fin 12
  /\ Backup.plannedMilesThroughDate Eastern.toDate "2024-03-09" "2024-03-22"
       [Stage.mk 1 (Fin 2)] (Fin 5) (Fin 7) = Fin 44
  /\ Backup.plannedMilesThroughDate UTC.toDate "2024-03-09" "2024-03-15"
       [Stage.mk 1 (Fin 2)] (Fin 5) (Fin 7) = Fin 14
  /\ Backup.plannedMilesThroughDate UTC.toDate "2024-03-09" "2024-03-22"
       [Stage.mk 1 (Fin 2)] (Fin 5) (Fin 7) = Fin 49.
Proof.
  repeat split; vm_compute; reflexivity.
Qed.

(** *** The plan never decreases *)

Lemma lt_le (a b : num) : JS.lt a b = true -> JS.le a b = true.
Proof.
  destruct a as [| | |p], b as [| | |q]; simpl; try discriminate; auto.
  unfold JS.Qltb. intros H. apply Qle_bool_iff.
  destruct (Qle_bool q p) eqn:E; [discriminate|].
  destruct (Qlt_le_dec p q) as [Hlt | Hle]; [lra|].
  apply Qle_bool_iff in Hle. congruence.
Qed.

Section Monotone.

Variables (stages : list Stage.t) (capMiles daysPerWeek : num).

Hypothesis valid : Spec.validPlan stages capMiles daysPerWeek = true.

Lemma validPlan_cap : JS.le (Fin 0) capMiles = true.
Proof.
  unfold Spec.validPlan in valid.
  apply andb_true_iff in valid. destruct valid as [H _].
  apply andb_true_iff in H. destruct H as [H _].
  apply andb_true_iff in H. destruct H as [_ H].
  now apply lt_le.
Qed.

Lemma validPlan_rates :
  Forall (fun s => JS.le (Fin 0) (Stage.milesPerDay s) = true) stages.
Proof.
  unfold Spec.validPlan in valid.
  apply andb_true_iff in valid. destruct valid as [H _].
  apply andb_true_iff in H. destruct H as [H _].
  apply andb_true_iff in H. destruct H as [H _].
  rewrite forallb_forall in H. apply Forall_forall. intros s Hs.
  specialize (H s Hs). unfold Spec.validStage in H.
  apply andb_true_iff in H. destruct H as [H _].
  apply andb_true_iff in H. destruct H as [_ H].
  exact (le_trans (Fin 0) (Fin (1 # 2)) _ eq_refl H).
Qed.

Lemma orCap_nonneg (l : list Stage.t) :
  Forall (fun s => JS.le (Fin 0) (Stage.milesPerDay s) = true) l ->
  forall (i : nat) (remaining : Z),
    JS.le (Fin 0) (Backup.orCap (Backup.stageFrom i remaining l) capMiles)
    = true.
Proof.
  induction 1 as [|s rest Hs Hrest IH]; intros i remaining; simpl.
  - exact validPlan_cap.
  - destruct (remaining <? Stage.weeks s * 7); [exact Hs | apply IH].
Qed.

Lemma plannedFrom_grows (n : nat) :
  forall (i : Z) (sum : num),
    JS.le (Fin 0) sum = true ->
    JS.le sum (Backup.plannedFrom n i sum stages capMiles daysPerWeek) = true
    /\ JS.le (Fin 0)
         (Backup.plannedFrom n i sum stages capMiles daysPerWeek) = true.
Proof.
  induction n as [|n IH]; intros i sum Hsum; simpl.
  - split; [now apply le_refl_nonneg | assumption].
  - destruct (Backup.isActiveDay i daysPerWeek); simpl; [|now apply IH].
    pose proof (orCap_nonneg stages validPlan_rates 0 i) as Hr.
    fold (Backup.getStageForDayIndex i stages) in Hr.
    destruct (le_add_nonneg sum _ Hsum Hr) as [H1 H2].
    destruct (IH (i + 1) _ H2) as [H3 H4].
    split; [exact (le_trans _ _ _ H1 H3) | exact H4].
Qed.

Lemma plannedFrom_add (n k : nat) :
  forall (i : Z) (sum : num),
    Backup.plannedFrom (n + k) i sum stages capMiles daysPerWeek
    = Backup.plannedFrom k (i + Z.of_nat n)
        (Backup.plannedFrom n i sum stages capMiles daysPerWeek)
        stages capMiles daysPerWeek.
Proof.
  induction n as [|n IH]; intros i sum.
  - simpl. now rewrite Z.add_0_r.
  - replace (i + Z.of_nat (S n)) with (i + 1 + Z.of_nat n) by lia.
    cbn [Nat.add Backup.plannedFrom].
    destruct (negb (Backup.isActiveDay i daysPerWeek)); apply IH.
Qed.

Lemma plannedFrom_monotone (n m : nat) :
  (n <= m)%nat ->
  JS.le (Backup.plannedFrom n 0 (Fin 0) stages capMiles daysPerWeek)
        (Backup.plannedFrom m 0 (Fin 0) stages capMiles daysPerWeek) = true.
Proof.
  intros Hnm. replace m with (n + (m - n))%nat by lia.
  rewrite plannedFrom_add.
  apply plannedFrom_grows. now apply plannedFrom_grows.
Qed.

Variable toDate : string -> option Z.

Lemma plannedMilesThroughDate_nonneg (planStart target : string) :
  JS.le (Fin 0)
    (Backup.plannedMilesThroughDate toDate planStart target
       stages capMiles daysPerWeek) = true.
Proof.
  unfold Backup.plannedMilesThroughDate.
  destruct (_ || _); [reflexivity|].
  destruct (Backup.dateLt _ _); [reflexivity|].
  destruct (Backup.daysDiffInclusive _ _ _); [|reflexivity].
  now apply plannedFrom_grows.
Qed.

(** C8: for a valid plan and two valid dates [d1 <= d2], the plan through
    [d1] is at most the plan through [d2]: every rate that is added, a
    stage's (at least 0.5) or the cap (positive), is non-negative. *)
Theorem plannedMilesThroughDate_monotone
    (planStart d1 d2 : string) (t1 t2 : Z) :
  d2 <> "" ->
  toDate d1 = Some t1 -> toDate d2 = Some t2 -> t1 <= t2 ->
  JS.le
    (Backup.plannedMilesThroughDate toDate planStart d1
       stages capMiles daysPerWeek)
    (Backup.plannedMilesThroughDate toDate planStart d2
       stages capMiles daysPerWeek) = true.
Proof.
  intros Hd2 H1 H2 Hle.
  pose proof (plannedMilesThroughDate_nonneg planStart d2) as Hnn.
  unfold Backup.plannedMilesThroughDate in *.
  apply String.eqb_neq in Hd2. rewrite Hd2 in *.
  destruct (planStart =? "")%string; [reflexivity|]. simpl orb in *.
  destruct (d1 =? "")%string; [exact Hnn|].
  unfold Backup.daysDiffInclusive in *. rewrite H1, H2 in *.
  destruct (toDate planStart) as [a|]; [|reflexivity].
  simpl Backup.dateLt in *.
  destruct (t1 <? a) eqn:E1; [exact Hnn|].
  apply Z.ltb_ge in E1.
  replace (t2 <? a) with false by (symmetry; apply Z.ltb_ge; lia).
  apply plannedFrom_monotone.
  apply Z2Nat.inj_le.
  - assert (0 <= (t1 - a) / (1000 * 60 * 60 * 24)); [|lia].
    apply Z.div_pos; lia.
  - assert (0 <= (t2 - a) / (1000 * 60 * 60 * 24)); [|lia].
    apply Z.div_pos; lia.
  - apply Z.add_le_mono_r. apply Z.div_le_mono; lia.
Qed.

End Monotone.

(** The default plan from 2024-01-01: through 10 January it is at most
    what it is through 20 January. *)
Lemma plannedMilesThroughDate_monotone_witness :
  Spec.validPlan Backup.DEFAULT_RAMP_STAGES (Fin 5) (Fin 7) = true
  /\ JS.le
       (Backup.plannedMilesThroughDate UTC.toDate "2024-01-01" "2024-01-10"
          Backup.DEFAULT_RAMP_STAGES (Fin 5) (Fin 7))
       (Backup.plannedMilesThroughDate UTC.toDate "2024-01-01" "2024-01-20"
          Backup.DEFAULT_RAMP_STAGES (Fin 5) (Fin 7)) = true.
Proof.
  split; [reflexivity|].
  refine (plannedMilesThroughDate_monotone Backup.DEFAULT_RAMP_STAGES
            (Fin 5) (Fin 7) eq_refl UTC.toDate
            "2024-01-01" "2024-01-10" "2024-01-20"
            1704844800000 1705708800000 _ eq_refl eq_refl _);
    [discriminate | lia].
Defined.

(** ** Percent to goal *)

Lemma Qltb_lt (p q : Q) : JS.Qltb p q = true <-> (p < q)%Q.
Proof.
  unfold JS.Qltb. rewrite negb_true_iff. split; intros H.
  - destruct (Qlt_le_dec p q) as [Hlt | Hle]; [trivial|].
    apply Qle_bool_iff in Hle. congruence.
  - destruct (Qle_bool q p) eqn:E; [|reflexivity].
    apply Qle_bool_iff in E. lra.
Qed.

Lemma Qltb_ge (p q : Q) : JS.Qltb p q = false <-> (q <= p)%Q.
Proof.
  unfold JS.Qltb. rewrite negb_false_iff. apply Qle_bool_iff.
Qed.

(** [clamp(x, 0, 100)] on a finite [x]. *)
Lemma clamp_percent (x : Q) :
  exists r : Q,
    Backup.clamp (Fin x) (Fin 0) (Fin 100) = Fin r
    /\ (0 <= r <= 100)%Q
    /\ ((x < 0)%Q -> (r == 0)%Q)
    /\ ((0 <= x <= 100)%Q -> (r == x)%Q)
    /\ ((100 < x)%Q -> (r == 100)%Q).
Proof.
  unfold Backup.clamp. simpl JS.min.
  destruct (JS.Qltb x 100) eqn:E1; simpl JS.max.
  - apply Qltb_lt in E1. destruct (JS.Qltb 0 x) eqn:E2.
    + apply Qltb_lt in E2. exists x. repeat split; intros; try lra.
    + apply Qltb_ge in E2. exists 0%Q. repeat split; intros; try lra.
  - apply Qltb_ge in E1. exists 100%Q. repeat split; intros; lra.
Qed.

Lemma clamp_percent_eqv (x y : Q) :
  (x == y)%Q ->
  JS.eqv (Backup.clamp (Fin x) (Fin 0) (Fin 100))
         (Backup.clamp (Fin y) (Fin 0) (Fin 100)).
Proof.
  intros Hxy.
  destruct (clamp_percent x) as (r & -> & _ & Hx1 & Hx2 & Hx3).
  destruct (clamp_percent y) as (s & -> & _ & Hy1 & Hy2 & Hy3).
  simpl.
  destruct (Qlt_le_dec x 0) as [H0 | H0].
  - rewrite Hx1, Hy1 by lra. reflexivity.
  - destruct (Qlt_le_dec 100 x) as [H1 | H1].
    + rewrite Hx3, Hy3 by lra. reflexivity.
    + rewrite Hx2, Hy2 by lra. exact Hxy.
Qed.

Lemma progressPct_finite (t g : Q) :
  Backup.progressPct (Fin t) (Fin g)
  = Backup.clamp (Fin (t / Backup.denomOf g * 100)) (Fin 0) (Fin 100).
Proof.
  unfold Backup.progressPct, JS.or_else, Backup.denomOf. simpl JS.truthy.
  destruct (Qeq_bool g 0) eqn:E; simpl negb; cbv iota.
  - reflexivity.
  - unfold JS.div. rewrite E. reflexivity.
Qed.

(** C1, as the code has it: the percent to goal is
    [clamp(total / d * 100, 0, 100)] where [d] is the goal itself when it
    is a number other than 0, and 1 when it is 0 or [NaN].  On a finite
    total and goal the result lies in [0, 100], and it is the value of
    the formula with [max(1, goal)] whenever the goal is 0 or at least 1. *)
Theorem progressPct_denominator (logs : list Log.t) (t g : Q) :
  Backup.totalMiles logs = Fin t ->
  (exists r : Q,
      Backup.progressPct (Backup.totalMiles logs) (Fin g) = Fin r
      /\ (0 <= r <= 100)%Q
      /\ ((t / Backup.denomOf g * 100 < 0)%Q -> (r == 0)%Q)
      /\ ((0 <= t / Backup.denomOf g * 100 <= 100)%Q ->
          (r == t / Backup.denomOf g * 100)%Q)
      /\ ((100 < t / Backup.denomOf g * 100)%Q -> (r == 100)%Q))
  /\ ((g == 0)%Q -> Backup.denomOf g = 1%Q)
  /\ (~ (g == 0)%Q -> Backup.denomOf g = g)
  /\ Backup.progressPct (Backup.totalMiles logs) NaN
     = Backup.progressPct (Backup.totalMiles logs) (Fin 1)
  /\ ((g == 0)%Q \/ (1 <= g)%Q ->
      JS.eqv (Backup.progressPct (Backup.totalMiles logs) (Fin g))
             (Spec.percentToGoal (Backup.totalMiles logs) (Fin g))).
Proof.
  intros ->. split; [|split; [|split; [|split]]].
  - rewrite progressPct_finite. apply clamp_percent.
  - intros H. unfold Backup.denomOf. now rewrite (Qeq_eq_bool _ _ H).
  - intros H. unfold Backup.denomOf.
    destruct (Qeq_bool g 0) eqn:E; [|reflexivity].
    apply Qeq_bool_eq in E. contradiction.
  - reflexivity.
  - intros Hg. rewrite progressPct_finite.
    unfold Spec.percentToGoal, Spec.clamp. simpl JS.max at 2.
    destruct (JS.Qltb 1 g) eqn:E1.
    + apply Qltb_lt in E1. unfold Backup.denomOf.
      assert (E0 : Qeq_bool g 0 = false).
      { destruct (Qeq_bool g 0) eqn:E; [|reflexivity].
        apply Qeq_bool_eq in E. lra. }
      rewrite E0. unfold JS.div. rewrite E0. simpl JS.mul.
      apply clamp_percent_eqv. reflexivity.
    + apply Qltb_ge in E1.
      change (JS.div (Fin t) (Fin 1)) with (Fin (t / 1)). simpl JS.mul.
      apply clamp_percent_eqv.
      destruct Hg as [Hg | Hg].
      * unfold Backup.denomOf. rewrite (Qeq_eq_bool _ _ Hg). reflexivity.
      * assert (Hg1 : (g == 1)%Q) by lra.
        unfold Backup.denomOf.
        destruct (Qeq_bool g 0) eqn:E; [reflexivity|].
        now rewrite Hg1.
Qed.

(** A quarter of a mile walked towards a goal of half a mile. *)
Lemma progressPct_denominator_witness :
  Backup.totalMiles [Log.mk "a" "2024-01-01" (Fin (1 # 4))] = Fin (1 # 4)
  /\ exists r : Q,
       Backup.progressPct
         (Backup.totalMiles [Log.mk "a" "2024-01-01" (Fin (1 # 4))])
         (Fin (1 # 2)) = Fin r
       /\ (0 <= r <= 100)%Q.
Proof.
  split; [reflexivity|].
  destruct (proj1 (progressPct_denominator
                     [Log.mk "a" "2024-01-01" (Fin (1 # 4))]
                     (1 # 4) (1 # 2) eq_refl)) as (r & Hr & Hb & _).
  exists r. split; assumption.
Defined.

(** C1 fails as stated: with a quarter of a mile walked and a goal of half
    a mile the code divides by the goal and shows 50 percent, while the
    formula with [max(1, goal)] divides by 1 and gives 25. *)
Lemma progressPct_not_max_formula :
  Backup.progressPct
    (Backup.totalMiles [Log.mk "a" "2024-01-01" (Fin (1 # 4))]) (Fin (1 # 2))
  = Fin (200 # 4)
  /\ Spec.percentToGoal
       (Backup.totalMiles [Log.mk "a" "2024-01-01" (Fin (1 # 4))])
       (Fin (1 # 2))
     = Fin (100 # 4)
  /\ ~ JS.eqv
       (Backup.progressPct
          (Backup.totalMiles [Log.mk "a" "2024-01-01" (Fin (1 # 4))])
          (Fin (1 # 2)))
       (Spec.percentToGoal
          (Backup.totalMiles [Log.mk "a" "2024-01-01" (Fin (1 # 4))])
          (Fin (1 # 2))).
Proof.
  split; [reflexivity|]. split; [reflexivity|].
  simpl. intros H. discriminate H.
Qed.

(** ** The order of the stored entries *)

Section SortFacts.

Context {A : Type}.
Variable cmp : A -> A -> comparison.

Hypothesis cmp_total : forall x y, cmp x y = Gt -> cmp y x <> Gt.

Lemma insertBy_perm (x : A) (l : list A) :
  Permutation (x :: l) (insertBy cmp x l).
Proof.
  induction l as [|y ys IH]; simpl; [reflexivity|].
  destruct (cmp x y); try reflexivity.
  rewrite perm_swap. now apply perm_skip.
Qed.

Lemma stableSort_perm (l : list A) : Permutation l (stableSort cmp l).
Proof.
  induction l as [|x l IH]; simpl; [reflexivity|].
  rewrite <- insertBy_perm. now apply perm_skip.
Qed.

(** [x] may stand before [y] when [cmp x y] is not positive. *)
Lemma insertBy_sorted (x : A) (l : list A) :
  Sorted (fun a b => cmp a b <> Gt) l ->
  Sorted (fun a b => cmp a b <> Gt) (insertBy cmp x l).
Proof.
  induction 1 as [|y ys Hs IH Hhd]; simpl.
  - repeat constructor.
  - destruct (cmp x y) eqn:E.
    + repeat constructor; trivial. congruence.
    + repeat constructor; trivial. congruence.
    + constructor; [exact IH|].
      destruct Hhd as [|z zs Hyz]; simpl.
      * constructor. now apply cmp_total.
      * destruct (cmp x z); constructor; trivial; now apply cmp_total.
Qed.

Lemma stableSort_sorted (l : list A) :
  Sorted (fun a b => cmp a b <> Gt) (stableSort cmp l).
Proof.
  induction l as [|x l IH]; simpl; [constructor|].
  now apply insertBy_sorted.
Qed.

End SortFacts.

Lemma Sorted_weaken {A : Type} (R S : A -> A -> Prop) (l : list A) :
  (forall x y, R x y -> S x y) -> Sorted R l -> Sorted S l.
Proof.
  intros HRS. induction 1 as [|x l Hl IH Hhd]; constructor; trivial.
  destruct Hhd; constructor; auto.
Qed.

Lemma byDateDesc_total (x y : Log.t) :
  Backup.byDateDesc x y = Gt -> Backup.byDateDesc y x <> Gt.
Proof.
  unfold Backup.byDateDesc. rewrite String.compare_antisym.
  destruct (String.compare (Log.date x) (Log.date y)); simpl; congruence.
Qed.

(** The setter calls of the second component, one by one. *)
Lemma Tracker_run_app (l1 l2 : list Tracker.setter) (st : Tracker.state) :
  Tracker.run (l1 ++ l2) st = Tracker.run l2 (Tracker.run l1 st).
Proof. apply fold_left_app. Qed.

Lemma showRewardToast_entries (m : option Milestone.t) (st : Tracker.state) :
  Tracker.entries (Tracker.run (Tracker.showRewardToast m) st)
  = Tracker.entries st.
Proof. destruct m; reflexivity. Qed.

Section TrackerOrder.

Variable parseFloat : string -> num.

Lemma addMiles_entries (uuid now : string) (st : Tracker.state) :
  Tracker.entries (Tracker.step parseFloat st (Tracker.clickAdd uuid now))
  = if Tracker.accepts (parseFloat (Tracker.inputMiles st))
    then (Tracker.entries st
          ++ [Entry.mk uuid (parseFloat (Tracker.inputMiles st)) now false])%list
    else Tracker.entries st.
Proof.
  unfold Tracker.step, Tracker.handler, Tracker.addMiles, Tracker.accepts.
  destruct (JS.isNaN _ || JS.le _ _); simpl negb; cbv iota; [reflexivity|].
  rewrite Tracker_run_app.
  destruct (Tracker.idDiffers _ _);
    [rewrite showRewardToast_entries|]; reflexivity.
Qed.

Lemma appendEvents_entries (adds : list (string * string * string)) :
  forall st,
    Tracker.entries (Tracker.steps parseFloat (Tracker.appendEvents adds) st)
    = (Tracker.entries st ++ Tracker.appended parseFloat adds)%list.
Proof.
  induction adds as [|[[s uuid] now] adds IH]; intros st.
  - simpl. now rewrite app_nil_r.
  - unfold Tracker.steps in *. cbn [Tracker.appendEvents flat_map app fold_left].
    fold (Tracker.appendEvents adds). rewrite IH.
    rewrite addMiles_entries.
    change (Tracker.inputMiles
              (Tracker.step parseFloat st (Tracker.typeMiles s))) with s.
    change (Tracker.entries
              (Tracker.step parseFloat st (Tracker.typeMiles s)))
      with (Tracker.entries st).
    unfold Tracker.appended. cbn [filter map].
    destruct (Tracker.accepts (parseFloat s)); cbn [map].
    + now rewrite <- app_assoc.
    + reflexivity.
Qed.

End TrackerOrder.

Lemma addLog_logs (milestones : list Milestone.t) (Number : string -> num)
    (uuid : string) (st : Backup.state) :
  Backup.accepts (Number (Backup.entryMiles st)) = true ->
  Backup.logs (Backup.step milestones Number st (Backup.clickAdd uuid))
  = stableSort Backup.byDateDesc
      (Backup.logs st
       ++ [Log.mk uuid (Backup.entryDate st)
             (Number (Backup.entryMiles st))]).
Proof.
  unfold Backup.accepts, Backup.step, Backup.handler, Backup.addLog.
  intros H. apply negb_true_iff in H. rewrite H.
  destruct (at_last _); [reflexivity|].
  destruct (Backup.nextMilestone _ _); reflexivity.
Qed.

(** C2, as the code has it.  In the second component the stored entries
    are in the order of the appends: a run of appends leaves the entries
    that were there, followed by the accepted ones in the order of the
    run; the last entry is the one appended last, and "delete last"
    removes it.  In [backup.jsx] every append sorts the stored logs
    again: what is stored is the stable sort, by date descending, of the
    old logs followed by the new one, a permutation of them in which no
    log stands before one of a later date. *)
Theorem stored_order :
  (forall parseFloat adds st,
      Tracker.entries
        (Tracker.steps parseFloat (Tracker.appendEvents adds) st)
      = (Tracker.entries st ++ Tracker.appended parseFloat adds)%list)
  /\ (forall parseFloat adds s uuid now st,
        Tracker.accepts (parseFloat s) = true ->
        Tracker.lastEntry
          (Tracker.steps parseFloat
             (Tracker.appendEvents (adds ++ [(s, uuid, now)])) st)
        = Some (Entry.mk uuid (parseFloat s) now false))
  /\ (forall parseFloat st,
        Tracker.entries (Tracker.step parseFloat st Tracker.clickDeleteLast)
        = removelast (Tracker.entries st))
  /\ (forall milestones Number uuid st,
        Backup.accepts (Number (Backup.entryMiles st)) = true ->
        let newLog :=
          Log.mk uuid (Backup.entryDate st) (Number (Backup.entryMiles st)) in
        let stored :=
          Backup.logs
            (Backup.step milestones Number st (Backup.clickAdd uuid)) in
        stored = stableSort Backup.byDateDesc (Backup.logs st ++ [newLog])
        /\ Permutation (Backup.logs st ++ [newLog]) stored
        /\ Sorted (fun a b => (Log.date b <=? Log.date a)%string = true)
             stored).
Proof.
  split; [|split; [|split]].
  - intros. apply appendEvents_entries.
  - intros parseFloat adds s uuid now st Hacc.
    unfold Tracker.lastEntry. rewrite appendEvents_entries.
    unfold Tracker.appended. rewrite filter_app, map_app. cbn [filter map].
    rewrite Hacc. cbn [map]. rewrite !app_assoc. apply at_last_snoc.
  - intros parseFloat st.
    unfold Tracker.step, Tracker.handler, Tracker.deleteLast, Tracker.lastEntry.
    destruct (at_last (Tracker.entries st)) eqn:E; [reflexivity|].
    cbn [Tracker.run fold_left].
    destruct (Tracker.entries st) as [|e es]; [reflexivity|].
    rewrite at_last_cons in E. destruct (at_last es); discriminate.
  - intros milestones Number uuid st Hacc newLog stored.
    assert (Hst : stored
                  = stableSort Backup.byDateDesc (Backup.logs st ++ [newLog]))
      by (apply addLog_logs; exact Hacc).
    rewrite Hst. split; [reflexivity|]. split.
    + apply stableSort_perm.
    + apply (Sorted_weaken (fun x y => Backup.byDateDesc x y <> Gt)).
      * intros x y. unfold Backup.byDateDesc, String.leb.
        destruct (String.compare (Log.date y) (Log.date x)); congruence.
      * apply stableSort_sorted. exact byDateDesc_total.
Qed.

(** Two walks typed into the second component, then a third. *)
Lemma stored_order_witness :
  Tracker.accepts (Input.parseFloat "5") = true
  /\ Tracker.lastEntry
       (Tracker.steps Input.parseFloat
          (Tracker.appendEvents
             ([("3", "id1", "2024-01-02T10:00:00.000Z");
               ("4", "id2", "2024-01-01T09:00:00.000Z")]
              ++ [("5", "id3", "2024-01-03T08:00:00.000Z")]))
          Tracker.initial)
     = Some (Entry.mk "id3" (Input.parseFloat "5")
               "2024-01-03T08:00:00.000Z" false).
Proof.
  split; [reflexivity|].
  apply (proj1 (proj2 stored_order)). reflexivity.
Defined.

(** C2 fails as stated on [backup.jsx]: a log dated 1 January is added,
    then one dated 2 January; the stored array has the second log first. *)
Lemma addLog_not_insertion_order :
  Backup.logs
    (Backup.steps Backup.DEFAULT_MILESTONES Input.Number
       [ Backup.typeMiles "3"; Backup.pickDate "2024-01-01";
         Backup.clickAdd "id1";
         Backup.typeMiles "4"; Backup.pickDate "2024-01-02";
         Backup.clickAdd "id2" ]
       (Backup.defaults "2024-01-01"))
  = [ Log.mk "id2" "2024-01-02" (Fin 4); Log.mk "id1" "2024-01-01" (Fin 3) ]
  /\ [ Log.mk "id2" "2024-01-02" (Fin 4); Log.mk "id1" "2024-01-01" (Fin 3) ]
     <> [ Log.mk "id1" "2024-01-01" (Fin 3); Log.mk "id2" "2024-01-02" (Fin 4) ].
Proof.
  split; [reflexivity | discriminate].
Qed.

(** ** Editing the last entry *)

Lemma editLastOf_snoc (value : num) (es : list Entry.t) (e : Entry.t) :
  Tracker.editLastOf value (es ++ [e])
  = (es ++ [Entry.mk (Entry.id e) value (Entry.date e) true])%list.
Proof.
  induction es as [|x es IH]; [reflexivity|].
  change ((x :: es) ++ [e])%list with (x :: (es ++ [e]))%list.
  cbn [Tracker.editLastOf]. rewrite IH.
  destruct (es ++ [e])%list eqn:E; [|reflexivity].
  destruct es; discriminate.
Qed.

Lemma at_last_none {A : Type} (l : list A) : at_last l = None -> l = [].
Proof.
  destruct l as [|x l]; [reflexivity|].
  rewrite at_last_cons. destruct (at_last l); discriminate.
Qed.

(** C6: [saveEditLast] does nothing (no setter is called) when there is
    no entry or the new distance is [NaN] or [<= 0].  Otherwise it
    replaces the last entry by one with the same id and date, the new
    distance and [edited = true]; the entries before it and the length of
    the ledger are as they were.  On the one-entry ledger with distance
    10 and the new distance 15 the total goes from 10 to 15. *)
Theorem saveEditLast_frame (parseFloat : string -> num) (st : Tracker.state) :
  (Tracker.entries st = []
   \/ JS.le (parseFloat (Tracker.editMiles st)) (Fin 0) = true
   \/ JS.isNaN (parseFloat (Tracker.editMiles st)) = true ->
   Tracker.saveEditLast parseFloat st = []
   /\ Tracker.step parseFloat st Tracker.clickSave = st)
  /\ (forall es e,
        Tracker.entries st = (es ++ [e])%list ->
        Tracker.accepts (parseFloat (Tracker.editMiles st)) = true ->
        Tracker.entries (Tracker.step parseFloat st Tracker.clickSave)
        = (es ++ [Entry.mk (Entry.id e) (parseFloat (Tracker.editMiles st))
                    (Entry.date e) true])%list
        /\ List.length
             (Tracker.entries (Tracker.step parseFloat st Tracker.clickSave))
           = List.length (Tracker.entries st))
  /\ (forall id date edited,
        Tracker.entries st = [Entry.mk id (Fin 10) date edited] ->
        parseFloat (Tracker.editMiles st) = Fin 15 ->
        Tracker.totalMiles (Tracker.entries st) = Fin 10
        /\ Tracker.entries (Tracker.step parseFloat st Tracker.clickSave)
           = [Entry.mk id (Fin 15) date true]
        /\ Tracker.totalMiles
             (Tracker.entries (Tracker.step parseFloat st Tracker.clickSave))
           = Fin 15).
Proof.
  assert (Hok : forall es e,
    Tracker.entries st = (es ++ [e])%list ->
    Tracker.accepts (parseFloat (Tracker.editMiles st)) = true ->
    Tracker.entries (Tracker.step parseFloat st Tracker.clickSave)
    = (es ++ [Entry.mk (Entry.id e) (parseFloat (Tracker.editMiles st))
                (Entry.date e) true])%list).
  { intros es e Hes Hacc.
    unfold Tracker.step, Tracker.handler, Tracker.saveEditLast,
      Tracker.lastEntry.
    rewrite Hes, at_last_snoc.
    unfold Tracker.accepts in Hacc. apply negb_true_iff in Hacc.
    rewrite Hacc. rewrite Tracker_run_app.
    destruct (JS.gt _ _ && Tracker.idDiffers _ _);
      [rewrite showRewardToast_entries|];
      cbn [Tracker.run fold_left Tracker.apply Tracker.entries];
      rewrite Hes; apply editLastOf_snoc. }
  split; [|split].
  - intros H.
    assert (Hnil : Tracker.saveEditLast parseFloat st = []).
    { unfold Tracker.saveEditLast, Tracker.lastEntry.
      destruct (at_last (Tracker.entries st)) eqn:E; [|reflexivity].
      destruct H as [H | [H | H]].
      - rewrite H in E. discriminate.
      - rewrite H, orb_true_r. reflexivity.
      - rewrite H. reflexivity. }
    split; [exact Hnil|].
    unfold Tracker.step, Tracker.handler. rewrite Hnil. reflexivity.
  - intros es e Hes Hacc. split; [now apply Hok|].
    rewrite (Hok es e Hes Hacc), Hes, !length_app. reflexivity.
  - intros id date edited Hes Hv.
    assert (Hacc : Tracker.accepts (parseFloat (Tracker.editMiles st)) = true)
      by (rewrite Hv; reflexivity).
    rewrite (Hok [] _ Hes Hacc), Hes, Hv. repeat split.
Qed.

(** The scenario itself: one entry of 10 miles, "15" typed into the edit
    field. *)
Lemma saveEditLast_frame_witness :
  Tracker.entries
    (Tracker.mkState [Entry.mk "id1" (Fin 10) "2024-01-01T09:00:00.000Z" false]
       "" true "15" None false)
  = [Entry.mk "id1" (Fin 10) "2024-01-01T09:00:00.000Z" false]
  /\ Input.parseFloat "15" = Fin 15
  /\ Tracker.entries
       (Tracker.step Input.parseFloat
          (Tracker.mkState
             [Entry.mk "id1" (Fin 10) "2024-01-01T09:00:00.000Z" false]
             "" true "15" None false)
          Tracker.clickSave)
     = [Entry.mk "id1" (Fin 15) "2024-01-01T09:00:00.000Z" true].
Proof.
  split; [reflexivity|]. split; [reflexivity|].
  refine (proj1 (proj2 (proj2 (proj2
    (saveEditLast_frame Input.parseFloat
       (Tracker.mkState
          [Entry.mk "id1" (Fin 10) "2024-01-01T09:00:00.000Z" false]
          "" true "15" None false))) "id1" "2024-01-01T09:00:00.000Z" false
    eq_refl eq_refl))).
Defined.

(** ** Validation of an append *)

Lemma Tracker_accepts_iff (v : num) :
  Tracker.accepts v = true <-> v = PInf \/ exists q, v = Fin q /\ (0 < q)%Q.
Proof.
  unfold Tracker.accepts. destruct v as [| | |q]; simpl.
  - split; [discriminate | intros [H | (q & H & _)]; discriminate].
  - split; auto.
  - split; [discriminate | intros [H | (q & H & _)]; discriminate].
  - rewrite negb_true_iff. split.
    + intros H. right. exists q. split; [reflexivity|].
      apply Qltb_lt. unfold JS.Qltb. now rewrite H.
    + intros [H | (q' & H & Hq)]; [discriminate|]. injection H as <-.
      apply Qltb_lt in Hq. unfold JS.Qltb in Hq.
      now apply negb_true_iff in Hq.
Qed.

Lemma Backup_accepts_iff (m : num) :
  Backup.accepts m = true <-> exists q, m = Fin q /\ (0 < q)%Q.
Proof.
  unfold Backup.accepts. destruct m as [| | |q]; simpl.
  - split; [discriminate | intros (q & H & _); discriminate].
  - split; [discriminate | intros (q & H & _); discriminate].
  - split; [discriminate | intros (q & H & _); discriminate].
  - rewrite negb_true_iff. split.
    + intros H. exists q. split; [reflexivity|].
      apply Qltb_lt. unfold JS.Qltb. now rewrite H.
    + intros (q' & H & Hq). injection H as <-.
      apply Qltb_lt in Hq. unfold JS.Qltb in Hq.
      now apply negb_true_iff in Hq.
Qed.



(** The premise on the field is needed in the second component:
    [addMiles] tests [isNaN], not [Number.isFinite], so a value of
    [+Infinity], which no number field hands over, would pass its
    guard. *)
Lemma addMiles_appends_infinity :
  JS.isFinite (Input.parseFloat "Infinity") = false
  /\ Tracker.entries
       (Tracker.step Input.parseFloat
          (Tracker.mkState [] "Infinity" false "" None false)
          (Tracker.clickAdd "id1" "2024-01-01T09:00:00.000Z"))
     = [Entry.mk "id1" PInf "2024-01-01T09:00:00.000Z" false].
Proof.
  split; reflexivity.
Qed.

(** ** Crossed milestones and the notification *)

Lemma filter_none {A : Type} (p : A -> bool) (l : list A) :
  (forall y, In y l -> p y = false) -> filter p l = [].
Proof.
  induction l as [|x l IH]; intros H; simpl; [reflexivity|].
  rewrite (H x (or_introl eq_refl)). apply IH. intros y Hy. apply H. now right.
Qed.

Lemma at_last_in {A : Type} (l : list A) (x : A) :
  at_last l = Some x -> In x l.
Proof.
  induction l as [|y l IH]; [discriminate|].
  rewrite at_last_cons. destruct (at_last l) as [z|]; simpl; intros H.
  - right. apply IH. exact H.
  - left. congruence.
Qed.

Lemma NoDup_map_inj {A B : Type} (f : A -> B) (l : list A) (x y : A) :
  NoDup (map f l) -> In x l -> In y l -> f x = f y -> x = y.
Proof.
  induction l as [|z l IH]; simpl; intros Hnd Hx Hy Hf; [destruct Hx|].
  inversion Hnd as [|? ? Hnotin Hnd']; subst.
  destruct Hx as [<- | Hx], Hy as [<- | Hy]; trivial.
  - exfalso. apply Hnotin. rewrite Hf. now apply in_map.
  - exfalso. apply Hnotin. rewrite <- Hf. now apply in_map.
  - now apply IH.
Qed.

Lemma ascending_filter (p : Milestone.t -> bool) (table : list Milestone.t) :
  Spec.ascending table -> Spec.ascending (filter p table).
Proof.
  unfold Spec.ascending.
  induction 1 as [|x l Hl IH Hx]; simpl; [constructor|].
  destruct (p x); [|exact IH].
  constructor; [exact IH|].
  rewrite Forall_forall in *. intros y Hy.
  apply filter_In in Hy. now apply Hx.
Qed.

Lemma lt_le_mono (a : num) (x y : Q) :
  JS.lt a (Fin x) = true -> (x <= y)%Q -> JS.lt a (Fin y) = true.
Proof.
  destruct a as [| | |p]; simpl; try discriminate; auto.
  rewrite !Qltb_lt. intros; lra.
Qed.

Lemma lt_le_lt (a b : num) (x : Q) :
  JS.lt a (Fin x) = true -> JS.le (Fin x) b = true -> JS.lt a b = true.
Proof.
  destruct a as [| | |p], b as [| | |q]; simpl; try discriminate; auto.
  rewrite !Qltb_lt, Qle_bool_iff. intros; lra.
Qed.

Lemma le_lt_neq (a : num) (x y : Q) :
  JS.le (Fin x) a = true -> JS.lt a (Fin y) = true -> ~ (x == y)%Q.
Proof.
  destruct a as [| | |p]; simpl; try discriminate.
  rewrite Qltb_lt, Qle_bool_iff. intros; lra.
Qed.

(** In an ascending table the last crossed milestone is the last one
    reached at the new total. *)
Lemma last_crossed_is_last_reached (table : list Milestone.t)
    (prev next : num) (m : Milestone.t) :
  Spec.ascending table ->
  at_last (Spec.crossed table prev next) = Some m ->
  at_last (filter (fun x => JS.ge next (Fin (Milestone.miles x))) table)
  = Some m.
Proof.
  unfold Spec.crossed, JS.ge, Spec.ascending.
  induction 1 as [|x l Hl IH Hx]; cbn [filter]; [discriminate|].
  destruct (JS.lt prev (Fin (Milestone.miles x))) eqn:E1; cbn [andb].
  - destruct (JS.le (Fin (Milestone.miles x)) next) eqn:E2; [|exact IH].
    rewrite !at_last_cons.
    destruct (at_last (filter _ l)) as [z|] eqn:E3; cbn [orElse]; intros H.
    + rewrite (IH H). reflexivity.
    + apply at_last_none in E3.
      rewrite filter_none; [exact H|].
      intros y Hy. rewrite Forall_forall in Hx.
      pose proof (lt_le_mono _ _ _ E1 (Hx y Hy)) as Hlt.
      assert (Hq : In y (filter
        (fun m0 => JS.lt prev (Fin (Milestone.miles m0))
                   && JS.le (Fin (Milestone.miles m0)) next) l) -> False)
        by (rewrite E3; intros []).
      destruct (JS.le (Fin (Milestone.miles y)) next) eqn:E4; trivial.
      exfalso. apply Hq. apply filter_In. split; trivial.
      now rewrite Hlt, E4.
  - intros H. specialize (IH H).
    destruct (JS.le (Fin (Milestone.miles x)) next); [|exact IH].
    rewrite at_last_cons, IH. reflexivity.
Qed.

Section Crossing.

Variable table : list Milestone.t.
Variables prev next : num.

Hypothesis sorted : Spec.ascending table.

Lemma getUnlocked_next (m : Milestone.t) :
  at_last (Spec.crossed table prev next) = Some m ->
  getUnlockedMilestone table next = Some m.
Proof.
  intros H. unfold getUnlockedMilestone.
  rewrite find_rev_filter.
  rewrite (last_crossed_is_last_reached table prev next m sorted H).
  reflexivity.
Qed.

Hypothesis fromZero : Spec.startsAtZero table.
Hypothesis distinct : Spec.distinctIds table.
Hypothesis prev_nonneg : JS.le (Fin 0) prev = true.

Lemma getUnlocked_prev :
  exists p, getUnlockedMilestone table prev = Some p
            /\ In p table
            /\ JS.le (Fin (Milestone.miles p)) prev = true.
Proof.
  unfold getUnlockedMilestone. rewrite find_rev_filter.
  destruct table as [|m0 rest]; [destruct fromZero|]. simpl in fromZero.
  set (p := fun m : Milestone.t => JS.ge prev (Fin (Milestone.miles m))).
  assert (H0 : p m0 = true).
  { unfold p, JS.ge. destruct prev as [| | |q]; simpl in *;
      try discriminate; trivial.
    apply Qle_bool_iff. apply Qle_bool_iff in prev_nonneg.
    now rewrite fromZero. }
  destruct (at_last (filter p (m0 :: rest))) as [m|] eqn:Hlast.
  - exists m. simpl orElse. apply at_last_in, filter_In in Hlast.
    destruct Hlast as [Hin Hp]. auto.
  - exfalso. simpl filter in Hlast. rewrite H0, at_last_cons in Hlast.
    destruct (at_last (filter p rest)); discriminate.
Qed.

(** A crossing changes the unlocked milestone. *)
Lemma crossing_changes_id (m : Milestone.t) :
  at_last (Spec.crossed table prev next) = Some m ->
  Tracker.idDiffers (getUnlockedMilestone table next)
    (getUnlockedMilestone table prev) = true.
Proof.
  intros H. rewrite (getUnlocked_next m H).
  destruct getUnlocked_prev as (p & -> & Hp & Hle). simpl.
  apply negb_true_iff, String.eqb_neq. intros Hid.
  apply at_last_in, filter_In in H. destruct H as [Hm Hq].
  apply andb_true_iff in Hq. destruct Hq as [Hlt _].
  assert (m = p) by (apply (NoDup_map_inj Milestone.id table); trivial).
  subst p. apply (le_lt_neq _ _ _ Hle Hlt). reflexivity.
Qed.

End Crossing.

Lemma MILESTONES_ascending : Spec.ascending Tracker.MILESTONES.
Proof.
  unfold Spec.ascending, Tracker.MILESTONES.
  repeat constructor; simpl; unfold Qle; simpl; lia.
Qed.

Lemma DEFAULT_MILESTONES_ascending : Spec.ascending Backup.DEFAULT_MILESTONES.
Proof.
  unfold Spec.ascending, Backup.DEFAULT_MILESTONES.
  repeat constructor; simpl; unfold Qle; simpl; lia.
Qed.

Lemma MILESTONES_distinctIds : Spec.distinctIds Tracker.MILESTONES.
Proof.
  unfold Spec.distinctIds. simpl.
  repeat constructor; simpl; intuition discriminate.
Qed.

Lemma crossed_in (table : list Milestone.t) (prev next : num) (m : Milestone.t) :
  In m (Spec.crossed table prev next) <->
  In m table
  /\ JS.lt prev (Fin (Milestone.miles m)) = true
  /\ JS.le (Fin (Milestone.miles m)) next = true.
Proof.
  unfold Spec.crossed. rewrite filter_In, andb_true_iff. reflexivity.
Qed.

(** X29: the milestones [addLog] finds newly reached are exactly those
    of the table with [prev < threshold <= next], in table order, which
    is ascending.  When the totals a handler works with (the total before
    the step and the total it computes from it) have at least one
    milestone between them, the handler raises exactly one toast, and it
    names the last, hence the highest, of those milestones: in [addLog],
    and in [addMiles] and [saveEditLast] (whose total before the step is
    [>= 0]). *)
Theorem crossed_and_notification :
  (forall table prev next,
      Backup.newly table prev next = Spec.crossed table prev next
      /\ (forall m,
            In m (Spec.crossed table prev next) <->
            In m table
            /\ JS.lt prev (Fin (Milestone.miles m)) = true
            /\ JS.le (Fin (Milestone.miles m)) next = true)
      /\ (Spec.ascending table ->
          Spec.ascending (Spec.crossed table prev next)
          /\ forall last,
               at_last (Spec.crossed table prev next) = Some last ->
               forall x, In x (Spec.crossed table prev next) ->
                 (Milestone.miles x <= Milestone.miles last)%Q))
  /\ (forall milestones Number uuid st last,
        let m := Number (Backup.entryMiles st) in
        let before := Backup.totalMiles (Backup.logs st) in
        Backup.accepts m = true ->
        at_last (Spec.crossed milestones before (JS.add before m))
        = Some last ->
        Backup.toasts (Backup.addLog milestones Number uuid st)
        = [Backup.Unlocked last])
  /\ (forall parseFloat uuid now st last,
        let value := parseFloat (Tracker.inputMiles st) in
        let prevTotal := Tracker.totalMiles (Tracker.entries st) in
        Tracker.accepts value = true ->
        JS.le (Fin 0) prevTotal = true ->
        at_last (Spec.crossed Tracker.MILESTONES prevTotal
                   (JS.add prevTotal value)) = Some last ->
        Tracker.toasts (Tracker.addMiles parseFloat uuid now st)
        = [Some (Tracker.rewardText last)])
  /\ (forall parseFloat st e last,
        let value := parseFloat (Tracker.editMiles st) in
        let prevTotal := Tracker.totalMiles (Tracker.entries st) in
        let nextTotal :=
          JS.add (JS.sub prevTotal (Entry.miles e)) value in
        Tracker.lastEntry st = Some e ->
        Tracker.accepts value = true ->
        JS.le (Fin 0) prevTotal = true ->
        at_last (Spec.crossed Tracker.MILESTONES prevTotal nextTotal)
        = Some last ->
        Tracker.toasts (Tracker.saveEditLast parseFloat st)
        = [Some (Tracker.rewardText last)]).
Proof.
  split; [|split; [|split]].
  - intros table prev next. split; [reflexivity|].
    split; [intros m; apply crossed_in|].
    intros Hs. split; [now apply ascending_filter|].
    intros last Hlast x Hx.
    apply crossed_in in Hx. destruct Hx as (Hin & _ & Hle).
    pose proof (last_crossed_is_last_reached table prev next last Hs Hlast)
      as Hreached.
    apply at_last_filter_lastSuch in Hreached.
    exact (lastSuch_highest table _ last Hs Hreached x Hin Hle).
  - intros milestones Number uuid st last m before Hacc Hlast.
    unfold Backup.addLog. fold m. fold before.
    unfold Backup.accepts in Hacc. apply negb_true_iff in Hacc.
    rewrite Hacc.
    change (Backup.newly milestones before (JS.add before m))
      with (Spec.crossed milestones before (JS.add before m)).
    rewrite Hlast. reflexivity.
  - intros parseFloat uuid now st last value prevTotal Hacc Hnn Hlast.
    unfold Tracker.addMiles. fold value. fold prevTotal.
    unfold Tracker.accepts in Hacc. apply negb_true_iff in Hacc.
    rewrite Hacc.
    rewrite (crossing_changes_id Tracker.MILESTONES prevTotal _
               MILESTONES_ascending eq_refl MILESTONES_distinctIds
               Hnn last Hlast).
    rewrite (getUnlocked_next Tracker.MILESTONES prevTotal _
               MILESTONES_ascending last Hlast).
    reflexivity.
  - intros parseFloat st e last value prevTotal nextTotal He Hacc Hnn Hlast.
    unfold Tracker.saveEditLast. fold value. rewrite He.
    fold prevTotal. fold nextTotal.
    unfold Tracker.accepts in Hacc. apply negb_true_iff in Hacc.
    rewrite Hacc.
    rewrite (crossing_changes_id Tracker.MILESTONES prevTotal _
               MILESTONES_ascending eq_refl MILESTONES_distinctIds
               Hnn last Hlast).
    rewrite (getUnlocked_next Tracker.MILESTONES prevTotal _
               MILESTONES_ascending last Hlast).
    assert (Hgt : JS.gt nextTotal prevTotal = true).
    { pose proof (at_last_in _ _ Hlast) as Hin.
      apply crossed_in in Hin. destruct Hin as (_ & Hlt & Hle).
      exact (lt_le_lt _ _ _ Hlt Hle). }
    rewrite Hgt. reflexivity.
Qed.

(** The scenario of the big jump: 100 miles walked, 1000 more typed in;
    Bree, Rivendell and Moria are crossed and one toast names Moria. *)
Lemma crossed_and_notification_witness :
  Tracker.accepts (Input.parseFloat "1000") = true
  /\ JS.le (Fin 0)
       (Tracker.totalMiles
          [Entry.mk "a" (Fin 100) "2024-01-01T09:00:00.000Z" false]) = true
  /\ Tracker.toasts
       (Tracker.addMiles Input.parseFloat "b" "2024-01-02T09:00:00.000Z"
          (Tracker.mkState
             [Entry.mk "a" (Fin 100) "2024-01-01T09:00:00.000Z" false]
             "1000" false "" None false))
     = [Some "Reward unlocked at Moria: Movie night: Fellowship."].
Proof.
  split; [reflexivity|]. split; [reflexivity|].
  exact (proj1 (proj2 (proj2 crossed_and_notification))
           Input.parseFloat "b" "2024-01-02T09:00:00.000Z"
           (Tracker.mkState
              [Entry.mk "a" (Fin 100) "2024-01-01T09:00:00.000Z" false]
              "1000" false "" None false)
           (Milestone.mk "moria" "Moria" 1030
              "A tough stretch." "Movie night: Fellowship.")
           eq_refl eq_refl eq_refl).
Defined.

(** *** A milestone reached without its notification *)

(** C4: in binary floating point a step can bring the ledger to a
    milestone and raise no notification for it.  In [backup.jsx], with
    50.3 and 33.4 miles stored and 36.3 miles logged for a later day,
    [addLog] works with [after = (50.3 + 33.4) + 36.3], which is just
    below 120, finds no milestone newly reached and raises "Logged! ...
    miles to next milestone."; the logs it stores, the new one first,
    total [(36.3 + 50.3) + 33.4], which is 120: Bree is reached.  In the
    second component, with 16.4 and 15.7 miles entered and the last
    entry edited to 103.6, [saveEditLast] works with [nextTotal =
    (16.4 + 15.7) - 15.7 + 103.6], just below 120, and raises no toast;
    the entries it stores total 120 and unlock Bree. *)
Theorem crossing_missed_by_rounding :
  (let logs := [ Double.Log.mk "a" "2024-01-02" (Double.ofQ (503 # 10));
                 Double.Log.mk "b" "2024-01-01" (Double.ofQ (334 # 10)) ] in
   let m := Double.ofQ (363 # 10) in
   let before := Double.Backup.totalMiles logs in
   let result :=
     Double.Backup.addLog Backup.DEFAULT_MILESTONES m "c" "2024-01-03" logs in
   PrimFloat.ltb (PrimFloat.add before m) (Double.ofQ 120) = true
   /\ (exists toGo, snd result = Double.Backup.LoggedToNext toGo)
   /\ map Double.Log.id (fst result) = ["c"; "a"; "b"]
   /\ map Milestone.id
        (Double.Backup.reachedMilestones Backup.DEFAULT_MILESTONES before)
      = ["shire"]
   /\ Double.Backup.totalMiles (fst result) = (Double.ofQ 120)
   /\ map Milestone.id
        (Double.Backup.reachedMilestones Backup.DEFAULT_MILESTONES
           (Double.Backup.totalMiles (fst result)))
      = ["shire"; "bree"])
  /\ (let entries :=
        [ Double.Entry.mk "a" (Double.ofQ (164 # 10)) "t1" false;
          Double.Entry.mk "b" (Double.ofQ (157 # 10)) "t2" false ] in
      let value := Double.ofQ (1036 # 10) in
      let prevTotal := Double.Tracker.totalMiles entries in
      let result :=
        Double.Tracker.saveEditLast Tracker.MILESTONES value entries in
      PrimFloat.ltb
        (PrimFloat.add
           (PrimFloat.sub prevTotal (Double.ofQ (157 # 10))) value)
        (Double.ofQ 120) = true
      /\ snd result = None
      /\ option_map Milestone.id
           (Double.Tracker.getUnlockedMilestone Tracker.MILESTONES prevTotal)
         = Some "shire"
      /\ Double.Tracker.totalMiles (fst result) = (Double.ofQ 120)
      /\ option_map Milestone.id
           (Double.Tracker.getUnlockedMilestone Tracker.MILESTONES
              (Double.Tracker.totalMiles (fst result)))
         = Some "bree").
Proof.
  split; repeat split; try (eexists; vm_compute; reflexivity);
    vm_compute; reflexivity.
Qed.

(** ** The persisted record *)

Lemma traverse_map {A B : Type} (f : A -> json) (g : json -> option B)
    (h : A -> B) (ok : A -> bool) (l : list A) :
  (forall x, ok x = true -> g (f x) = Some (h x)) ->
  forallb ok l = true ->
  traverse g (map f l) = Some (map h l).
Proof.
  intros Hfg. induction l as [|x l IH]; simpl; [reflexivity|].
  intros H. apply andb_true_iff in H. destruct H as [Hx Hl].
  rewrite (Hfg x Hx), (IH Hl). reflexivity.
Qed.

Lemma asLog_logJ (r : Log.t) :
  JS.isFinite (Log.miles r) = true -> Backup.asLog (Backup.logJ r) = Some r.
Proof.
  destruct r as [id date [| | |q]]; simpl; try discriminate. reflexivity.
Qed.

Lemma asStage_stageJ (s : Stage.t) :
  JS.isFinite (Stage.milesPerDay s) = true ->
  Backup.asStage (Backup.stageJ s) = Some s.
Proof.
  destruct s as [weeks [| | |q]]; cbn [Stage.milesPerDay JS.isFinite];
    try discriminate.
  intros _. unfold Backup.asStage, Backup.stageJ.
  cbn [assoc String.eqb Ascii.eqb Bool.eqb obind Stage.weeks
       Stage.milesPerDay numJ asNum].
  unfold asInt. rewrite Qfloor_Z, Qeq_bool_refl. reflexivity.
Qed.

Lemma asEntry_entryJ (e : Entry.t) :
  JS.isFinite (Entry.miles e) = true ->
  Tracker.asEntry (Tracker.entryJ e) = Some e.
Proof.
  destruct e as [id [| | |q] date edited]; simpl; try discriminate.
  reflexivity.
Qed.

Lemma Backup_load_persist (today : string) (st : Backup.state) :
  Backup.finiteState st = true ->
  Backup.load today (Backup.persist st) = Some (Backup.restored today st).
Proof.
  unfold Backup.finiteState. rewrite !andb_true_iff.
  intros [[[[Hg Hc] Hd] Hl] Hs].
  destruct st as [goalMiles goalDate logs entryMiles entryDate toast sel
                    planEnabled planStartDate capMiles daysPerWeek stages].
  simpl in *.
  destruct goalMiles as [| | |g]; try discriminate.
  destruct capMiles as [| | |c]; try discriminate.
  destruct daysPerWeek as [| | |d]; try discriminate.
  unfold Backup.load, Backup.persist, Backup.safeParse, cell, prop.
  simpl.
  rewrite (traverse_map Backup.logJ Backup.asLog (fun r => r)
             (fun r => JS.isFinite (Log.miles r)) logs
             (fun r H => asLog_logJ r H) Hl).
  rewrite (traverse_map Backup.stageJ Backup.asStage (fun s => s)
             (fun s => JS.isFinite (Stage.milesPerDay s)) stages
             (fun s H => asStage_stageJ s H) Hs).
  rewrite !map_id. reflexivity.
Qed.

Lemma Tracker_loaded_persist (st : Tracker.state) :
  Tracker.finiteState st = true ->
  Tracker.loaded (Tracker.persist st) = Some (Tracker.restored st).
Proof.
  unfold Tracker.finiteState. intros H.
  unfold Tracker.loaded, Tracker.load, Tracker.persist.
  simpl.
  rewrite (traverse_map Tracker.entryJ Tracker.asEntry (fun e => e)
             (fun e => JS.isFinite (Entry.miles e)) (Tracker.entries st)
             (fun e He => asEntry_entryJ e He) H).
  rewrite map_id. reflexivity.
Qed.

Lemma Backup_load_no_props (today : string) (j : json) :
  (forall key, In key Backup.savedKeys -> prop j key = None) ->
  Backup.load today (Document j) = Some (Backup.defaults today).
Proof.
  intros H.
  assert (Hs : forall key, In key Backup.savedKeys ->
                 prop (Backup.safeParse (Document j) JNull) key = None).
  { intros key Hk. destruct j; try (now apply H); reflexivity. }
  unfold Backup.load, cell.
  rewrite (Hs "goalMiles"), (Hs "goalDate"), (Hs "logs"),
    (Hs "planEnabled"), (Hs "planStartDate"), (Hs "capMiles"),
    (Hs "daysPerWeek"), (Hs "rampStages");
    try reflexivity; unfold Backup.savedKeys; simpl; tauto.
Qed.

(** C9, as the code has it.  A state whose saved numbers are all finite
    comes back from the record it was saved as, cell by cell (the cells
    that are not saved start afresh).  Saved data that is missing, that
    does not parse, that is [null], or in which none of the properties
    the component reads is present (whatever else the record holds),
    gives the defaults, and nothing is thrown; in the second component
    so does every record whose [entries] is not an array. *)
Theorem persistence_roundtrip :
  (forall today st,
      Backup.finiteState st = true ->
      Backup.load today (Backup.persist st)
      = Some (Backup.restored today st))
  /\ (forall st,
        Tracker.finiteState st = true ->
        Tracker.loaded (Tracker.persist st) = Some (Tracker.restored st))
  /\ (forall today,
        Backup.load today Absent = Some (Backup.defaults today)
        /\ Backup.load today Unparseable = Some (Backup.defaults today)
        /\ forall j,
             (forall key, In key Backup.savedKeys -> prop j key = None) ->
             Backup.load today (Document j) = Some (Backup.defaults today))
  /\ (Tracker.loaded Absent = Some Tracker.initial
      /\ Tracker.loaded Unparseable = Some Tracker.initial
      /\ forall j,
           (forall items, prop j "entries" <> Some (JArray items)) ->
           Tracker.loaded (Document j) = Some Tracker.initial).
Proof.
  split; [exact Backup_load_persist|].
  split; [exact Tracker_loaded_persist|].
  split.
  - intros today. split; [reflexivity|]. split; [reflexivity|].
    apply Backup_load_no_props.
  - split; [reflexivity|]. split; [reflexivity|].
    intros j H. unfold Tracker.loaded, Tracker.load.
    destruct j as [| | | | |fields]; try reflexivity.
    simpl in H.
    destruct (assoc "entries" fields) as [[| | | |items|]|]; try reflexivity.
    exfalso. exact (H items eq_refl).
Qed.

(** A day's state of [backup.jsx], saved and loaded again; and a saved
    record that holds only a property the component does not read. *)
Lemma persistence_roundtrip_witness :
  Backup.finiteState
    (Backup.mkState (Fin 1800) "2027-10-12"
       [Log.mk "id1" "2024-01-01" (Fin (5 # 2))] "3" "2024-01-02"
       Backup.EntryRemoved None true "2024-01-01" (Fin 5) (Fin 7)
       Backup.DEFAULT_RAMP_STAGES) = true
  /\ Backup.load "2024-01-03"
       (Backup.persist
          (Backup.mkState (Fin 1800) "2027-10-12"
             [Log.mk "id1" "2024-01-01" (Fin (5 # 2))] "3" "2024-01-02"
             Backup.EntryRemoved None true "2024-01-01" (Fin 5) (Fin 7)
             Backup.DEFAULT_RAMP_STAGES))
     = Some
         (Backup.mkState (Fin 1800) "2027-10-12"
            [Log.mk "id1" "2024-01-01" (Fin (5 # 2))] "" "2024-01-03"
            Backup.NoToast None true "2024-01-01" (Fin 5) (Fin 7)
            Backup.DEFAULT_RAMP_STAGES)
  /\ Backup.load "2024-01-03" (Document (JObject [("foo", JNumber 1)]))
     = Some (Backup.defaults "2024-01-03").
Proof.
  split; [reflexivity|]. split.
  - exact (proj1 persistence_roundtrip "2024-01-03"
             (Backup.mkState (Fin 1800) "2027-10-12"
                [Log.mk "id1" "2024-01-01" (Fin (5 # 2))] "3" "2024-01-02"
                Backup.EntryRemoved None true "2024-01-01" (Fin 5) (Fin 7)
                Backup.DEFAULT_RAMP_STAGES)
             eq_refl).
  - refine (proj2 (proj2 (proj1 (proj2 (proj2 persistence_roundtrip))
                            "2024-01-03"))
              (JObject [("foo", JNumber 1)]) _).
    intros key Hk. unfold Backup.savedKeys in Hk. simpl in Hk.
    repeat (destruct Hk as [<- | Hk]; [reflexivity|]). destruct Hk.
Defined.

(** C9 fails as stated on saved data of the wrong shape: a record whose
    [logs] is the number 5 parses, so [safeParse] returns it and the logs
    cell takes the 5, not the default [[]]; likewise an [entries] array
    of numbers is taken as the entries of the second component. *)
Lemma load_keeps_wrong_shape :
  Backup.load "2024-01-01" (Document (JObject [("logs", JNumber 5)]))
  <> Some (Backup.defaults "2024-01-01")
  /\ Tracker.loaded (Document (JObject [("entries", JArray [JNumber 5])]))
     <> Some Tracker.initial.
Proof.
  split; discriminate.
Qed.

(** ** Editing the plan keeps it valid *)

Lemma or_else_not_NaN (a : num) (q : Q) : JS.or_else a (Fin q) <> NaN.
Proof.
  unfold JS.or_else. destruct a; simpl; try discriminate.
  destruct (negb _); discriminate.
Qed.

Lemma min_not_NaN (a b : num) : a <> NaN -> b <> NaN -> JS.min a b <> NaN.
Proof.
  intros Ha Hb. destruct a, b; try congruence; unfold JS.min;
    match goal with |- context [if ?c then _ else _] => destruct c end;
    discriminate.
Qed.

Lemma le_max_left (q : Q) (b : num) :
  b <> NaN -> JS.le (Fin q) (JS.max (Fin q) b) = true.
Proof.
  intros Hb. destruct b as [| | |p]; try congruence; simpl.
  - reflexivity.
  - apply Qle_bool_iff. lra.
  - destruct (JS.Qltb q p) eqn:E; simpl; apply Qle_bool_iff.
    + apply Qltb_lt in E. lra.
    + lra.
Qed.

(** The rate [updateStage] stores is at least 0.5. *)
Lemma rateOf_at_least_half (v capMiles : num) :
  JS.le (Fin (1 # 2)) (Backup.rateOf v capMiles) = true.
Proof.
  unfold Backup.rateOf, Backup.clamp. apply le_max_left.
  apply min_not_NaN; apply or_else_not_NaN.
Qed.

(** The weeks [updateStage] stores are a whole number from 1 to 52. *)
Lemma weeksOf_range (v : num) : 1 <= Backup.weeksOf v <= 52.
Proof.
  unfold Backup.weeksOf, Backup.clamp.
  pose proof (or_else_not_NaN v 1) as Hx.
  destruct (JS.or_else v (Fin 1)) as [| | |q]; try congruence.
  - vm_compute. split; discriminate.
  - vm_compute. split; discriminate.
  - unfold JS.round. set (z := Qfloor (q + (1 # 2))).
    unfold JS.min, JS.lt.
    destruct (JS.Qltb (inject_Z z) 52) eqn:E1.
    + apply Qltb_lt in E1. change 52%Q with (inject_Z 52) in E1.
      rewrite <- Zlt_Qlt in E1. unfold JS.max, JS.lt.
      destruct (JS.Qltb 1 (inject_Z z)) eqn:E2.
      * apply Qltb_lt in E2. change 1%Q with (inject_Z 1) in E2.
        rewrite <- Zlt_Qlt in E2. unfold JS.toZ. rewrite Qfloor_Z. lia.
      * vm_compute. split; discriminate.
    + vm_compute. split; discriminate.
Qed.

Lemma updateAt_Forall (P : Stage.t -> Prop) (f : Stage.t -> Stage.t)
    (l : list Stage.t) :
  (forall s, P s -> P (f s)) ->
  Forall P l -> forall index, Forall P (Backup.updateAt index f l).
Proof.
  intros Hf. induction 1 as [|s rest Hs Hrest IH]; intros index; simpl.
  - destruct index; constructor.
  - destruct index; constructor; auto.
Qed.

(** Stages within the data model stay so under [updateStage]: weeks from
    1 to 52 and a rate of at least 0.5. *)
Lemma updateStage_keeps_stages (milestones : list Milestone.t)
    (Number : string -> num) (index : nat) (field value : string)
    (st : Backup.state) :
  Forall (fun s => 1 <= Stage.weeks s <= 52
                   /\ JS.le (Fin (1 # 2)) (Stage.milesPerDay s) = true)
    (Backup.rampStages st) ->
  Forall (fun s => 1 <= Stage.weeks s <= 52
                   /\ JS.le (Fin (1 # 2)) (Stage.milesPerDay s) = true)
    (Backup.rampStages
       (Backup.step milestones Number st
          (Backup.editStage index field value))).
Proof.
  intros H. unfold Backup.step, Backup.handler, Backup.updateStage.
  cbn [Backup.run fold_left Backup.apply Backup.rampStages].
  destruct (field =? "milesPerDay")%string;
    [apply updateAt_Forall;
     [intros s [Hw _]; split; [exact Hw | apply rateOf_at_least_half]|]|];
    (destruct (field =? "weeks")%string;
     [apply updateAt_Forall;
      [intros s [_ Hr]; split; [apply weeksOf_range | exact Hr]|]|]);
    exact H.
Qed.

(** ** The total of a ledger of accepted distances *)

Lemma Tracker_totalMiles_nonneg (entries : list Entry.t) :
  Forall (fun e => Tracker.accepts (Entry.miles e) = true) entries ->
  JS.le (Fin 0) (Tracker.totalMiles entries) = true.
Proof.
  unfold Tracker.totalMiles.
  assert (H : forall acc, JS.le (Fin 0) acc = true ->
    Forall (fun e => Tracker.accepts (Entry.miles e) = true) entries ->
    JS.le (Fin 0)
      (fold_left (fun sum e => JS.add sum (Entry.miles e)) entries acc)
    = true).
  { induction entries as [|e es IH]; intros acc Hacc Hall; simpl; trivial.
    inversion Hall as [|? ? He Hes]; subst. apply IH; trivial.
    apply le_add_nonneg; trivial.
    apply lt_le. apply Tracker_accepts_iff in He.
    destruct He as [-> | (q & -> & Hq)]; [reflexivity|].
    now apply Qltb_lt. }
  apply H. reflexivity.
Qed.

(** Every step of the second component keeps the stored distances
    accepted ones, so the total of a reachable ledger is never negative. *)
Lemma Tracker_step_keeps_accepted (parseFloat : string -> num)
    (st : Tracker.state) (e : Tracker.event) :
  Forall (fun x => Tracker.accepts (Entry.miles x) = true)
    (Tracker.entries st) ->
  Forall (fun x => Tracker.accepts (Entry.miles x) = true)
    (Tracker.entries (Tracker.step parseFloat st e)).
Proof.
  intros H. destruct e as [s|uuid now| |s| | |]; try exact H.
  - rewrite addMiles_entries.
    destruct (Tracker.accepts _) eqn:E; [|exact H].
    apply Forall_app. split; [exact H|]. constructor; [exact E|constructor].
  - unfold Tracker.step, Tracker.handler, Tracker.deleteLast.
    destruct (Tracker.lastEntry st); [|exact H].
    cbn [Tracker.run fold_left Tracker.apply Tracker.entries].
    unfold Tracker.dropLast. rewrite Forall_forall in *.
    intros x Hx. apply H.
    destruct (Tracker.entries st) as [|y l]; [destruct Hx|].
    rewrite (app_removelast_last y (l := y :: l)) by discriminate.
    apply in_or_app. now left.
  - unfold Tracker.step, Tracker.handler, Tracker.saveEditLast.
    destruct (Tracker.lastEntry st); [|exact H].
    destruct (JS.isNaN _ || JS.le _ _) eqn:E; [exact H|].
    rewrite Tracker_run_app.
    assert (Hed : Forall (fun x => Tracker.accepts (Entry.miles x) = true)
              (Tracker.editLastOf (parseFloat (Tracker.editMiles st))
                 (Tracker.entries st))).
    { assert (Hv : Tracker.accepts (parseFloat (Tracker.editMiles st)) = true)
        by (unfold Tracker.accepts; now rewrite E).
      clear -H Hv. induction H as [|x l Hx Hl IH]; [constructor|].
      cbn [Tracker.editLastOf]. destruct l as [|y l'].
      - constructor; [exact Hv | constructor].
      - constructor; [exact Hx | exact IH]. }
    destruct (JS.gt _ _ && Tracker.idDiffers _ _);
      [rewrite showRewardToast_entries|]; exact Hed.
Qed.

(** * Further properties of the code *)

(** ** [clamp] and the inputs of the plan *)

Lemma eqv_refl (a : num) : JS.eqv a a.
Proof. destruct a; simpl; trivial. reflexivity. Qed.

Lemma clamp_between (n : num) (lo hi : Q) :
  JS.isNaN n = false -> (lo <= hi)%Q ->
  JS.le (Fin lo) (Backup.clamp n (Fin lo) (Fin hi)) = true
  /\ JS.le (Backup.clamp n (Fin lo) (Fin hi)) (Fin hi) = true.
Proof.
  intros Hn Hlh. unfold Backup.clamp.
  destruct n as [| | |q]; try discriminate; simpl.
  - (* +Infinity *)
    destruct (JS.Qltb lo hi) eqn:E; simpl;
      [apply Qltb_lt in E | apply Qltb_ge in E];
      rewrite !Qle_bool_iff; split; lra.
  - (* -Infinity *)
    rewrite !Qle_bool_iff. split; lra.
  - destruct (JS.Qltb q hi) eqn:E1; simpl.
    + apply Qltb_lt in E1.
      destruct (JS.Qltb lo q) eqn:E2; simpl;
        [apply Qltb_lt in E2 | apply Qltb_ge in E2];
        rewrite !Qle_bool_iff; split; lra.
    + apply Qltb_ge in E1.
      destruct (JS.Qltb lo hi) eqn:E2; simpl;
        [apply Qltb_lt in E2 | apply Qltb_ge in E2];
        rewrite !Qle_bool_iff; split; lra.
Qed.

(** X1: for a number [n] that is not [NaN] and bounds [lo <= hi],
    [clamp(n, lo, hi)] lies between the bounds and is [n] itself when [n]
    does; the result is then never [NaN]. *)
Theorem clamp_within (n : num) (lo hi : Q) :
  JS.isNaN n = false -> (lo <= hi)%Q ->
  JS.le (Fin lo) (Backup.clamp n (Fin lo) (Fin hi)) = true
  /\ JS.le (Backup.clamp n (Fin lo) (Fin hi)) (Fin hi) = true
  /\ (JS.le (Fin lo) n = true -> JS.le n (Fin hi) = true ->
      JS.eqv (Backup.clamp n (Fin lo) (Fin hi)) n).
Proof.
  intros Hn Hlh.
  destruct (clamp_between n lo hi Hn Hlh) as [Hlo Hhi].
  split; [exact Hlo|]. split; [exact Hhi|].
  intros H1 H2. unfold Backup.clamp.
  destruct n as [| | |q]; try discriminate.
  cbn [JS.le] in H1, H2.
  apply Qle_bool_iff in H1. apply Qle_bool_iff in H2.
  cbn [JS.min JS.lt].
  destruct (JS.Qltb q hi) eqn:E1; cbn [JS.max JS.lt].
  - destruct (JS.Qltb lo q) eqn:E2; cbn [JS.eqv];
      [reflexivity | apply Qltb_ge in E2; lra].
  - apply Qltb_ge in E1.
    destruct (JS.Qltb lo hi) eqn:E2; cbn [JS.eqv];
      [lra | apply Qltb_ge in E2; lra].
Qed.

Lemma clamp_within_witness :
  JS.isNaN (Fin 9) = false /\ (1 <= 7)%Q
  /\ JS.le (Backup.clamp (Fin 9) (Fin 1) (Fin 7)) (Fin 7) = true.
Proof.
  split; [reflexivity|]. split; [unfold Qle; simpl; lia|].
  refine (proj1 (proj2 (clamp_within (Fin 9) 1 7 eq_refl _))).
  unfold Qle; simpl; lia.
Defined.

(** X2: whatever number the inputs of the plan receive, [NaN] included,
    the plan is run with between 1 and 7 days per week and with a cap
    between 1 and 20: a [NaN] passes through [clamp] into the cell and is
    replaced by the default 7, resp. 5, where the cell is read. *)
Theorem plan_inputs_in_range (typed : num) :
  JS.le (Fin 1) (Backup.daysPerWeekUsed (Backup.daysPerWeekInput typed)) = true
  /\ JS.le (Backup.daysPerWeekUsed (Backup.daysPerWeekInput typed)) (Fin 7)
     = true
  /\ JS.le (Fin 1) (Backup.capMilesUsed (Backup.capMilesInput typed)) = true
  /\ JS.le (Backup.capMilesUsed (Backup.capMilesInput typed)) (Fin 20) = true.
Proof.
  assert (Hor : forall (c : num) (lo hi d : Q),
             (0 < lo)%Q ->
             JS.le (Fin lo) c = true -> JS.le c (Fin hi) = true ->
             JS.le (Fin lo) (JS.or_else c (Fin d)) = true
             /\ JS.le (JS.or_else c (Fin d)) (Fin hi) = true).
  { intros c lo hi d Hlo H1 H2. unfold JS.or_else.
    destruct c as [| | |q]; simpl in *; try discriminate.
    assert (E : Qeq_bool q 0 = false).
    { destruct (Qeq_bool q 0) eqn:E; [|reflexivity].
      apply Qeq_bool_eq in E. apply Qle_bool_iff in H1. lra. }
    rewrite E. simpl. auto. }
  unfold Backup.daysPerWeekInput, Backup.capMilesInput,
    Backup.daysPerWeekUsed, Backup.capMilesUsed.
  destruct (JS.isNaN typed) eqn:En.
  - destruct typed; try discriminate. repeat split.
  - assert (H17 : (1 <= 7)%Q) by (unfold Qle; simpl; lia).
    assert (H120 : (1 <= 20)%Q) by (unfold Qle; simpl; lia).
    assert (H01 : (0 < 1)%Q) by reflexivity.
    destruct (clamp_between typed 1 7 En H17) as (A1 & A2).
    destruct (clamp_between typed 1 20 En H120) as (B1 & B2).
    destruct (Hor _ 1%Q 7%Q 7%Q H01 A1 A2) as [C1 C2].
    destruct (Hor _ 1%Q 20%Q 5%Q H01 B1 B2) as [D1 D2].
    auto.
Qed.

(** ** The position along the route *)

Lemma unit_clamp (x : Q) :
  exists r : Q,
    JS.max (Fin 0) (JS.min (Fin x) (Fin 1)) = Fin r
    /\ (0 <= r <= 1)%Q
    /\ ((x < 0)%Q -> (r == 0)%Q)
    /\ ((0 <= x <= 1)%Q -> (r == x)%Q)
    /\ ((1 < x)%Q -> (r == 1)%Q).
Proof.
  simpl JS.min. destruct (JS.Qltb 1 x) eqn:E1; simpl JS.max.
  - apply Qltb_lt in E1. exists 1%Q. repeat split; intros; lra.
  - apply Qltb_ge in E1. destruct (JS.Qltb 0 x) eqn:E2.
    + apply Qltb_lt in E2. exists x. repeat split; intros; lra.
    + apply Qltb_ge in E2. exists 0%Q. repeat split; intros; lra.
Qed.

Lemma denomOf_nonzero (g : Q) : Qeq_bool (Backup.denomOf g) 0 = false.
Proof.
  unfold Backup.denomOf. destruct (Qeq_bool g 0) eqn:E; [reflexivity | exact E].
Qed.

Lemma pctAlongRoute_finite (m g : Q) :
  exists m' : Q,
    (m' == m)%Q
    /\ Backup.pctAlongRoute (Fin m) (Fin g)
       = JS.max (Fin 0) (JS.min (Fin (m' / Backup.denomOf g)) (Fin 1)).
Proof.
  unfold Backup.pctAlongRoute.
  assert (Hd : JS.or_else (Fin g) (Fin 1) = Fin (Backup.denomOf g)).
  { unfold JS.or_else, Backup.denomOf. simpl.
    destruct (Qeq_bool g 0); reflexivity. }
  rewrite Hd. unfold JS.or_else. simpl JS.truthy.
  destruct (Qeq_bool m 0) eqn:E; simpl negb; cbv iota.
  - exists 0%Q. split; [symmetry; now apply Qeq_bool_eq|].
    unfold JS.div. rewrite denomOf_nonzero. reflexivity.
  - exists m. split; [reflexivity|].
    unfold JS.div. rewrite denomOf_nonzero. reflexivity.
Qed.

(** X3: for every value of [miles], [NaN] and the infinities included,
    and every finite goal, [pctAlongRoute] is a finite number between 0
    and 1; a goal of [NaN] counts as a goal of 1. *)
Theorem pctAlongRoute_unit (miles : num) (g : Q) :
  (exists r : Q,
      Backup.pctAlongRoute miles (Fin g) = Fin r /\ (0 <= r <= 1)%Q)
  /\ Backup.pctAlongRoute miles NaN = Backup.pctAlongRoute miles (Fin 1).
Proof.
  split; [|reflexivity].
  destruct miles as [| | |m].
  - destruct (pctAlongRoute_finite 0 g) as (m' & _ & Hm).
    change (Backup.pctAlongRoute NaN (Fin g))
      with (Backup.pctAlongRoute (Fin 0) (Fin g)).
    rewrite Hm. destruct (unit_clamp (m' / Backup.denomOf g)) as (r & -> & H & _).
    now exists r.
  - unfold Backup.pctAlongRoute.
    replace (JS.or_else (Fin g) (Fin 1)) with (Fin (Backup.denomOf g))
      by (unfold JS.or_else, Backup.denomOf; simpl;
          destruct (Qeq_bool g 0); reflexivity).
    simpl. destruct (Qle_bool 0 (Backup.denomOf g)); simpl.
    + exists 1%Q. split; [reflexivity | lra].
    + exists 0%Q. split; [reflexivity | lra].
  - unfold Backup.pctAlongRoute.
    replace (JS.or_else (Fin g) (Fin 1)) with (Fin (Backup.denomOf g))
      by (unfold JS.or_else, Backup.denomOf; simpl;
          destruct (Qeq_bool g 0); reflexivity).
    simpl. destruct (JS.Qltb (Backup.denomOf g) 0); simpl.
    + exists 1%Q. split; [reflexivity | lra].
    + exists 0%Q. split; [reflexivity | lra].
  - destruct (pctAlongRoute_finite m g) as (m' & _ & ->).
    destruct (unit_clamp (m' / Backup.denomOf g)) as (r & -> & H & _).
    now exists r.
Qed.

(** X4: on a finite total and goal the width of the progress bar is 100
    times the position of the "you are here" marker: [progressPct] and
    [pctAlongRoute] agree. *)
Theorem progressPct_is_pctAlongRoute (t g : Q) :
  JS.eqv (Backup.progressPct (Fin t) (Fin g))
         (JS.mul (Backup.pctAlongRoute (Fin t) (Fin g)) (Fin 100)).
Proof.
  rewrite progressPct_finite.
  destruct (pctAlongRoute_finite t g) as (t' & Ht & ->).
  set (d := Backup.denomOf g).
  assert (Hx : (t' / d == t / d)%Q) by now rewrite Ht.
  destruct (clamp_percent (t / d * 100)) as (r & -> & _ & R1 & R2 & R3).
  destruct (unit_clamp (t' / d)) as (u & -> & _ & U1 & U2 & U3).
  simpl.
  destruct (Qlt_le_dec (t / d) 0) as [H0 | H0].
  - rewrite R1, U1 by lra. lra.
  - destruct (Qlt_le_dec 1 (t / d)) as [H1 | H1].
    + rewrite R3, U3 by lra. lra.
    + rewrite R2, U2 by lra. lra.
Qed.

(** X5: for a positive goal the position along the route does not
    decrease when the miles grow: the dots of the milestones stand in the
    order of their thresholds, and no dot of a reached milestone stands
    to the right of the marker of the total. *)
Theorem pctAlongRoute_monotone (a b g : Q) :
  (0 < g)%Q -> (a <= b)%Q ->
  JS.le (Backup.pctAlongRoute (Fin a) (Fin g))
        (Backup.pctAlongRoute (Fin b) (Fin g)) = true.
Proof.
  intros Hg Hab.
  destruct (pctAlongRoute_finite a g) as (a' & Ha & ->).
  destruct (pctAlongRoute_finite b g) as (b' & Hb & ->).
  assert (Hd : Backup.denomOf g = g).
  { unfold Backup.denomOf. destruct (Qeq_bool g 0) eqn:E; [|reflexivity].
    apply Qeq_bool_eq in E. lra. }
  rewrite Hd.
  assert (Hx : (a' / g <= b' / g)%Q).
  { unfold Qdiv. apply Qmult_le_compat_r; [lra|].
    apply Qlt_le_weak, Qinv_lt_0_compat, Hg. }
  destruct (unit_clamp (a' / g)) as (r & -> & _ & R1 & R2 & R3).
  destruct (unit_clamp (b' / g)) as (u & -> & _ & U1 & U2 & U3).
  simpl. apply Qle_bool_iff.
  destruct (Qlt_le_dec (a' / g) 0) as [A0 | A0];
    destruct (Qlt_le_dec (b' / g) 0) as [B0 | B0];
    destruct (Qlt_le_dec 1 (a' / g)) as [A1 | A1];
    destruct (Qlt_le_dec 1 (b' / g)) as [B1 | B1];
    try lra;
    try (rewrite R1 by lra); try (rewrite R2 by lra); try (rewrite R3 by lra);
    try (rewrite U1 by lra); try (rewrite U2 by lra); try (rewrite U3 by lra);
    lra.
Qed.

Lemma pctAlongRoute_monotone_witness :
  (0 < 1800)%Q /\ (120 <= 130)%Q
  /\ JS.le (Backup.pctAlongRoute (Fin 120) (Fin 1800))
           (Backup.pctAlongRoute (Fin 130) (Fin 1800)) = true.
Proof.
  split; [reflexivity|]. split; [unfold Qle; simpl; lia|].
  apply pctAlongRoute_monotone; [reflexivity | unfold Qle; simpl; lia].
Defined.

(** ** Miles remaining and miles needed per day *)

Lemma milesRemaining_finite (T G : Q) :
  exists r : Q,
    Backup.milesRemaining (Fin T) (Fin G) = Fin r
    /\ (0 <= r)%Q
    /\ ((G <= T)%Q -> (r == 0)%Q)
    /\ ((T <= G)%Q -> (r == G - T)%Q).
Proof.
  unfold Backup.milesRemaining, JS.or_else. simpl JS.truthy.
  destruct (Qeq_bool G 0) eqn:E; simpl negb; cbv iota.
  - apply Qeq_bool_eq in E. simpl JS.sub.
    unfold JS.sub, JS.neg, JS.add, JS.max, JS.lt.
    destruct (JS.Qltb 0 (0 + - T)) eqn:E2.
    + apply Qltb_lt in E2. exists (0 + - T)%Q. repeat split; intros; lra.
    + apply Qltb_ge in E2. exists 0%Q. repeat split; intros; lra.
  - unfold JS.sub, JS.neg, JS.add, JS.max, JS.lt.
    destruct (JS.Qltb 0 (G + - T)) eqn:E2.
    + apply Qltb_lt in E2. exists (G + - T)%Q. repeat split; intros; lra.
    + apply Qltb_ge in E2. exists 0%Q. repeat split; intros; lra.
Qed.

Lemma Qceiling_div_bounds (a D : Z) :
  0 < D ->
  (Qceiling (inject_Z a / inject_Z D) - 1) * D < a
  <= Qceiling (inject_Z a / inject_Z D) * D.
Proof.
  intros HD. set (x := (inject_Z a / inject_Z D)%Q).
  assert (HDq : (0 < inject_Z D)%Q)
    by (change 0%Q with (inject_Z 0); rewrite <- Zlt_Qlt; exact HD).
  assert (Hx : (x * inject_Z D == inject_Z a)%Q).
  { unfold x. field. intros H. rewrite H in HDq. lra. }
  pose proof (Qle_ceiling x) as Hup.
  pose proof (Qceiling_lt x) as Hlow.
  split.
  - rewrite Zlt_Qlt, inject_Z_mult, <- Hx.
    apply Qmult_lt_compat_r; assumption.
  - rewrite Zle_Qle, inject_Z_mult, <- Hx.
    apply Qmult_le_compat_r; [assumption | lra].
Qed.

Lemma daysLeftToGoal_valid (toDate : string -> option Z)
    (goalDate today : string) (g t : Z) :
  toDate goalDate = Some g -> toDate today = Some t ->
  exists k : Z,
    Backup.daysLeftToGoal toDate goalDate today = Fin (inject_Z k)
    /\ 0 <= k
    /\ (g <= t -> k = 0)
    /\ (t < g -> (k - 1) * 86400000 < g - t <= k * 86400000).
Proof.
  intros Hg Ht. unfold Backup.daysLeftToGoal, Backup.dateDiff.
  rewrite Hg, Ht.
  change (1000 * 60 * 60 * 24) with 86400000.
  change (JS.div (Fin (inject_Z (g - t))) (Fin (inject_Z 86400000)))
    with (Fin (inject_Z (g - t) / inject_Z 86400000)).
  cbn [JS.ceil]. set (c := Qceiling (inject_Z (g - t) / inject_Z 86400000)).
  pose proof (Qceiling_div_bounds (g - t) 86400000 eq_refl) as Hc.
  fold c in Hc. unfold JS.max, JS.lt.
  destruct (JS.Qltb 0 (inject_Z c)) eqn:E.
  - apply Qltb_lt in E. change 0%Q with (inject_Z 0) in E.
    rewrite <- Zlt_Qlt in E.
    exists c. repeat split; intros; try lia; reflexivity.
  - apply Qltb_ge in E. change 0%Q with (inject_Z 0) in E.
    rewrite <- Zle_Qle in E.
    exists 0. repeat split; intros; try lia; reflexivity.
Qed.

(** X6: with valid dates and a finite total and goal, the miles remaining
    are [max(0, goal - total)], the days left are the least whole number
    of days that cover the time to the goal date (0 when it is today or
    past), and the miles needed per day times the days left are the
    miles remaining; with no day left the need is the miles remaining
    themselves, so nothing is divided by zero. *)
Theorem neededPerDay_covers (toDate : string -> option Z)
    (goalDate today : string) (g t : Z) (T G : Q) :
  toDate goalDate = Some g -> toDate today = Some t ->
  exists (r : Q) (k : Z),
    Backup.milesRemaining (Fin T) (Fin G) = Fin r
    /\ Backup.daysLeftToGoal toDate goalDate today = Fin (inject_Z k)
    /\ (0 <= r)%Q /\ 0 <= k
    /\ ((G <= T)%Q -> (r == 0)%Q)
    /\ ((T <= G)%Q -> (r == G - T)%Q)
    /\ (g <= t -> k = 0)
    /\ (t < g -> (k - 1) * 86400000 < g - t <= k * 86400000)
    /\ (k = 0 ->
        Backup.neededPerDay (Fin r) (Fin (inject_Z k)) = Fin r)
    /\ (0 < k ->
        exists n : Q,
          Backup.neededPerDay (Fin r) (Fin (inject_Z k)) = Fin n
          /\ (n * inject_Z k == r)%Q /\ (0 <= n)%Q).
Proof.
  intros Hg Ht.
  destruct (milesRemaining_finite T G) as (r & Hr & Hr0 & Hr1 & Hr2).
  destruct (daysLeftToGoal_valid toDate goalDate today g t Hg Ht)
    as (k & Hk & Hk0 & Hk1 & Hk2).
  exists r, k. repeat split; trivial; try (apply Hk2; assumption).
  - intros ->. reflexivity.
  - intros Hpos.
    assert (Hq : (0 < inject_Z k)%Q)
      by (change 0%Q with (inject_Z 0); now rewrite <- Zlt_Qlt).
    unfold Backup.neededPerDay, JS.gt, JS.lt.
    replace (JS.Qltb 0 (inject_Z k)) with true
      by (symmetry; now apply Qltb_lt).
    unfold JS.div.
    replace (Qeq_bool (inject_Z k) 0) with false.
    2:{ symmetry. destruct (Qeq_bool (inject_Z k) 0) eqn:E; [|reflexivity].
        apply Qeq_bool_eq in E. lra. }
    exists (r / inject_Z k)%Q. split; [reflexivity|]. split.
    + field. intros H. rewrite H in Hq. lra.
    + apply Qle_shift_div_l; [exact Hq | lra].
Qed.

(** Ten days before the goal date, 300 of 1800 miles done. *)
Lemma neededPerDay_covers_witness :
  UTC.toDate "2024-01-11" = Some 1704931200000
  /\ UTC.toDate "2024-01-01" = Some 1704067200000
  /\ exists (r : Q) (k : Z),
       Backup.milesRemaining (Fin 300) (Fin 1800) = Fin r
       /\ Backup.daysLeftToGoal UTC.toDate "2024-01-11" "2024-01-01"
          = Fin (inject_Z k)
       /\ (0 <= r)%Q.
Proof.
  split; [reflexivity|]. split; [reflexivity|].
  destruct (neededPerDay_covers UTC.toDate "2024-01-11" "2024-01-01"
              1704931200000 1704067200000 300 1800 eq_refl eq_refl)
    as (r & k & H1 & H2 & H3 & _).
  exists r, k. auto.
Defined.

(** ** The stage of a day *)

Lemma stageFrom_range (l : list Stage.t) :
  forall (i : nat) (remaining : Z),
    0 <= remaining ->
    match Backup.milesPerDay (Backup.stageFrom i remaining l) with
    | Some r =>
        exists l1 s l2,
          l = (l1 ++ s :: l2)%list
          /\ Backup.stageIndex (Backup.stageFrom i remaining l)
             = (i + List.length l1)%nat
          /\ r = Stage.milesPerDay s
          /\ Spec.scheduleDays l1 <= remaining
             < Spec.scheduleDays l1 + Stage.weeks s * 7
    | None =>
        Backup.stageIndex (Backup.stageFrom i remaining l)
        = (i + List.length l)%nat
        /\ Spec.scheduleDays l <= remaining
    end.
Proof.
  induction l as [|s rest IH]; intros i remaining Hr; simpl.
  - split; [now rewrite Nat.add_0_r | exact Hr].
  - destruct (remaining <? Stage.weeks s * 7) eqn:E; simpl.
    + apply Z.ltb_lt in E. exists [], s, rest. simpl.
      repeat split; trivial; try lia.
    + apply Z.ltb_ge in E.
      specialize (IH (S i) (remaining - Stage.weeks s * 7)).
      destruct (Backup.milesPerDay
                  (Backup.stageFrom (S i) (remaining - Stage.weeks s * 7) rest))
        as [r|].
      * destruct IH as (l1 & s' & l2 & -> & Hi & Hrate & Hlo & Hhi); [lia|].
        exists (s :: l1), s', l2. simpl. repeat split; trivial; try lia.
      * destruct IH as [Hi Hs]; [lia|]. simpl. split; lia.
Qed.

(** X7: for a day index [>= 0], [getStageForDayIndex] returns the stage
    whose days contain the index: its position in the array as
    [stageIndex] and its rate as [milesPerDay], the stages before it
    covering at most that many days and, with it, more.  It returns
    [null] with [stageIndex = stages.length] only for an index that all
    the stages together do not reach. *)
Theorem getStageForDayIndex_range (stages : list Stage.t) (dayIndex : Z) :
  0 <= dayIndex ->
  match Backup.milesPerDay (Backup.getStageForDayIndex dayIndex stages) with
  | Some r =>
      exists l1 s l2,
        stages = (l1 ++ s :: l2)%list
        /\ Backup.stageIndex (Backup.getStageForDayIndex dayIndex stages)
           = List.length l1
        /\ r = Stage.milesPerDay s
        /\ Spec.scheduleDays l1 <= dayIndex
           < Spec.scheduleDays l1 + Stage.weeks s * 7
  | None =>
      Backup.stageIndex (Backup.getStageForDayIndex dayIndex stages)
      = List.length stages
      /\ Spec.scheduleDays stages <= dayIndex
  end.
Proof.
  intros H. exact (stageFrom_range stages 0 dayIndex H).
Qed.

(** Day 30 of the default plan lies in its second stage. *)
Lemma getStageForDayIndex_range_witness :
  0 <= 30
  /\ exists l1 s l2,
       Backup.DEFAULT_RAMP_STAGES = (l1 ++ s :: l2)%list
       /\ Backup.stageIndex
            (Backup.getStageForDayIndex 30 Backup.DEFAULT_RAMP_STAGES)
          = List.length l1
       /\ Fin (5 # 2) = Stage.milesPerDay s
       /\ Spec.scheduleDays l1 <= 30
          < Spec.scheduleDays l1 + Stage.weeks s * 7.
Proof.
  split; [lia|].
  exact (getStageForDayIndex_range Backup.DEFAULT_RAMP_STAGES 30
           ltac:(lia)).
Defined.

(** ** Active days *)

Lemma Qltb_inject_Z (a b : Z) : JS.Qltb (inject_Z a) (inject_Z b) = (a <? b).
Proof.
  destruct (a <? b) eqn:E.
  - apply Qltb_lt. rewrite <- Zlt_Qlt. now apply Z.ltb_lt.
  - apply Qltb_ge. rewrite <- Zle_Qle. now apply Z.ltb_ge.
Qed.

(** X8: from the start of the plan on, whether a day is active repeats
    every 7 days; the start day itself is active exactly when
    [daysPerWeek > 0]; with [daysPerWeek >= 7] every day is active and
    with [daysPerWeek <= 0] none is. *)
Theorem isActiveDay_weekly (dayIndex : Z) (daysPerWeek : num) :
  0 <= dayIndex ->
  Backup.isActiveDay (dayIndex + 7) daysPerWeek
  = Backup.isActiveDay dayIndex daysPerWeek
  /\ Backup.isActiveDay 0 daysPerWeek = JS.lt (Fin 0) daysPerWeek
  /\ (JS.le (Fin 7) daysPerWeek = true ->
      Backup.isActiveDay dayIndex daysPerWeek = true)
  /\ (JS.le daysPerWeek (Fin 0) = true ->
      Backup.isActiveDay dayIndex daysPerWeek = false).
Proof.
  intros Hd. unfold Backup.isActiveDay.
  assert (Hrem : 0 <= Z.rem dayIndex 7 < 7).
  { rewrite Z.rem_mod_nonneg by lia. apply Z.mod_pos_bound. lia. }
  split; [|split; [reflexivity|split]].
  - rewrite !Z.rem_mod_nonneg by lia.
    replace (dayIndex + 7) with (dayIndex + 1 * 7) by lia.
    now rewrite Z.mod_add by lia.
  - intros H7. destruct daysPerWeek as [| | |q]; simpl in *; try discriminate.
    + reflexivity.
    + apply Qltb_lt. apply Qle_bool_iff in H7.
      assert ((inject_Z (Z.rem dayIndex 7) < inject_Z 7)%Q)
        by (rewrite <- Zlt_Qlt; lia).
      change (inject_Z 7) with 7%Q in *. lra.
  - intros H0. destruct daysPerWeek as [| | |q]; simpl in *; try discriminate.
    + reflexivity.
    + apply Qltb_ge. apply Qle_bool_iff in H0.
      assert ((inject_Z 0 <= inject_Z (Z.rem dayIndex 7))%Q)
        by (rewrite <- Zle_Qle; lia).
      change (inject_Z 0) with 0%Q in *. lra.
Qed.

Lemma isActiveDay_weekly_witness :
  0 <= 9
  /\ Backup.isActiveDay (9 + 7) (Fin 5) = Backup.isActiveDay 9 (Fin 5).
Proof.
  split; [lia|].
  exact (proj1 (isActiveDay_weekly 9 (Fin 5) ltac:(lia))).
Defined.

Lemma isActiveDay_nat (n : nat) (k : Z) :
  Backup.isActiveDay (Z.of_nat n) (Fin (inject_Z k))
  = (Z.of_nat n mod 7 <? k).
Proof.
  unfold Backup.isActiveDay. rewrite Z.rem_mod_nonneg by lia.
  apply Qltb_inject_Z.
Qed.

(** X9: with a whole number [k] of days per week from 0 to 7, every week
    of the plan (the days [7m .. 7m+6]) has exactly [k] active days. *)
Theorem active_days_in_week (m : nat) (k : Z) :
  0 <= k <= 7 ->
  List.length
    (filter (fun d => Backup.isActiveDay d (Fin (inject_Z k)))
       (map Z.of_nat (seq (7 * m) 7)))
  = Z.to_nat k.
Proof.
  intros Hk. cbn [seq map filter]. rewrite !isActiveDay_nat.
  replace (Z.of_nat (7 * m) mod 7) with 0
    by (zify; Z.div_mod_to_equations; lia).
  replace (Z.of_nat (S (7 * m)) mod 7) with 1
    by (zify; Z.div_mod_to_equations; lia).
  replace (Z.of_nat (S (S (7 * m))) mod 7) with 2
    by (zify; Z.div_mod_to_equations; lia).
  replace (Z.of_nat (S (S (S (7 * m)))) mod 7) with 3
    by (zify; Z.div_mod_to_equations; lia).
  replace (Z.of_nat (S (S (S (S (7 * m))))) mod 7) with 4
    by (zify; Z.div_mod_to_equations; lia).
  replace (Z.of_nat (S (S (S (S (S (7 * m)))))) mod 7) with 5
    by (zify; Z.div_mod_to_equations; lia).
  replace (Z.of_nat (S (S (S (S (S (S (7 * m))))))) mod 7) with 6
    by (zify; Z.div_mod_to_equations; lia).
  assert (Hcases : k = 0 \/ k = 1 \/ k = 2 \/ k = 3 \/ k = 4 \/ k = 5
                   \/ k = 6 \/ k = 7) by lia.
  destruct Hcases as [-> | [-> | [-> | [-> | [-> | [-> | [-> | ->]]]]]]];
    reflexivity.
Qed.

Lemma active_days_in_week_witness :
  0 <= 5 <= 7
  /\ List.length
       (filter (fun d => Backup.isActiveDay d (Fin (inject_Z 5)))
          (map Z.of_nat (seq (7 * 3) 7)))
     = Z.to_nat 5.
Proof.
  split; [lia|]. apply active_days_in_week. lia.
Defined.

(** ** The plan, day by day *)

Lemma add_zero_r_eqv (a : num) : JS.eqv a (JS.add a (Fin 0)).
Proof. destruct a; simpl; trivial. lra. Qed.

Lemma add_zero_l_eqv (a : num) : JS.eqv (JS.add (Fin 0) a) a.
Proof. destruct a; simpl; trivial. lra. Qed.

Lemma todaysPlannedMiles_valid_dates (toDate : string -> option Z)
    (planStart today : string) (a b : Z)
    (stages : list Stage.t) (capMiles daysPerWeek : num) :
  planStart <> "" ->
  toDate planStart = Some a -> toDate today = Some b -> a <= b ->
  Backup.todaysPlannedMiles toDate planStart today stages capMiles daysPerWeek
  = if negb (Backup.isActiveDay ((b - a) / 86400000) daysPerWeek) then Fin 0
    else Backup.orCap
           (Backup.getStageForDayIndex ((b - a) / 86400000) stages) capMiles.
Proof.
  intros Hs Ha Hb Hab.
  unfold Backup.todaysPlannedMiles, Backup.daysDiffInclusive.
  apply String.eqb_neq in Hs. rewrite Hs, Ha, Hb. simpl Backup.dateLt.
  replace (b <? a) with false by (symmetry; apply Z.ltb_ge; lia).
  change (1000 * 60 * 60 * 24) with 86400000.
  replace ((b - a) / 86400000 + 1 - 1) with ((b - a) / 86400000) by lia.
  reflexivity.
Qed.

(** X10: the plan through a day is the plan through the day before plus
    the target of the day itself ([todaysPlannedMiles]), for a day after
    the start of the plan; on the start day the plan is that day's
    target.  (The two sides are equal as numbers.) *)
Theorem plannedMilesThroughDate_step (toDate : string -> option Z)
    (planStart target : string) (a b : Z)
    (stages : list Stage.t) (capMiles daysPerWeek : num) :
  planStart <> "" -> target <> "" ->
  toDate planStart = Some a -> toDate target = Some b ->
  (forall dayBefore,
      dayBefore <> "" ->
      toDate dayBefore = Some (b - 86400000) ->
      a <= b - 86400000 ->
      JS.eqv
        (Backup.plannedMilesThroughDate toDate planStart target
           stages capMiles daysPerWeek)
        (JS.add
           (Backup.plannedMilesThroughDate toDate planStart dayBefore
              stages capMiles daysPerWeek)
           (Backup.todaysPlannedMiles toDate planStart target
              stages capMiles daysPerWeek)))
  /\ (a <= b < a + 86400000 ->
      JS.eqv
        (Backup.plannedMilesThroughDate toDate planStart target
           stages capMiles daysPerWeek)
        (Backup.todaysPlannedMiles toDate planStart target
           stages capMiles daysPerWeek)).
Proof.
  intros Hs Ht Ha Hb. split.
  - intros dayBefore Hd Hprev Hab.
    rewrite (plannedMilesThroughDate_valid_dates toDate planStart target a b)
      by assumption.
    rewrite (plannedMilesThroughDate_valid_dates toDate planStart dayBefore
               a (b - 86400000)) by assumption.
    rewrite (todaysPlannedMiles_valid_dates toDate planStart target a b)
      by (trivial; lia).
    replace (b <? a) with false by (symmetry; apply Z.ltb_ge; lia).
    replace (b - 86400000 <? a) with false by (symmetry; apply Z.ltb_ge; lia).
    set (n := (b - a) / 86400000).
    assert (Hn : 1 <= n).
    { unfold n. apply Z.div_le_lower_bound; lia. }
    replace ((b - 86400000 - a) / 86400000 + 1) with n.
    2:{ unfold n. replace (b - 86400000 - a) with (b - a + -1 * 86400000) by lia.
        rewrite Z.div_add by lia. lia. }
    replace (Z.to_nat (n + 1)) with (Z.to_nat n + 1)%nat by lia.
    rewrite plannedFrom_add. replace (0 + Z.of_nat (Z.to_nat n)) with n by lia.
    cbn [Backup.plannedFrom].
    destruct (negb (Backup.isActiveDay n daysPerWeek)).
    + apply add_zero_r_eqv.
    + apply eqv_refl.
  - intros Hab.
    rewrite (plannedMilesThroughDate_valid_dates toDate planStart target a b)
      by assumption.
    rewrite (todaysPlannedMiles_valid_dates toDate planStart target a b)
      by (trivial; lia).
    replace (b <? a) with false by (symmetry; apply Z.ltb_ge; lia).
    replace ((b - a) / 86400000) with 0 by (symmetry; apply Z.div_small; lia).
    change (Z.to_nat (0 + 1)) with 1%nat. cbn [Backup.plannedFrom].
    destruct (negb (Backup.isActiveDay 0 daysPerWeek)).
    + apply eqv_refl.
    + apply add_zero_l_eqv.
Qed.

(** The default plan on 10 and 11 January 2024, started on 1 January. *)
Lemma plannedMilesThroughDate_step_witness :
  UTC.toDate "2024-01-01" = Some 1704067200000
  /\ UTC.toDate "2024-01-11" = Some 1704931200000
  /\ UTC.toDate "2024-01-10" = Some (1704931200000 - 86400000)
  /\ JS.eqv
       (Backup.plannedMilesThroughDate UTC.toDate "2024-01-01" "2024-01-11"
          Backup.DEFAULT_RAMP_STAGES (Fin 5) (Fin 7))
       (JS.add
          (Backup.plannedMilesThroughDate UTC.toDate "2024-01-01" "2024-01-10"
             Backup.DEFAULT_RAMP_STAGES (Fin 5) (Fin 7))
          (Backup.todaysPlannedMiles UTC.toDate "2024-01-01" "2024-01-11"
             Backup.DEFAULT_RAMP_STAGES (Fin 5) (Fin 7))).
Proof.
  split; [reflexivity|]. split; [reflexivity|]. split; [reflexivity|].
  assert (H1 : "2024-01-01" <> "") by discriminate.
  assert (H2 : "2024-01-11" <> "") by discriminate.
  assert (H3 : "2024-01-10" <> "") by discriminate.
  refine (proj1 (plannedMilesThroughDate_step UTC.toDate
                   "2024-01-01" "2024-01-11" 1704067200000 1704931200000
                   Backup.DEFAULT_RAMP_STAGES (Fin 5) (Fin 7)
                   H1 H2 eq_refl eq_refl) "2024-01-10" H3 eq_refl _).
  lia.
Defined.

(** ** The target of a day *)

Lemma orCap_stage_or_cap (l : list Stage.t) (capMiles : num) :
  forall (i : nat) (remaining : Z),
    Backup.orCap (Backup.stageFrom i remaining l) capMiles = capMiles
    \/ exists s, In s l
                 /\ Backup.orCap (Backup.stageFrom i remaining l) capMiles
                    = Stage.milesPerDay s.
Proof.
  induction l as [|s rest IH]; intros i remaining; simpl.
  - now left.
  - destruct (remaining <? Stage.weeks s * 7).
    + right. exists s. split; [now left | reflexivity].
    + destruct (IH (S i) (remaining - Stage.weeks s * 7))
        as [H | (s' & Hin & H)].
      * now left.
      * right. exists s'. split; [now right | exact H].
Qed.

(** X11: for a valid plan the target of a day is never negative and never
    more than the cap, whatever the two dates are (0 before the start,
    on an inactive day, and when a date is invalid or missing). *)
Theorem todaysPlannedMiles_bounds (toDate : string -> option Z)
    (planStart today : string)
    (stages : list Stage.t) (capMiles daysPerWeek : num) :
  Spec.validPlan stages capMiles daysPerWeek = true ->
  JS.le (Fin 0)
    (Backup.todaysPlannedMiles toDate planStart today
       stages capMiles daysPerWeek) = true
  /\ JS.le
       (Backup.todaysPlannedMiles toDate planStart today
          stages capMiles daysPerWeek) capMiles = true.
Proof.
  intros Hv.
  pose proof (validPlan_cap stages capMiles daysPerWeek Hv) as Hcap.
  assert (Hcc : JS.le capMiles capMiles = true)
    by now apply le_refl_nonneg.
  assert (Hrates : forall s, In s stages ->
            JS.le (Stage.milesPerDay s) capMiles = true).
  { intros s Hs. unfold Spec.validPlan in Hv.
    apply andb_true_iff in Hv. destruct Hv as [Hv _].
    apply andb_true_iff in Hv. destruct Hv as [Hv _].
    apply andb_true_iff in Hv. destruct Hv as [Hv _].
    rewrite forallb_forall in Hv. specialize (Hv s Hs).
    unfold Spec.validStage in Hv.
    apply andb_true_iff in Hv. exact (proj2 Hv). }
  unfold Backup.todaysPlannedMiles.
  destruct (planStart =? "")%string; [split; trivial|].
  destruct (Backup.dateLt _ _); [split; trivial|].
  destruct (Backup.daysDiffInclusive _ _ _) as [d|]; [|split; trivial].
  destruct (negb _); [split; trivial|].
  cbv zeta. unfold Backup.getStageForDayIndex. split.
  - exact (orCap_nonneg stages capMiles daysPerWeek Hv stages
             (validPlan_rates stages capMiles daysPerWeek Hv) 0%nat (d - 1)).
  - destruct (orCap_stage_or_cap stages capMiles 0 (d - 1))
      as [-> | (s & Hin & ->)]; [exact Hcc | now apply Hrates].
Qed.

Lemma todaysPlannedMiles_bounds_witness :
  Spec.validPlan Backup.DEFAULT_RAMP_STAGES (Fin 5) (Fin 7) = true
  /\ JS.le
       (Backup.todaysPlannedMiles UTC.toDate "2024-01-01" "2024-03-01"
          Backup.DEFAULT_RAMP_STAGES (Fin 5) (Fin 7)) (Fin 5) = true.
Proof.
  split; [reflexivity|].
  exact (proj2 (todaysPlannedMiles_bounds UTC.toDate "2024-01-01" "2024-03-01"
                  Backup.DEFAULT_RAMP_STAGES (Fin 5) (Fin 7) eq_refl)).
Defined.

(** ** The stored logs of [backup.jsx] *)

Lemma ascii_compare_eq (x y : ascii) : Ascii.compare x y = Eq -> x = y.
Proof. apply Ascii.compare_eq_iff. Qed.

Lemma ascii_compare_lt_trans (x y z : ascii) :
  Ascii.compare x y = Lt -> Ascii.compare y z = Lt -> Ascii.compare x z = Lt.
Proof.
  unfold Ascii.compare. rewrite !N.compare_lt_iff. apply N.lt_trans.
Qed.

Lemma string_leb_trans (a b c : string) :
  (a <=? b)%string = true -> (b <=? c)%string = true ->
  (a <=? c)%string = true.
Proof.
  unfold String.leb. revert b c.
  induction a as [|x a IH]; intros b c Hab Hbc.
  - destruct c; reflexivity.
  - destruct b as [|y b]; [discriminate|].
    destruct c as [|z c]; [simpl in Hbc; discriminate|].
    simpl in *.
    destruct (Ascii.compare x y) eqn:Exy; try discriminate.
    + apply ascii_compare_eq in Exy. subst y.
      destruct (Ascii.compare x z) eqn:Exz; try discriminate; trivial.
      now apply (IH b c).
    + destruct (Ascii.compare y z) eqn:Eyz; try discriminate.
      * apply ascii_compare_eq in Eyz. subst z. now rewrite Exy.
      * now rewrite (ascii_compare_lt_trans x y z Exy Eyz).
Qed.

Lemma string_leb_refl (a : string) : (a <=? a)%string = true.
Proof.
  destruct (String.leb_total a a); assumption.
Qed.

Lemma notEarlier_trans (a b c : Log.t) :
  Inv.notEarlier a b -> Inv.notEarlier b c -> Inv.notEarlier a c.
Proof.
  unfold Inv.notEarlier. intros Hab Hbc.
  exact (string_leb_trans _ _ _ Hbc Hab).
Qed.

Lemma byDateDesc_notEarlier (a b : Log.t) :
  Backup.byDateDesc a b <> Gt <-> Inv.notEarlier a b.
Proof.
  unfold Backup.byDateDesc, Inv.notEarlier, String.leb.
  destruct (String.compare (Log.date b) (Log.date a));
    split; congruence.
Qed.

Lemma stableSort_snoc {A : Type} (cmp : A -> A -> comparison)
    (l : list A) (x : A) :
  stableSort cmp (l ++ [x]) = fold_right (insertBy cmp) [x] l.
Proof.
  unfold stableSort. rewrite fold_right_app. reflexivity.
Qed.

Lemma insertBy_head {A : Type} (cmp : A -> A -> comparison) (x : A)
    (l : list A) :
  (forall y, hd_error l = Some y -> cmp x y <> Gt) ->
  insertBy cmp x l = x :: l.
Proof.
  destruct l as [|y l]; [reflexivity|]. intros H. simpl.
  specialize (H y eq_refl). destruct (cmp x y); congruence.
Qed.

(** Where an append puts the new log among logs that are in order. *)
Lemma insert_into_descending (new : Log.t) (prev : list Log.t) :
  Inv.dateDescending prev ->
  fold_right (insertBy Backup.byDateDesc) [new] prev
  = (filter (fun x => (Log.date new <=? Log.date x)%string) prev
     ++ new
     :: filter (fun x => negb (Log.date new <=? Log.date x)%string) prev)%list.
Proof.
  unfold Inv.dateDescending.
  induction 1 as [|x r Hr IH Hx]; [reflexivity|].
  cbn [fold_right filter]. rewrite IH. rewrite Forall_forall in Hx.
  destruct (Log.date new <=? Log.date x)%string eqn:Px; cbn [negb].
  - apply insertBy_head. intros y Hy. apply byDateDesc_notEarlier.
    destruct (filter _ r) as [|z zs] eqn:Ef; simpl in Hy.
    + injection Hy as <-. exact Px.
    + injection Hy as <-. apply Hx.
      assert (Hin : In z (filter
                (fun x0 => (Log.date new <=? Log.date x0)%string) r))
        by (rewrite Ef; now left).
      apply filter_In in Hin. exact (proj1 Hin).
  - assert (Hall : forall y, In y r ->
              (Log.date new <=? Log.date y)%string = false).
    { intros y Hy.
      destruct (Log.date new <=? Log.date y)%string eqn:Py; [|reflexivity].
      rewrite (string_leb_trans _ _ _ Py (Hx y Hy)) in Px. discriminate. }
    rewrite (filter_none _ r Hall).
    assert (Hkeep : filter
              (fun x0 => negb (Log.date new <=? Log.date x0)%string) r = r).
    { clear -Hall. induction r as [|y r IHr]; [reflexivity|]. simpl.
      rewrite (Hall y (or_introl eq_refl)). simpl. f_equal.
      apply IHr. intros z Hz. apply Hall. now right. }
    rewrite Hkeep. cbn [app insertBy].
    assert (Hgt : Backup.byDateDesc x new = Gt).
    { unfold Backup.byDateDesc. unfold String.leb in Px.
      destruct (String.compare (Log.date new) (Log.date x));
        try discriminate; reflexivity. }
    rewrite Hgt. f_equal. apply insertBy_head.
    intros y Hy. apply byDateDesc_notEarlier. apply Hx.
    destruct r; [discriminate|]. injection Hy as <-. now left.
Qed.

Lemma descending_split (new : Log.t) (prev : list Log.t) :
  Inv.dateDescending prev ->
  (filter (fun x => (Log.date new <=? Log.date x)%string) prev
   ++ filter (fun x => negb (Log.date new <=? Log.date x)%string) prev)%list
  = prev.
Proof.
  unfold Inv.dateDescending.
  induction 1 as [|x r Hr IH Hx]; [reflexivity|].
  cbn [filter]. rewrite Forall_forall in Hx.
  destruct (Log.date new <=? Log.date x)%string eqn:Px; cbn [negb].
  - simpl. now rewrite IH.
  - assert (Hall : forall y, In y r ->
              (Log.date new <=? Log.date y)%string = false).
    { intros y Hy.
      destruct (Log.date new <=? Log.date y)%string eqn:Py; [|reflexivity].
      rewrite (string_leb_trans _ _ _ Py (Hx y Hy)) in Px. discriminate. }
    rewrite (filter_none _ r Hall) in *. simpl in *. now rewrite IH.
Qed.

(** X12: when the stored logs are in order of date, latest first, an
    accepted append stores the new log after every log dated the same
    day or later and before every log dated earlier; the other logs
    keep their order. *)
Theorem addLog_position (milestones : list Milestone.t)
    (Number : string -> num) (uuid : string) (st : Backup.state) :
  Inv.dateDescending (Backup.logs st) ->
  Backup.accepts (Number (Backup.entryMiles st)) = true ->
  let new :=
    Log.mk uuid (Backup.entryDate st) (Number (Backup.entryMiles st)) in
  Backup.logs (Backup.step milestones Number st (Backup.clickAdd uuid))
  = (filter (fun x => (Log.date new <=? Log.date x)%string) (Backup.logs st)
     ++ new
     :: filter (fun x => negb (Log.date new <=? Log.date x)%string)
          (Backup.logs st))%list.
Proof.
  intros Hs Hacc new.
  rewrite addLog_logs by exact Hacc. rewrite stableSort_snoc.
  now apply insert_into_descending.
Qed.

Lemma addLog_position_witness :
  Inv.dateDescending [Log.mk "a" "2024-01-05" (Fin 2);
                      Log.mk "b" "2024-01-02" (Fin 3)]
  /\ Backup.logs
       (Backup.step Backup.DEFAULT_MILESTONES Input.Number
          (Backup.mkState (Fin 1800) "2027-10-12"
             [Log.mk "a" "2024-01-05" (Fin 2); Log.mk "b" "2024-01-02" (Fin 3)]
             "4" "2024-01-03" Backup.NoToast None true "2024-01-01"
             (Fin 5) (Fin 7) Backup.DEFAULT_RAMP_STAGES)
          (Backup.clickAdd "c"))
     = [Log.mk "a" "2024-01-05" (Fin 2); Log.mk "c" "2024-01-03" (Fin 4);
        Log.mk "b" "2024-01-02" (Fin 3)].
Proof.
  assert (Hs : Inv.dateDescending [Log.mk "a" "2024-01-05" (Fin 2);
                                   Log.mk "b" "2024-01-02" (Fin 3)])
    by (repeat constructor).
  split; [exact Hs|].
  exact (addLog_position Backup.DEFAULT_MILESTONES Input.Number "c"
           (Backup.mkState (Fin 1800) "2027-10-12"
              [Log.mk "a" "2024-01-05" (Fin 2); Log.mk "b" "2024-01-02" (Fin 3)]
              "4" "2024-01-03" Backup.NoToast None true "2024-01-01"
              (Fin 5) (Fin 7) Backup.DEFAULT_RAMP_STAGES)
           Hs eq_refl).
Defined.

Lemma StronglySorted_filter {A : Type} (R : A -> A -> Prop)
    (p : A -> bool) (l : list A) :
  StronglySorted R l -> StronglySorted R (filter p l).
Proof.
  induction 1 as [|x l Hl IH Hx]; simpl; [constructor|].
  destruct (p x); [|exact IH]. constructor; [exact IH|].
  rewrite Forall_forall in *. intros y Hy. apply Hx.
  apply filter_In in Hy. exact (proj1 Hy).
Qed.

Lemma Forall_filter {A : Type} (P : A -> Prop) (p : A -> bool)
    (l : list A) :
  Forall P l -> Forall P (filter p l).
Proof.
  rewrite !Forall_forall. intros H x Hx. apply H.
  apply filter_In in Hx. exact (proj1 Hx).
Qed.

Lemma stableSort_descending (l : list Log.t) :
  Inv.dateDescending (stableSort Backup.byDateDesc l).
Proof.
  apply Sorted_StronglySorted.
  - intros a b c. apply notEarlier_trans.
  - apply (Sorted_weaken (fun x y => Backup.byDateDesc x y <> Gt)).
    + intros x y. apply byDateDesc_notEarlier.
    + apply stableSort_sorted. exact byDateDesc_total.
Qed.

Lemma removeLog_logs (milestones : list Milestone.t)
    (Number : string -> num) (id : string) (st : Backup.state) :
  Backup.logs (Backup.step milestones Number st (Backup.clickDelete id))
  = filter (fun x => negb (Log.id x =? id)%string) (Backup.logs st).
Proof. reflexivity. Qed.

Lemma addLog_rejected (milestones : list Milestone.t)
    (Number : string -> num) (uuid : string) (st : Backup.state) :
  Backup.accepts (Number (Backup.entryMiles st)) = false ->
  Backup.logs (Backup.step milestones Number st (Backup.clickAdd uuid))
  = Backup.logs st.
Proof.
  unfold Backup.accepts, Backup.step, Backup.handler, Backup.addLog.
  intros H. apply negb_false_iff in H. rewrite H. reflexivity.
Qed.

Lemma Backup_step_invariant (milestones : list Milestone.t)
    (Number : string -> num) (st : Backup.state) (e : Backup.event) :
  Inv.dateDescending (Backup.logs st) /\ Inv.positiveLogs (Backup.logs st) ->
  Inv.dateDescending (Backup.logs (Backup.step milestones Number st e))
  /\ Inv.positiveLogs (Backup.logs (Backup.step milestones Number st e)).
Proof.
  intros [Hs Hp]. destruct e as [s|s|uuid|id|index field value];
    try (split; [exact Hs | exact Hp]).
  - destruct (Backup.accepts (Number (Backup.entryMiles st))) eqn:E.
    + rewrite addLog_logs by exact E. split.
      * apply stableSort_descending.
      * unfold Inv.positiveLogs.
        eapply Permutation_Forall; [apply stableSort_perm|].
        apply Forall_app. split; [exact Hp|].
        constructor; [exact E | constructor].
    + rewrite addLog_rejected by exact E. split; [exact Hs | exact Hp].
  - rewrite removeLog_logs. split.
    + now apply StronglySorted_filter.
    + now apply Forall_filter.
Qed.

(** X13: the handlers of [App] keep the stored logs in order of date,
    latest first, and keep every stored distance finite and greater than
    0: if the logs are so, they are so after any run of typing, picking
    a date, adding, deleting and editing the plan.  The empty log of a
    first start is so. *)
Theorem logs_stay_ordered_and_positive (milestones : list Milestone.t)
    (Number : string -> num) (es : list Backup.event) (st : Backup.state) :
  Inv.dateDescending (Backup.logs st) ->
  Inv.positiveLogs (Backup.logs st) ->
  Inv.dateDescending (Backup.logs (Backup.steps milestones Number es st))
  /\ Inv.positiveLogs (Backup.logs (Backup.steps milestones Number es st)).
Proof.
  revert st. induction es as [|e es IH]; intros st Hs Hp.
  - split; [exact Hs | exact Hp].
  - cbn [Backup.steps fold_left].
    destruct (Backup_step_invariant milestones Number st e (conj Hs Hp))
      as [Hs' Hp'].
    exact (IH _ Hs' Hp').
Qed.

Lemma logs_stay_ordered_and_positive_witness :
  let st :=
    Backup.steps Backup.DEFAULT_MILESTONES Input.Number
      [Backup.typeMiles "3"; Backup.pickDate "2024-01-02";
       Backup.clickAdd "a";
       Backup.typeMiles "4"; Backup.pickDate "2024-01-05";
       Backup.clickAdd "b";
       Backup.typeMiles "-1"; Backup.clickAdd "c";
       Backup.clickDelete "a"]
      (Backup.defaults "2024-01-01") in
  Backup.logs st = [Log.mk "b" "2024-01-05" (Fin 4)]
  /\ Inv.dateDescending (Backup.logs st)
  /\ Inv.positiveLogs (Backup.logs st).
Proof.
  split; [reflexivity|].
  refine (logs_stay_ordered_and_positive Backup.DEFAULT_MILESTONES
            Input.Number _ (Backup.defaults "2024-01-01") _ _);
    constructor.
Defined.

Lemma filter_id_fresh (uuid : string) (l : list Log.t) :
  ~ In uuid (map Log.id l) ->
  filter (fun x => negb (Log.id x =? uuid)%string) l = l.
Proof.
  induction l as [|x l IH]; intros H; [reflexivity|]. simpl in *.
  destruct (Log.id x =? uuid)%string eqn:E.
  - apply String.eqb_eq in E. exfalso. apply H. now left.
  - simpl. f_equal. apply IH. intros Hin. apply H. now right.
Qed.

(** X14: adding a log and then deleting it restores the stored logs,
    when they were in order of date (latest first) and the identifier of
    the new log was not in use.  (A rejected input stores nothing, and
    the deletion then finds nothing to remove.) *)
Theorem add_then_remove (milestones : list Milestone.t)
    (Number : string -> num) (uuid : string) (st : Backup.state) :
  Inv.dateDescending (Backup.logs st) ->
  ~ In uuid (map Log.id (Backup.logs st)) ->
  Backup.logs
    (Backup.steps milestones Number
       [Backup.clickAdd uuid; Backup.clickDelete uuid] st)
  = Backup.logs st.
Proof.
  intros Hs Hfresh. cbn [Backup.steps fold_left].
  rewrite removeLog_logs.
  destruct (Backup.accepts (Number (Backup.entryMiles st))) eqn:E.
  - rewrite addLog_logs by exact E. rewrite stableSort_snoc.
    rewrite insert_into_descending by exact Hs.
    rewrite filter_app. cbn [filter Log.id]. rewrite String.eqb_refl.
    cbn [negb].
    rewrite !filter_id_fresh.
    + now apply descending_split.
    + intros Hin. apply Hfresh. apply in_map_iff in Hin.
      destruct Hin as (x & Hx & Hin). apply filter_In in Hin.
      apply in_map_iff. exists x. split; [exact Hx | exact (proj1 Hin)].
    + intros Hin. apply Hfresh. apply in_map_iff in Hin.
      destruct Hin as (x & Hx & Hin). apply filter_In in Hin.
      apply in_map_iff. exists x. split; [exact Hx | exact (proj1 Hin)].
  - rewrite addLog_rejected by exact E. now apply filter_id_fresh.
Qed.

Lemma add_then_remove_witness :
  let st :=
    Backup.mkState (Fin 1800) "2027-10-12"
      [Log.mk "a" "2024-01-05" (Fin 2); Log.mk "b" "2024-01-02" (Fin 3)]
      "4" "2024-01-03" Backup.NoToast None true "2024-01-01"
      (Fin 5) (Fin 7) Backup.DEFAULT_RAMP_STAGES in
  Backup.logs
    (Backup.steps Backup.DEFAULT_MILESTONES Input.Number
       [Backup.clickAdd "c"; Backup.clickDelete "c"] st)
  = Backup.logs st.
Proof.
  refine (add_then_remove Backup.DEFAULT_MILESTONES Input.Number "c"
            (Backup.mkState (Fin 1800) "2027-10-12"
               [Log.mk "a" "2024-01-05" (Fin 2);
                Log.mk "b" "2024-01-02" (Fin 3)]
               "4" "2024-01-03" Backup.NoToast None true "2024-01-01"
               (Fin 5) (Fin 7) Backup.DEFAULT_RAMP_STAGES) _ _).
  - repeat constructor.
  - simpl. intros [H | [H | []]]; discriminate.
Defined.

(** X15: [removeLog] removes every log that carries the identifier and
    keeps the others: afterwards no stored log has it, and deleting it
    once more changes no log.  For an identifier that no log carries the
    logs stay as they were; the toast "Entry removed." is raised all the
    same. *)
Theorem removeLog_absent_and_twice (milestones : list Milestone.t)
    (Number : string -> num) (id : string) (st : Backup.state) :
  let st' := Backup.step milestones Number st (Backup.clickDelete id) in
  ~ In id (map Log.id (Backup.logs st'))
  /\ (forall r, In r (Backup.logs st')
                <-> In r (Backup.logs st) /\ Log.id r <> id)
  /\ Backup.logs (Backup.step milestones Number st' (Backup.clickDelete id))
     = Backup.logs st'
  /\ (~ In id (map Log.id (Backup.logs st)) ->
      Backup.logs st' = Backup.logs st)
  /\ Backup.toast st' = Backup.EntryRemoved.
Proof.
  intros st'. subst st'. rewrite !removeLog_logs.
  assert (Hgone : ~ In id (map Log.id
                    (filter (fun x => negb (Log.id x =? id)%string)
                       (Backup.logs st)))).
  { intros Hin. apply in_map_iff in Hin. destruct Hin as (x & Hx & Hin).
    apply filter_In in Hin. destruct Hin as [_ Hne].
    apply negb_true_iff in Hne. apply String.eqb_neq in Hne. congruence. }
  split; [exact Hgone|]. split; [|split; [|split]].
  - intros r. rewrite filter_In, negb_true_iff, String.eqb_neq. tauto.
  - now apply filter_id_fresh.
  - apply filter_id_fresh.
  - reflexivity.
Qed.

Lemma removeLog_absent_and_twice_witness :
  Backup.logs
    (Backup.step Backup.DEFAULT_MILESTONES Input.Number
       (Backup.mkState (Fin 1800) "2027-10-12"
          [Log.mk "a" "2024-01-05" (Fin 2)]
          "" "2024-01-03" Backup.NoToast None true "2024-01-01"
          (Fin 5) (Fin 7) Backup.DEFAULT_RAMP_STAGES)
       (Backup.clickDelete "zz"))
  = [Log.mk "a" "2024-01-05" (Fin 2)].
Proof.
  refine (proj1 (proj2 (proj2 (proj2
    (removeLog_absent_and_twice Backup.DEFAULT_MILESTONES Input.Number "zz"
       (Backup.mkState (Fin 1800) "2027-10-12"
          [Log.mk "a" "2024-01-05" (Fin 2)]
          "" "2024-01-03" Backup.NoToast None true "2024-01-01"
          (Fin 5) (Fin 7) Backup.DEFAULT_RAMP_STAGES))))) _).
  simpl. intros [H | []]. discriminate.
Defined.

(** ** The total of the stored logs *)

Lemma Backup_totalMiles_nonneg (logs : list Log.t) :
  Inv.positiveLogs logs ->
  JS.le (Fin 0) (Backup.totalMiles logs) = true.
Proof.
  unfold Backup.totalMiles.
  assert (H : forall acc, JS.le (Fin 0) acc = true ->
    Inv.positiveLogs logs ->
    JS.le (Fin 0)
      (fold_left (fun s r => JS.add s (JS.or_else (Log.miles r) (Fin 0)))
         logs acc)
    = true).
  { induction logs as [|r l IH]; intros acc Hacc Hall; simpl; trivial.
    inversion Hall as [|? ? Hr Hl]; subst. apply IH; trivial.
    apply le_add_nonneg; trivial.
    apply Backup_accepts_iff in Hr. destruct Hr as (q & Hq & Hpos).
    rewrite Hq. unfold JS.or_else, JS.truthy.
    destruct (Qeq_bool q 0); cbn [negb JS.le]; apply Qle_bool_iff; lra. }
  apply H. reflexivity.
Qed.

Lemma Backup_step_positive (milestones : list Milestone.t)
    (Number : string -> num) (st : Backup.state) (e : Backup.event) :
  Inv.positiveLogs (Backup.logs st) ->
  Inv.positiveLogs (Backup.logs (Backup.step milestones Number st e)).
Proof.
  intros Hp. destruct e as [s|s|uuid|id|index field value];
    try exact Hp.
  - destruct (Backup.accepts (Number (Backup.entryMiles st))) eqn:E.
    + rewrite addLog_logs by exact E. unfold Inv.positiveLogs.
      eapply Permutation_Forall; [apply stableSort_perm|].
      apply Forall_app. split; [exact Hp|].
      constructor; [exact E | constructor].
    + now rewrite addLog_rejected by exact E.
  - rewrite removeLog_logs. now apply Forall_filter.
Qed.

(** X16: when every stored distance is finite and greater than 0, the
    total of the logs is never negative and never [NaN], and this stays
    so under every run of events of [App]: the milestones are always
    looked up for a total from 0 upwards. *)
Theorem logs_total_nonneg (milestones : list Milestone.t)
    (Number : string -> num) (es : list Backup.event) (st : Backup.state) :
  Inv.positiveLogs (Backup.logs st) ->
  let st' := Backup.steps milestones Number es st in
  JS.le (Fin 0) (Backup.totalMiles (Backup.logs st')) = true
  /\ JS.isNaN (Backup.totalMiles (Backup.logs st')) = false.
Proof.
  intros H st'. subst st'.
  assert (Hinv : Inv.positiveLogs
                   (Backup.logs (Backup.steps milestones Number es st))).
  { revert st H. induction es as [|e es IH]; intros st H; [exact H|].
    cbn [Backup.steps fold_left]. apply IH.
    now apply Backup_step_positive. }
  pose proof (Backup_totalMiles_nonneg _ Hinv) as Hnn.
  split; [exact Hnn|].
  destruct (Backup.totalMiles _); [discriminate | reflexivity ..].
Qed.

Lemma logs_total_nonneg_witness :
  JS.le (Fin 0)
    (Backup.totalMiles
       (Backup.logs
          (Backup.steps Backup.DEFAULT_MILESTONES Input.Number
             [Backup.typeMiles "3"; Backup.pickDate "2024-01-02";
              Backup.clickAdd "a";
              Backup.typeMiles "4"; Backup.pickDate "2024-01-05";
              Backup.clickAdd "b"; Backup.clickDelete "a"]
             (Backup.defaults "2024-01-01"))))
  = true.
Proof.
  refine (proj1 (logs_total_nonneg Backup.DEFAULT_MILESTONES Input.Number
                   _ (Backup.defaults "2024-01-01") _)).
  constructor.
Defined.

(** X17: when an accepted distance brings no milestone into reach,
    [addLog] raises one toast.  If a milestone lies ahead of the old
    total, the toast tells the miles to it from the new total, and that
    number is greater than 0: the [Math.max(0, ...)] never lowers it.
    If none lies ahead, the toast is "Logged! Quest complete." and the
    old total had reached every milestone of the table. *)
Theorem addLog_logged_toast (milestones : list Milestone.t)
    (Number : string -> num) (uuid : string) (st : Backup.state)
    (B m : Q) :
  Backup.totalMiles (Backup.logs st) = Fin B ->
  Number (Backup.entryMiles st) = Fin m ->
  (0 < m)%Q ->
  Backup.newly milestones (Fin B) (Fin (B + m)) = [] ->
  match Backup.nextMilestone milestones (Fin B) with
  | Some nm =>
      Backup.toasts (Backup.addLog milestones Number uuid st)
      = [Backup.LoggedToNext (Fin (Milestone.miles nm + - (B + m)))]
      /\ (0 < Milestone.miles nm + - (B + m))%Q
  | None =>
      Backup.toasts (Backup.addLog milestones Number uuid st)
      = [Backup.QuestComplete]
      /\ Forall (fun x => (Milestone.miles x <= B)%Q) milestones
  end.
Proof.
  intros HB Hm Hpos Hnew. unfold Backup.addLog.
  rewrite Hm, HB. cbn [JS.isFinite negb orb JS.le JS.add].
  assert (Hle : Qle_bool m 0 = false).
  { destruct (Qle_bool m 0) eqn:E; [|reflexivity].
    apply Qle_bool_iff in E. lra. }
  rewrite Hle, Hnew. cbn [at_last].
  destruct (Backup.nextMilestone milestones (Fin B)) as [nm|] eqn:En.
  - unfold Backup.nextMilestone in En.
    destruct (find_some _ _ En) as [Hin Hlt]. cbn [JS.lt] in Hlt.
    apply Qltb_lt in Hlt.
    assert (Hd : (0 < Milestone.miles nm + - (B + m))%Q).
    { assert (Hf : In nm (Backup.newly milestones (Fin B) (Fin (B + m)))
                   -> False) by (rewrite Hnew; intros []).
      destruct (Qlt_le_dec (B + m) (Milestone.miles nm)) as [H|H]; [lra|].
      exfalso. apply Hf. unfold Backup.newly. apply filter_In.
      split; [exact Hin|]. cbn [JS.lt JS.ge JS.le].
      apply andb_true_iff. split.
      - apply Qltb_lt. exact Hlt.
      - now apply Qle_bool_iff. }
    split; [|exact Hd].
    cbn [Backup.toasts flat_map app JS.sub JS.neg JS.add JS.max JS.lt].
    apply Qltb_lt in Hd. rewrite Hd. reflexivity.
  - split; [reflexivity|].
    unfold Backup.nextMilestone in En. rewrite Forall_forall.
    intros x Hx. pose proof (find_none _ _ En x Hx) as Hx'.
    cbn [JS.lt] in Hx'. now apply Qltb_ge.
Qed.

Lemma addLog_logged_toast_witness :
  Backup.toasts
    (Backup.addLog Backup.DEFAULT_MILESTONES Input.Number "c"
       (Backup.mkState (Fin 1800) "2027-10-12"
          [Log.mk "a" "2024-01-05" (Fin 2); Log.mk "b" "2024-01-02" (Fin 3)]
          "4" "2024-01-03" Backup.NoToast None true "2024-01-01"
          (Fin 5) (Fin 7) Backup.DEFAULT_RAMP_STAGES))
  = [Backup.LoggedToNext (Fin (120 + - (5 + 4)))].
Proof.
  refine (proj1 (addLog_logged_toast Backup.DEFAULT_MILESTONES Input.Number
            "c"
            (Backup.mkState (Fin 1800) "2027-10-12"
               [Log.mk "a" "2024-01-05" (Fin 2);
                Log.mk "b" "2024-01-02" (Fin 3)]
               "4" "2024-01-03" Backup.NoToast None true "2024-01-01"
               (Fin 5) (Fin 7) Backup.DEFAULT_RAMP_STAGES)
            5 4 _ _ _ _)); reflexivity.
Defined.

(** ** Editing one stage of the plan *)

Lemma clamp_le_hi (n hi : num) (lo : Q) :
  n <> NaN -> hi <> NaN -> JS.le (Fin lo) hi = true ->
  JS.le (Backup.clamp n (Fin lo) hi) hi = true.
Proof.
  intros Hn Hh Hlo. unfold Backup.clamp.
  destruct n as [| | |q], hi as [| | |h]; try congruence;
    try discriminate; cbn [JS.min JS.max JS.lt JS.le] in *;
    try reflexivity;
    try apply Qle_bool_iff in Hlo;
    repeat match goal with
           | |- context [JS.Qltb ?a ?b] =>
               let E := fresh "E" in
               destruct (JS.Qltb a b) eqn:E;
               [apply Qltb_lt in E | apply Qltb_ge in E];
               cbn [JS.min JS.max JS.lt JS.le]
           end;
    try reflexivity; try (apply Qle_bool_iff; lra).
Qed.

Lemma updateAt_length (f : Stage.t -> Stage.t) (l : list Stage.t)
    (index : nat) :
  List.length (Backup.updateAt index f l) = List.length l.
Proof.
  revert index. induction l as [|s l IH]; intros [|i]; simpl; auto.
Qed.

Lemma updateAt_other (f : Stage.t -> Stage.t) (l : list Stage.t)
    (index j : nat) :
  j <> index ->
  nth_error (Backup.updateAt index f l) j = nth_error l j.
Proof.
  revert index j. induction l as [|s l IH]; intros [|i] [|j] H; simpl;
    try reflexivity; try congruence.
  apply IH. congruence.
Qed.

Lemma updateAt_same (f : Stage.t -> Stage.t) (l : list Stage.t)
    (index : nat) (s : Stage.t) :
  nth_error l index = Some s ->
  nth_error (Backup.updateAt index f l) index = Some (f s).
Proof.
  revert index. induction l as [|x l IH]; intros [|i] H; simpl in *;
    try discriminate.
  - now injection H as ->.
  - now apply IH.
Qed.

(** X18: [updateStage] on a stage of the plan changes that stage only,
    and of it only the field that is named: the number of stages and
    every other stage stay, as do the logs; the field [weeks] becomes a
    whole number from 1 to 52, the field [milesPerDay] a rate of at
    least 0.5 that does not exceed the cap in use ([Number(capMiles) ||
    5]) when that cap is itself at least 0.5; any other field name
    changes nothing. *)
Theorem updateStage_frame (milestones : list Milestone.t)
    (Number : string -> num) (index : nat) (field value : string)
    (st : Backup.state) (s : Stage.t) :
  nth_error (Backup.rampStages st) index = Some s ->
  let st' :=
    Backup.step milestones Number st (Backup.editStage index field value) in
  let cap := JS.or_else (Backup.capMiles st) (Fin 5) in
  List.length (Backup.rampStages st') = List.length (Backup.rampStages st)
  /\ (forall j, j <> index ->
        nth_error (Backup.rampStages st') j
        = nth_error (Backup.rampStages st) j)
  /\ Backup.logs st' = Backup.logs st
  /\ (exists s',
        nth_error (Backup.rampStages st') index = Some s'
        /\ (field = "weeks" ->
            1 <= Stage.weeks s' <= 52
            /\ Stage.milesPerDay s' = Stage.milesPerDay s)
        /\ (field = "milesPerDay" ->
            Stage.weeks s' = Stage.weeks s
            /\ JS.le (Fin (1 # 2)) (Stage.milesPerDay s') = true
            /\ (JS.le (Fin (1 # 2)) cap = true ->
                JS.le (Stage.milesPerDay s') cap = true))
        /\ (field <> "weeks" -> field <> "milesPerDay" -> s' = s)).
Proof.
  intros Hs st' cap. subst st'.
  unfold Backup.step, Backup.handler, Backup.updateStage.
  cbn [Backup.run fold_left Backup.apply Backup.rampStages Backup.logs].
  destruct (field =? "weeks")%string eqn:Ew;
    destruct (field =? "milesPerDay")%string eqn:Em.
  - apply String.eqb_eq in Ew. apply String.eqb_eq in Em.
    subst field. discriminate.
  - apply String.eqb_eq in Ew. subst field.
    split; [apply updateAt_length|]. split; [intros; now apply updateAt_other|].
    split; [reflexivity|]. eexists. split; [exact (updateAt_same _ _ _ _ Hs)|].
    cbn [Stage.weeks Stage.milesPerDay].
    split; [intros _; split; [apply weeksOf_range | reflexivity]|].
    split; [discriminate | congruence].
  - apply String.eqb_eq in Em. subst field.
    split; [apply updateAt_length|]. split; [intros; now apply updateAt_other|].
    split; [reflexivity|]. eexists. split; [exact (updateAt_same _ _ _ _ Hs)|].
    cbn [Stage.weeks Stage.milesPerDay].
    split; [discriminate|]. split; [|congruence].
    intros _. split; [reflexivity|].
    split; [apply rateOf_at_least_half|].
    intros Hcap. unfold Backup.rateOf. apply clamp_le_hi; trivial;
      apply or_else_not_NaN.
  - apply String.eqb_neq in Ew. apply String.eqb_neq in Em.
    split; [reflexivity|]. split; [reflexivity|]. split; [reflexivity|].
    exists s. split; [exact Hs|]. repeat split; congruence.
Qed.

Lemma updateStage_frame_witness :
  List.length
    (Backup.rampStages
       (Backup.step Backup.DEFAULT_MILESTONES Input.Number
          (Backup.defaults "2024-01-01")
          (Backup.editStage 1 "milesPerDay" "9")))
  = 6%nat
  /\ nth_error
       (Backup.rampStages
          (Backup.step Backup.DEFAULT_MILESTONES Input.Number
             (Backup.defaults "2024-01-01")
             (Backup.editStage 1 "milesPerDay" "9"))) 2
     = Some (Stage.mk 4 (Fin 3)).
Proof.
  pose proof (updateStage_frame Backup.DEFAULT_MILESTONES Input.Number
                1 "milesPerDay" "9" (Backup.defaults "2024-01-01")
                (Stage.mk 4 (Fin (5 # 2))) eq_refl) as H.
  split; [exact (proj1 H)|].
  exact (proj1 (proj2 H) 2%nat ltac:(discriminate)).
Defined.

(** ** The ledger of [MountDoomTracker] *)

Lemma at_last_split {A : Type} (l : list A) (x : A) :
  at_last l = Some x -> l = (removelast l ++ [x])%list.
Proof.
  intros H. destruct l as [|y l]; [discriminate|].
  destruct (exists_last (l := y :: l)) as (l' & z & E); [discriminate|].
  rewrite E in *. rewrite at_last_snoc in H. injection H as ->.
  now rewrite removelast_last.
Qed.

Lemma deleteLast_entries (parseFloat : string -> num) (st : Tracker.state) :
  Tracker.entries (Tracker.step parseFloat st Tracker.clickDeleteLast)
  = removelast (Tracker.entries st).
Proof.
  unfold Tracker.step, Tracker.handler, Tracker.deleteLast, Tracker.lastEntry.
  destruct (at_last (Tracker.entries st)) eqn:E; [reflexivity|].
  apply at_last_none in E. cbn [Tracker.run fold_left].
  rewrite E. reflexivity.
Qed.

Lemma saveEditLast_entries (parseFloat : string -> num) (st : Tracker.state) :
  Tracker.entries (Tracker.step parseFloat st Tracker.clickSave)
  = if Tracker.accepts (parseFloat (Tracker.editMiles st))
    then Tracker.editLastOf (parseFloat (Tracker.editMiles st))
           (Tracker.entries st)
    else Tracker.entries st.
Proof.
  unfold Tracker.step, Tracker.handler, Tracker.saveEditLast,
    Tracker.lastEntry, Tracker.accepts.
  destruct (at_last (Tracker.entries st)) eqn:E.
  - destruct (JS.isNaN _ || JS.le _ _); cbn [negb]; [reflexivity|].
    rewrite Tracker_run_app.
    destruct (JS.gt _ _ && Tracker.idDiffers _ _);
      [rewrite showRewardToast_entries|]; reflexivity.
  - apply at_last_none in E. cbn [Tracker.run fold_left]. rewrite E.
    destruct (negb _); reflexivity.
Qed.

Lemma Tracker_totalMiles_snoc (l : list Entry.t) (e : Entry.t) :
  Tracker.totalMiles (l ++ [e])
  = JS.add (Tracker.totalMiles l) (Entry.miles e).
Proof. unfold Tracker.totalMiles. now rewrite fold_left_app. Qed.

(** X19: an accepted "Add" followed by "Delete last" leaves the entries
    as they were before the two, with the toast cleared and the edit
    field closed.  On the empty ledger "Delete last" does nothing at
    all: the state is unchanged. *)
Theorem add_then_deleteLast (parseFloat : string -> num)
    (uuid now : string) (st : Tracker.state) :
  (Tracker.accepts (parseFloat (Tracker.inputMiles st)) = true ->
   let st' :=
     Tracker.steps parseFloat
       [Tracker.clickAdd uuid now; Tracker.clickDeleteLast] st in
   Tracker.entries st' = Tracker.entries st
   /\ Tracker.toast st' = None
   /\ Tracker.isEditingLast st' = false)
  /\ (Tracker.entries st = [] ->
      Tracker.step parseFloat st Tracker.clickDeleteLast = st).
Proof.
  split.
  - intros Hacc st'. subst st'. cbn [Tracker.steps fold_left].
    split.
    + rewrite deleteLast_entries, addMiles_entries, Hacc.
      apply removelast_last.
    + set (st1 := Tracker.step parseFloat st (Tracker.clickAdd uuid now)).
      assert (Hlast : Tracker.lastEntry st1
                      = Some (Entry.mk uuid
                                (parseFloat (Tracker.inputMiles st)) now false)).
      { unfold Tracker.lastEntry, st1. rewrite addMiles_entries, Hacc.
        apply at_last_snoc. }
      unfold Tracker.step, Tracker.handler, Tracker.deleteLast.
      rewrite Hlast. split; reflexivity.
  - intros Hempty.
    unfold Tracker.step, Tracker.handler, Tracker.deleteLast,
      Tracker.lastEntry.
    rewrite Hempty. reflexivity.
Qed.

Lemma add_then_deleteLast_witness :
  Tracker.entries
    (Tracker.steps Input.parseFloat
       [Tracker.clickAdd "b" "t2"; Tracker.clickDeleteLast]
       (Tracker.mkState [Entry.mk "a" (Fin 100) "t1" false]
          "25" false "" None false))
  = [Entry.mk "a" (Fin 100) "t1" false].
Proof.
  exact (proj1 (proj1 (add_then_deleteLast Input.parseFloat "b" "t2"
           (Tracker.mkState [Entry.mk "a" (Fin 100) "t1" false]
              "25" false "" None false)) eq_refl)).
Defined.

(** X20: no handler of the second component touches an entry other than
    the last: after any event the entries before the last one are still
    there, in place, followed by at most two entries (the last one, kept
    or edited, and an appended one). *)
Theorem only_the_last_entry_changes (parseFloat : string -> num)
    (st : Tracker.state) (e : Tracker.event) :
  exists tail,
    Tracker.entries (Tracker.step parseFloat st e)
    = (removelast (Tracker.entries st) ++ tail)%list
    /\ (List.length tail <= 2)%nat.
Proof.
  assert (Hsame : exists tail,
            Tracker.entries st = (removelast (Tracker.entries st) ++ tail)%list
            /\ (List.length tail <= 1)%nat).
  { destruct (at_last (Tracker.entries st)) as [x|] eqn:E.
    - exists [x]. split; [now apply at_last_split | simpl; lia].
    - apply at_last_none in E. rewrite E. exists []. split; [reflexivity|].
      simpl; lia. }
  destruct Hsame as (t & Ht & Hlen).
  assert (Hkeep : exists tail,
            Tracker.entries st = (removelast (Tracker.entries st) ++ tail)%list
            /\ (List.length tail <= 2)%nat)
    by (exists t; split; [exact Ht | lia]).
  destruct e as [s|uuid now| |s| | |]; try exact Hkeep.
  - rewrite addMiles_entries.
    destruct (Tracker.accepts _); [|exact Hkeep].
    eexists (t ++ [_])%list. split.
    + rewrite app_assoc, <- Ht. reflexivity.
    + rewrite length_app. simpl. lia.
  - rewrite deleteLast_entries. exists []. split.
    + now rewrite app_nil_r.
    + simpl. lia.
  - rewrite saveEditLast_entries.
    destruct (Tracker.accepts _); [|exact Hkeep].
    destruct (at_last (Tracker.entries st)) as [x|] eqn:E.
    + pose proof (at_last_split _ _ E) as Hsplit.
      set (pre := removelast (Tracker.entries st)) in *.
      rewrite Hsplit, editLastOf_snoc.
      eexists [_]. split; [reflexivity | simpl; lia].
    + apply at_last_none in E. rewrite E. exists []. split; [reflexivity|].
      simpl; lia.
Qed.

Lemma editLastOf_ids (value : num) (l : list Entry.t) :
  map Entry.id (Tracker.editLastOf value l) = map Entry.id l.
Proof.
  induction l as [|x l IH]; [reflexivity|].
  cbn [Tracker.editLastOf]. destruct l as [|y l']; [reflexivity|].
  change (map Entry.id (x :: Tracker.editLastOf value (y :: l'))
          = map Entry.id (x :: y :: l')).
  cbn [map] in *. now rewrite IH.
Qed.

(** X21: the identifiers of the entries stay distinct under every event,
    provided an "Add" brings an identifier that is not yet in the
    ledger: saving an edit keeps the identifiers as they are, deleting
    removes the last one, and the other events leave the entries
    alone. *)
Theorem ids_stay_distinct (parseFloat : string -> num)
    (st : Tracker.state) (e : Tracker.event) :
  NoDup (Inv.entryIds st) ->
  Inv.freshId st e ->
  NoDup (Inv.entryIds (Tracker.step parseFloat st e)).
Proof.
  unfold Inv.entryIds. intros Hnd Hfresh.
  destruct e as [s|uuid now| |s| | |]; try exact Hnd.
  - rewrite addMiles_entries.
    destruct (Tracker.accepts _); [|exact Hnd].
    rewrite map_app. cbn [map Entry.id].
    apply NoDup_rev in Hnd. rewrite <- (rev_involutive (_ ++ _)%list).
    apply NoDup_rev. rewrite rev_app_distr. cbn [rev app].
    constructor; [|exact Hnd].
    rewrite <- in_rev. exact Hfresh.
  - rewrite deleteLast_entries.
    destruct (at_last (Tracker.entries st)) as [x|] eqn:E.
    + rewrite (at_last_split _ _ E) in Hnd. rewrite map_app in Hnd.
      exact (NoDup_app_remove_r _ _ Hnd).
    + apply at_last_none in E. rewrite E. constructor.
  - rewrite saveEditLast_entries.
    destruct (Tracker.accepts _); [|exact Hnd].
    now rewrite editLastOf_ids.
Qed.

Lemma ids_stay_distinct_witness :
  NoDup
    (Inv.entryIds
       (Tracker.step Input.parseFloat
          (Tracker.mkState [Entry.mk "a" (Fin 100) "t1" false]
             "25" false "" None false)
          (Tracker.clickAdd "b" "t2"))).
Proof.
  refine (ids_stay_distinct Input.parseFloat
            (Tracker.mkState [Entry.mk "a" (Fin 100) "t1" false]
               "25" false "" None false)
            (Tracker.clickAdd "b" "t2") _ _).
  - repeat constructor. simpl. tauto.
  - simpl. intros [H | []]. discriminate.
Defined.

(** X22: a ledger of accepted distances stays one under every run of
    events, and its total is then never negative and never [NaN]; the
    empty ledger of a first start is one.  So the milestone lookups of
    the component always work on a total from 0 upwards. *)
Theorem ledger_stays_positive (parseFloat : string -> num)
    (es : list Tracker.event) (st : Tracker.state) :
  Inv.positiveEntries (Tracker.entries st) ->
  let st' := Tracker.steps parseFloat es st in
  Inv.positiveEntries (Tracker.entries st')
  /\ JS.le (Fin 0) (Tracker.totalMiles (Tracker.entries st')) = true
  /\ JS.isNaN (Tracker.totalMiles (Tracker.entries st')) = false.
Proof.
  intros H st'. subst st'.
  assert (Hinv : Inv.positiveEntries
                   (Tracker.entries (Tracker.steps parseFloat es st))).
  { revert st H. induction es as [|e es IH]; intros st H; [exact H|].
    cbn [Tracker.steps fold_left]. apply IH.
    now apply Tracker_step_keeps_accepted. }
  split; [exact Hinv|].
  pose proof (Tracker_totalMiles_nonneg _ Hinv) as Hnn.
  split; [exact Hnn|].
  destruct (Tracker.totalMiles _); [discriminate | reflexivity ..].
Qed.

Lemma ledger_stays_positive_witness :
  JS.le (Fin 0)
    (Tracker.totalMiles
       (Tracker.entries
          (Tracker.steps Input.parseFloat
             [Tracker.typeMiles "25"; Tracker.clickAdd "a" "t1";
              Tracker.typeMiles "-3"; Tracker.clickAdd "b" "t2";
              Tracker.typeEditMiles "40"; Tracker.clickSave;
              Tracker.clickDeleteLast; Tracker.clickDeleteLast]
             Tracker.initial)))
  = true.
Proof.
  refine (proj1 (proj2 (ledger_stays_positive Input.parseFloat _
                          Tracker.initial _))).
  constructor.
Defined.

(** X23: the total after an accepted "Add" is the total before plus the
    distance added, which is the [nextTotal] that [addMiles] works with.
    The total after an accepted "Save" is the total of the entries
    before the last one plus the new distance.  (The sums are taken in
    the order in which the code takes them.) *)
Theorem totals_after_add_and_save (parseFloat : string -> num)
    (st : Tracker.state) :
  (forall uuid now,
      Tracker.accepts (parseFloat (Tracker.inputMiles st)) = true ->
      Tracker.totalMiles
        (Tracker.entries
           (Tracker.step parseFloat st (Tracker.clickAdd uuid now)))
      = JS.add (Tracker.totalMiles (Tracker.entries st))
          (parseFloat (Tracker.inputMiles st)))
  /\ (forall lastEntry,
        Tracker.lastEntry st = Some lastEntry ->
        Tracker.accepts (parseFloat (Tracker.editMiles st)) = true ->
        Tracker.totalMiles
          (Tracker.entries (Tracker.step parseFloat st Tracker.clickSave))
        = JS.add (Tracker.totalMiles (removelast (Tracker.entries st)))
            (parseFloat (Tracker.editMiles st))).
Proof.
  split.
  - intros uuid now Hacc. rewrite addMiles_entries, Hacc.
    now rewrite Tracker_totalMiles_snoc.
  - intros lastEntry Hlast Hacc.
    rewrite saveEditLast_entries, Hacc.
    unfold Tracker.lastEntry in Hlast.
    pose proof (at_last_split _ _ Hlast) as Hsplit.
    set (pre := removelast (Tracker.entries st)) in *.
    rewrite Hsplit, editLastOf_snoc.
    now rewrite Tracker_totalMiles_snoc.
Qed.

Lemma totals_after_add_and_save_witness :
  Tracker.totalMiles
    (Tracker.entries
       (Tracker.step Input.parseFloat
          (Tracker.mkState
             [Entry.mk "a" (Fin 100) "t1" false;
              Entry.mk "b" (Fin 10) "t2" false]
             "" true "15" None false)
          Tracker.clickSave))
  = Fin (0 + 100 + 15).
Proof.
  exact (proj2 (totals_after_add_and_save Input.parseFloat
                  (Tracker.mkState
                     [Entry.mk "a" (Fin 100) "t1" false;
                      Entry.mk "b" (Fin 10) "t2" false]
                     "" true "15" None false))
           (Entry.mk "b" (Fin 10) "t2" false) eq_refl eq_refl).
Defined.

(** ** The progress bar and the milestone rows of [MountDoomTracker] *)

Lemma ratio_percent (i sp : Q) :
  (0 < sp)%Q -> (0 <= i)%Q -> (i <= sp)%Q ->
  (0 <= i / sp * 100)%Q /\ (i / sp * 100 <= 100)%Q.
Proof.
  intros Hsp Hi Hle.
  assert (H0 : (0 <= i / sp)%Q) by (apply Qle_shift_div_l; lra).
  assert (H1 : (i / sp <= 1)%Q) by (apply Qle_shift_div_r; lra).
  set (x := (i / sp)%Q) in *. split; lra.
Qed.

(** X24: [progressToNext] is a percentage: for every total that is not
    [NaN], the infinities included, it lies between 0 and 100, and it
    is 100 when there is no next milestone.  For a total between two
    thresholds that are at least a mile apart it is the share of the
    way covered, [(total - start) / (end - start) * 100]. *)
Theorem progressToNext_percent (totalMiles : num)
    (currentMilestone : Milestone.t) (nextMilestone : option Milestone.t) :
  JS.isNaN totalMiles = false ->
  let p := Tracker.progressToNext totalMiles currentMilestone nextMilestone in
  JS.le (Fin 0) p = true
  /\ JS.le p (Fin 100) = true
  /\ (nextMilestone = None -> p = Fin 100)
  /\ (forall nm t,
        nextMilestone = Some nm -> totalMiles = Fin t ->
        (Milestone.miles currentMilestone <= t)%Q ->
        (t <= Milestone.miles nm)%Q ->
        (1 <= Milestone.miles nm - Milestone.miles currentMilestone)%Q ->
        JS.eqv p
          (Fin ((t - Milestone.miles currentMilestone)
                / (Milestone.miles nm - Milestone.miles currentMilestone)
                * 100))).
Proof.
  intros Hn p. subst p. unfold Tracker.progressToNext.
  destruct nextMilestone as [nm|].
  2:{ split; [reflexivity|]. split; [reflexivity|].
      split; [reflexivity | discriminate]. }
  set (s := Milestone.miles currentMilestone).
  set (e := Milestone.miles nm).
  assert (Hsp : exists q, JS.max (Fin 1) (JS.sub (Fin e) (Fin s)) = Fin q
                          /\ (1 <= q)%Q
                          /\ ((1 <= e - s)%Q -> (q == e - s)%Q)).
  { cbn [JS.sub JS.neg JS.add JS.max JS.lt].
    destruct (JS.Qltb 1 (e + - s)) eqn:E.
    - apply Qltb_lt in E. eexists. split; [reflexivity|].
      split; [|intros _; unfold Qminus]; lra.
    - apply Qltb_ge in E. exists 1%Q. split; [reflexivity|].
      split; [|unfold Qminus; intros]; lra. }
  destruct Hsp as (q & Hspq & Hq & Hqe). rewrite Hspq. clear Hspq.
  assert (Hqz : Qeq_bool q 0 = false).
  { destruct (Qeq_bool q 0) eqn:E; [|reflexivity].
    apply Qeq_bool_iff in E. lra. }
  destruct totalMiles as [| | |t]; try discriminate.
  - (* +Infinity *)
    cbn [JS.sub JS.neg JS.add JS.max JS.min JS.lt JS.div JS.mul]. rewrite Hqz.
    cbn [JS.mul JS.le].
    destruct (ratio_percent q q) as [H0 H1]; try lra.
    split; [now apply Qle_bool_iff|]. split; [now apply Qle_bool_iff|].
    split; discriminate.
  - (* -Infinity *)
    cbn [JS.sub JS.neg JS.add JS.max JS.min JS.lt].
    assert (Hlt : JS.Qltb 0 q = true) by (apply Qltb_lt; lra).
    rewrite Hlt. cbn [JS.div]. rewrite Hqz. cbn [JS.mul JS.le].
    destruct (ratio_percent 0 q) as [H0 H1]; try lra.
    split; [now apply Qle_bool_iff|]. split; [now apply Qle_bool_iff|].
    split; discriminate.
  - cbn [JS.sub JS.neg JS.add JS.max JS.lt].
    destruct (JS.Qltb 0 (t + - s)) eqn:E1.
    + apply Qltb_lt in E1. cbn [JS.min JS.lt].
      destruct (JS.Qltb (t + - s) q) eqn:E2.
      * apply Qltb_lt in E2. cbn [JS.div]. rewrite Hqz. cbn [JS.mul JS.le].
        destruct (ratio_percent (t + - s) q) as [H0 H1]; try lra.
        split; [now apply Qle_bool_iff|]. split; [now apply Qle_bool_iff|].
        split; [discriminate|].
        intros nm' t' Hnm Ht Hst Hte Hspan.
        injection Hnm as Hnm; subst nm'. injection Ht as Ht; subst t'.
        cbn [JS.eqv]. fold e s. rewrite (Hqe Hspan).
        unfold Qminus. reflexivity.
      * apply Qltb_ge in E2. cbn [JS.div]. rewrite Hqz. cbn [JS.mul JS.le].
        destruct (ratio_percent q q) as [H0 H1]; try lra.
        split; [now apply Qle_bool_iff|]. split; [now apply Qle_bool_iff|].
        split; [discriminate|].
        intros nm' t' Hnm Ht Hst Hte Hspan.
        injection Hnm as Hnm; subst nm'. injection Ht as Ht; subst t'.
        cbn [JS.eqv]. fold e s. fold e in Hte. fold s in Hst.
        specialize (Hqe Hspan).
        assert (Heq : (t - s == q)%Q) by (unfold Qminus in *; lra).
        rewrite <- Hqe. rewrite Heq. reflexivity.
    + apply Qltb_ge in E1. cbn [JS.min JS.lt].
      assert (Hlt : JS.Qltb 0 q = true) by (apply Qltb_lt; lra).
      rewrite Hlt. cbn [JS.div]. rewrite Hqz. cbn [JS.mul JS.le].
      destruct (ratio_percent 0 q) as [H0 H1]; try lra.
      split; [now apply Qle_bool_iff|]. split; [now apply Qle_bool_iff|].
      split; [discriminate|].
      intros nm' t' Hnm Ht Hst Hte Hspan.
      injection Hnm as Hnm; subst nm'. injection Ht as Ht; subst t'.
      cbn [JS.eqv]. fold e s. fold s in Hst.
      assert (Heq : (t - s == 0)%Q) by (unfold Qminus in *; lra).
      rewrite Heq. reflexivity.
Qed.

Lemma progressToNext_percent_witness :
  JS.eqv
    (Tracker.progressToNext (Fin 345)
       (Milestone.mk "bree" "Bree" 120 "" "")
       (Some (Milestone.mk "rivendell" "Rivendell" 570 "" "")))
    (Fin ((345 - 120) / (570 - 120) * 100)).
Proof.
  refine (proj2 (proj2 (proj2
    (progressToNext_percent (Fin 345)
       (Milestone.mk "bree" "Bree" 120 "" "")
       (Some (Milestone.mk "rivendell" "Rivendell" 570 "" ""))
       eq_refl)))
    (Milestone.mk "rivendell" "Rivendell" 570 "" "") 345%Q
    eq_refl eq_refl _ _ _);
    unfold Qle; simpl; lia.
Defined.

Lemma unlocked_ge (m : Milestone.t) (totalMiles : num) :
  Tracker.unlocked m totalMiles = JS.ge totalMiles (Fin (Milestone.miles m)).
Proof.
  unfold Tracker.unlocked, Tracker.milesLeft, JS.ge.
  destruct totalMiles as [| | |t]; try reflexivity.
  cbn [JS.sub JS.neg JS.add JS.max JS.lt JS.le].
  destruct (JS.Qltb 0 (Milestone.miles m + - t)) eqn:E; cbn [JS.strictEq].
  - apply Qltb_lt in E.
    destruct (Qeq_bool _ 0) eqn:E1;
      [apply Qeq_bool_iff in E1; lra|].
    destruct (Qle_bool (Milestone.miles m) t) eqn:E2;
      [apply Qle_bool_iff in E2; lra | reflexivity].
  - apply Qltb_ge in E.
    destruct (Qle_bool (Milestone.miles m) t) eqn:E2; [reflexivity|].
    assert (H : (Milestone.miles m <= t)%Q) by lra.
    apply Qle_bool_iff in H. congruence.
Qed.

(** X25: the rows of the milestone list that the second component shows
    as unlocked ([left === 0] with [left = Math.max(0, m.miles -
    totalMiles)]) are, for every total, [NaN] and the infinities
    included, the milestones with [totalMiles >= m.miles]: the ones
    [backup.jsx] collects as reached and marks as unlocked. *)
Theorem unlocked_rows_are_reached (table : list Milestone.t)
    (totalMiles : num) :
  (forall m, Tracker.unlocked m totalMiles
             = JS.ge totalMiles (Fin (Milestone.miles m)))
  /\ filter (fun m => Tracker.unlocked m totalMiles) table
     = Backup.reachedMilestones table totalMiles.
Proof.
  split; [intros m; apply unlocked_ge|].
  unfold Backup.reachedMilestones. apply filter_ext.
  intros m. apply unlocked_ge.
Qed.

(** X26: when there is a next milestone, the miles shown to it are
    greater than 0 and are exactly its threshold less the total (the
    [Math.max(0, ...)] never lowers them), and its row is not shown as
    unlocked. *)
Theorem next_milestone_ahead (table : list Milestone.t) (totalMiles : num)
    (nm : Milestone.t) :
  getNextMilestone table totalMiles = Some nm ->
  In nm table
  /\ Tracker.milesToNext totalMiles (Some nm)
     = JS.sub (Fin (Milestone.miles nm)) totalMiles
  /\ JS.lt (Fin 0) (Tracker.milesToNext totalMiles (Some nm)) = true
  /\ Tracker.unlocked nm totalMiles = false.
Proof.
  intros H. unfold getNextMilestone in H.
  destruct (find_some _ _ H) as [Hin Hgt]. split; [exact Hin|].
  rewrite unlocked_ge. unfold Tracker.milesToNext, JS.gt, JS.ge in *.
  destruct totalMiles as [| | |t]; try discriminate.
  - repeat split; reflexivity.
  - cbn [JS.lt] in Hgt. apply Qltb_lt in Hgt.
    cbn [JS.sub JS.neg JS.add JS.max JS.lt JS.le].
    assert (Hd : JS.Qltb 0 (Milestone.miles nm + - t) = true)
      by (apply Qltb_lt; lra).
    rewrite Hd. cbn [JS.lt]. rewrite Hd.
    split; [reflexivity|]. split; [reflexivity|].
    destruct (Qle_bool (Milestone.miles nm) t) eqn:E; [|reflexivity].
    apply Qle_bool_iff in E. lra.
Qed.

Lemma next_milestone_ahead_witness :
  Tracker.milesToNext (Fin 100)
    (Some (Milestone.mk "bree" "Bree" 120
             "You’ve left comfort behind." "Treat yourself to coffee."))
  = Fin (120 + - 100).
Proof.
  exact (proj1 (proj2
    (next_milestone_ahead Tracker.MILESTONES (Fin 100)
       (Milestone.mk "bree" "Bree" 120
          "You’ve left comfort behind." "Treat yourself to coffee.")
       eq_refl))).
Defined.

(** ** The plan under the events of [App] *)

Lemma Backup_step_stages (milestones : list Milestone.t)
    (Number : string -> num) (st : Backup.state) (e : Backup.event) :
  (forall index field value, e <> Backup.editStage index field value) ->
  Backup.rampStages (Backup.step milestones Number st e)
  = Backup.rampStages st.
Proof.
  intros Hne. destruct e as [s|s|uuid|id|index field value];
    try reflexivity.
  - unfold Backup.step, Backup.handler, Backup.addLog.
    destruct (negb _ || _); [reflexivity|].
    destruct (at_last _); [reflexivity|].
    destruct (Backup.nextMilestone _ _); reflexivity.
  - exfalso. exact (Hne index field value eq_refl).
Qed.

(** X27: the stages of the plan stay within the data model under every
    run of events of [App]: if each stage has from 1 to 52 weeks and a
    rate of at least 0.5, this is so after any typing, adding, deleting
    and editing of stages, whatever is typed into the stage editor; the
    default stages are so.  Only the stage editor changes the stages at
    all. *)
Theorem stages_stay_in_range (milestones : list Milestone.t)
    (Number : string -> num) (es : list Backup.event) (st : Backup.state) :
  Forall (fun s => 1 <= Stage.weeks s <= 52
                   /\ JS.le (Fin (1 # 2)) (Stage.milesPerDay s) = true)
    (Backup.rampStages st) ->
  Forall (fun s => 1 <= Stage.weeks s <= 52
                   /\ JS.le (Fin (1 # 2)) (Stage.milesPerDay s) = true)
    (Backup.rampStages (Backup.steps milestones Number es st))
  /\ ((forall e, In e es ->
         forall index field value, e <> Backup.editStage index field value) ->
      Backup.rampStages (Backup.steps milestones Number es st)
      = Backup.rampStages st).
Proof.
  revert st. induction es as [|e es IH]; intros st H.
  - split; [exact H | reflexivity].
  - cbn [Backup.steps fold_left].
    assert (H' : Forall
              (fun s => 1 <= Stage.weeks s <= 52
                        /\ JS.le (Fin (1 # 2)) (Stage.milesPerDay s) = true)
              (Backup.rampStages (Backup.step milestones Number st e))).
    { destruct e as [s|s|uuid|id|index field value];
        try (now apply updateStage_keeps_stages);
        rewrite Backup_step_stages; trivial; discriminate. }
    destruct (IH _ H') as [Hall Hsame]. split; [exact Hall|].
    intros Hno. fold (Backup.steps milestones Number es
                        (Backup.step milestones Number st e)).
    rewrite Hsame.
    + apply Backup_step_stages. apply Hno. now left.
    + intros e' He'. apply Hno. now right.
Qed.

Lemma stages_stay_in_range_witness :
  Forall (fun s => 1 <= Stage.weeks s <= 52
                   /\ JS.le (Fin (1 # 2)) (Stage.milesPerDay s) = true)
    (Backup.rampStages
       (Backup.steps Backup.DEFAULT_MILESTONES Input.Number
          [Backup.editStage 0 "weeks" "99";
           Backup.editStage 2 "milesPerDay" "0";
           Backup.typeMiles "3"; Backup.clickAdd "a"]
          (Backup.defaults "2024-01-01"))).
Proof.
  refine (proj1 (stages_stay_in_range Backup.DEFAULT_MILESTONES Input.Number
                   _ (Backup.defaults "2024-01-01") _)).
  repeat constructor; simpl; lia.
Defined.
